(** * nvvk::GBuffer (src/nvvk/gbuffers.cpp): a shallow embedding

    The G-buffer manager owns a configuration ([m_info]), a bundle of
    Vulkan resources ([m_res]), the current size and the descriptor-set
    layout used by the UI.  Every method mutates the object and talks to
    the Vulkan device, the resource allocator and a command buffer.  The
    embedding threads the object and a model of the outside world through
    a small monad; the outside world is a log of the calls made, a supply
    of fresh handles and the results the driver gives to the calls that
    can fail. *)

From Stdlib Require Import ZArith NArith List String Lia DecimalString.
From Stdlib Require Import Floats.SpecFloat.
From stdpp Require Import base tactics option list gmap.

Local Open Scope Z_scope.
Local Open Scope nat_scope.
Local Open Scope string_scope.
Local Open Scope list_scope.
Local Open Scope stdpp_scope.

(** ** Vulkan handles, enumerations and flag bits *)

Abbreviation VkHandle := N (only parsing).
Abbreviation VkDevice := N (only parsing).
Abbreviation VkImage := N (only parsing).
Abbreviation VkImageView := N (only parsing).
Abbreviation VkSampler := N (only parsing).
Abbreviation VkDescriptorPool := N (only parsing).
Abbreviation VkDescriptorSet := N (only parsing).
Abbreviation VkDescriptorSetLayout := N (only parsing).
Abbreviation VkCommandBuffer := N (only parsing).
Abbreviation VK_NULL_HANDLE := 0%N (only parsing).

Abbreviation VkResult := Z (only parsing).
Abbreviation VK_SUCCESS := 0%Z (only parsing).
Definition VK_ERROR_OUT_OF_HOST_MEMORY : Z := (-1)%Z.
Definition VK_ERROR_OUT_OF_DEVICE_MEMORY : Z := (-2)%Z.
Definition VK_ERROR_OUT_OF_POOL_MEMORY : Z := (-1000069000)%Z.

Abbreviation VkFormat := N (only parsing).
Abbreviation VK_FORMAT_UNDEFINED := 0%N (only parsing).
Definition VK_FORMAT_R8G8B8A8_UNORM : N := 37%N.
Definition VK_FORMAT_R32G32B32A32_SFLOAT : N := 109%N.
Definition VK_FORMAT_D32_SFLOAT : N := 126%N.

Abbreviation VkSampleCountFlagBits := N (only parsing).
Abbreviation VK_SAMPLE_COUNT_1_BIT := 1%N (only parsing).
Definition VK_SAMPLE_COUNT_4_BIT : N := 4%N.

Abbreviation VkFlags := N (only parsing).
Definition VK_IMAGE_USAGE_TRANSFER_SRC_BIT : N := 1%N.
Definition VK_IMAGE_USAGE_TRANSFER_DST_BIT : N := 2%N.
Definition VK_IMAGE_USAGE_SAMPLED_BIT : N := 4%N.
Definition VK_IMAGE_USAGE_STORAGE_BIT : N := 8%N.
Definition VK_IMAGE_USAGE_COLOR_ATTACHMENT_BIT : N := 16%N.
Definition VK_IMAGE_USAGE_DEPTH_STENCIL_ATTACHMENT_BIT : N := 32%N.
Definition VK_IMAGE_USAGE_TRANSIENT_ATTACHMENT_BIT : N := 64%N.
Definition VK_IMAGE_ASPECT_COLOR_BIT : N := 1%N.
Definition VK_IMAGE_ASPECT_DEPTH_BIT : N := 2%N.
Definition VK_SHADER_STAGE_FRAGMENT_BIT : N := 16%N.

Inductive VkImageLayout :=
| VK_IMAGE_LAYOUT_UNDEFINED
| VK_IMAGE_LAYOUT_COLOR_ATTACHMENT_OPTIMAL
| VK_IMAGE_LAYOUT_DEPTH_STENCIL_ATTACHMENT_OPTIMAL
| VK_IMAGE_LAYOUT_SHADER_READ_ONLY_OPTIMAL
| VK_IMAGE_LAYOUT_TRANSFER_DST_OPTIMAL.

Inductive VkComponentSwizzle :=
| VK_COMPONENT_SWIZZLE_IDENTITY
| VK_COMPONENT_SWIZZLE_ZERO
| VK_COMPONENT_SWIZZLE_ONE.

Inductive VkStructureType :=
| VK_STRUCTURE_TYPE_IMAGE_CREATE_INFO
| VK_STRUCTURE_TYPE_IMAGE_VIEW_CREATE_INFO
| VK_STRUCTURE_TYPE_DEPENDENCY_INFO
| VK_STRUCTURE_TYPE_DESCRIPTOR_SET_LAYOUT_CREATE_INFO
| VK_STRUCTURE_TYPE_DESCRIPTOR_SET_ALLOCATE_INFO
| VK_STRUCTURE_TYPE_WRITE_DESCRIPTOR_SET.

Inductive VkImageType := VK_IMAGE_TYPE_2D.
Inductive VkImageViewType := VK_IMAGE_VIEW_TYPE_2D.
Inductive VkDescriptorType := VK_DESCRIPTOR_TYPE_COMBINED_IMAGE_SAMPLER.

(** ** Single-precision floats

    The C++ [float] is IEEE binary32: 24 bits of precision, exponents
    below 128.  Integers are converted by rounding to nearest even. *)

Definition f32_prec : Z := 24%Z.
Definition f32_emax : Z := 128%Z.
Definition f32_zero : spec_float := S754_zero false.
Definition f32_one : spec_float := S754_finite false 8388608 (-23)%Z.
Definition f32_div : spec_float -> spec_float -> spec_float := SFdiv f32_prec f32_emax.
Definition float_of_uint32 (n : N) : spec_float :=
  binary_normalize f32_prec f32_emax (Z.of_N n) 0%Z false.

(** ** Vulkan structures (the members the source sets; all others are
    zero-initialised by the designated initialisers) *)

Record VkExtent2D := { width : N; height : N }.
Record VkExtent3D := { width3 : N; height3 : N; depth3 : N }.

Record VkImageSubresourceRange := {
  aspectMask : N;
  baseMipLevel : N;
  levelCount : N;
  baseArrayLayer : N;
  layerCount : N
}.

Record VkComponentMapping := {
  comp_r : VkComponentSwizzle;
  comp_g : VkComponentSwizzle;
  comp_b : VkComponentSwizzle;
  comp_a : VkComponentSwizzle
}.

Record VkImageCreateInfo := {
  ici_sType : VkStructureType;
  imageType : VkImageType;
  ici_format : N;
  extent : VkExtent3D;
  mipLevels : N;
  arrayLayers : N;
  samples : N;
  usage : N
}.

Record VkImageViewCreateInfo := {
  ivci_sType : VkStructureType;
  ivci_image : N;
  viewType : VkImageViewType;
  ivci_format : N;
  components : VkComponentMapping;
  subresourceRange : VkImageSubresourceRange
}.

Record VkDescriptorImageInfo := {
  sampler : N;
  imageView : N;
  imageLayout : VkImageLayout
}.

Record VkClearColorValue := { float32 : list spec_float }.
Record VkClearDepthStencilValue := { depth : spec_float; stencil : N }.

Record VkDescriptorSetLayoutBinding := {
  binding : N;
  descriptorType : VkDescriptorType;
  descriptorCount : N;
  stageFlags : N
}.

Record VkDescriptorSetLayoutCreateInfo := {
  dslci_sType : VkStructureType;
  bindingCount : N;
  pBindings : list VkDescriptorSetLayoutBinding
}.

Record VkDescriptorSetAllocateInfo := {
  dsai_sType : VkStructureType;
  dsai_descriptorPool : N;
  descriptorSetCount : N;
  pSetLayouts : list N
}.

Record VkWriteDescriptorSet := {
  wds_sType : VkStructureType;
  dstSet : N;
  wds_descriptorCount : N;
  wds_descriptorType : VkDescriptorType;
  pImageInfo : VkDescriptorImageInfo
}.

(** The argument of nvvk::makeImageMemoryBarrier (barriers.hpp).  The
    source names the image and the two layouts, and for the depth image a
    sub-resource range; [None] stands for a range left to the default of
    the helper. *)
Record ImageMemoryBarrierParams := {
  imb_image : N;
  oldLayout : VkImageLayout;
  newLayout : VkImageLayout;
  imb_subresourceRange : option VkImageSubresourceRange
}.

(** The barrier the helper builds is determined by its argument; the
    stage and access masks it derives from the two layouts are not
    modelled. *)
Record VkImageMemoryBarrier2 := makeImageMemoryBarrier {
  barrier_params : ImageMemoryBarrierParams
}.

Record VkDependencyInfo := {
  di_sType : VkStructureType;
  imageMemoryBarrierCount : N;
  pImageMemoryBarriers : list VkImageMemoryBarrier2
}.

(** ** nvvk structures *)

(** nvvk::Image: the members the G-buffer reads and writes. *)
Record Image := {
  image : N;
  descriptor : VkDescriptorImageInfo
}.

(** nvvk::ResourceAllocator, as far as the G-buffer sees it.  The
    configuration holds a pointer to it: [None] is the null pointer. *)
Record ResourceAllocator := { getDevice : N }.

Record GBufferInitInfo := {
  allocator : option ResourceAllocator;
  colorFormats : list N;
  depthFormat : N;
  sampleCount : N;
  imageSampler : N;
  descriptorPool : N
}.

Record Resources := {
  gBufferColor : list Image;
  gBufferColorMSAA : list Image;
  gBufferDepth : Image;
  uiImageViews : list N;
  uiDescriptorSets : list N
}.

Record GBuffer := {
  m_res : Resources;
  m_size : VkExtent2D;
  m_info : GBufferInitInfo;
  m_descLayout : N
}.

(** Value-initialisation ([= {}]) of each structure. *)
Definition VkDescriptorImageInfo_default : VkDescriptorImageInfo :=
  {| sampler := VK_NULL_HANDLE; imageView := VK_NULL_HANDLE;
     imageLayout := VK_IMAGE_LAYOUT_UNDEFINED |}.
Definition Image_default : Image :=
  {| image := VK_NULL_HANDLE; descriptor := VkDescriptorImageInfo_default |}.
Definition Resources_default : Resources :=
  {| gBufferColor := []; gBufferColorMSAA := []; gBufferDepth := Image_default;
     uiImageViews := []; uiDescriptorSets := [] |}.
Definition VkExtent2D_default : VkExtent2D := {| width := 0; height := 0 |}.
(** Modelled from the spec: gbuffers.hpp is not among the sources; the
    default configuration has no allocator, no colour format, the
    undefined depth format, one sample per pixel and null handles. *)
Definition GBufferInitInfo_default : GBufferInitInfo :=
  {| allocator := None; colorFormats := []; depthFormat := VK_FORMAT_UNDEFINED;
     sampleCount := VK_SAMPLE_COUNT_1_BIT; imageSampler := VK_NULL_HANDLE;
     descriptorPool := VK_NULL_HANDLE |}.
Definition GBuffer_default : GBuffer :=
  {| m_res := Resources_default; m_size := VkExtent2D_default;
     m_info := GBufferInitInfo_default; m_descLayout := VK_NULL_HANDLE |}.

Global Instance Image_inhabited : Inhabited Image := populate Image_default.

(** Assignments to single members. *)
Definition set_m_res (x : Resources) (o : GBuffer) : GBuffer :=
  {| m_res := x; m_size := m_size o; m_info := m_info o; m_descLayout := m_descLayout o |}.
Definition set_m_size (x : VkExtent2D) (o : GBuffer) : GBuffer :=
  {| m_res := m_res o; m_size := x; m_info := m_info o; m_descLayout := m_descLayout o |}.
Definition set_m_info (x : GBufferInitInfo) (o : GBuffer) : GBuffer :=
  {| m_res := m_res o; m_size := m_size o; m_info := x; m_descLayout := m_descLayout o |}.
Definition set_m_descLayout (x : N) (o : GBuffer) : GBuffer :=
  {| m_res := m_res o; m_size := m_size o; m_info := m_info o; m_descLayout := x |}.
Definition set_sampleCount (x : N) (i : GBufferInitInfo) : GBufferInitInfo :=
  {| allocator := allocator i; colorFormats := colorFormats i; depthFormat := depthFormat i;
     sampleCount := x; imageSampler := imageSampler i; descriptorPool := descriptorPool i |}.
Definition set_gBufferColor (x : list Image) (q : Resources) : Resources :=
  {| gBufferColor := x; gBufferColorMSAA := gBufferColorMSAA q; gBufferDepth := gBufferDepth q;
     uiImageViews := uiImageViews q; uiDescriptorSets := uiDescriptorSets q |}.
Definition set_gBufferColorMSAA (x : list Image) (q : Resources) : Resources :=
  {| gBufferColor := gBufferColor q; gBufferColorMSAA := x; gBufferDepth := gBufferDepth q;
     uiImageViews := uiImageViews q; uiDescriptorSets := uiDescriptorSets q |}.
Definition set_gBufferDepth (x : Image) (q : Resources) : Resources :=
  {| gBufferColor := gBufferColor q; gBufferColorMSAA := gBufferColorMSAA q; gBufferDepth := x;
     uiImageViews := uiImageViews q; uiDescriptorSets := uiDescriptorSets q |}.
Definition set_uiImageViews (x : list N) (q : Resources) : Resources :=
  {| gBufferColor := gBufferColor q; gBufferColorMSAA := gBufferColorMSAA q;
     gBufferDepth := gBufferDepth q; uiImageViews := x; uiDescriptorSets := uiDescriptorSets q |}.
Definition set_uiDescriptorSets (x : list N) (q : Resources) : Resources :=
  {| gBufferColor := gBufferColor q; gBufferColorMSAA := gBufferColorMSAA q;
     gBufferDepth := gBufferDepth q; uiImageViews := uiImageViews q; uiDescriptorSets := x |}.
Definition set_sampler (x : N) (d : VkDescriptorImageInfo) : VkDescriptorImageInfo :=
  {| sampler := x; imageView := imageView d; imageLayout := imageLayout d |}.
Definition set_imageLayout (x : VkImageLayout) (d : VkDescriptorImageInfo) : VkDescriptorImageInfo :=
  {| sampler := sampler d; imageView := imageView d; imageLayout := x |}.
Definition set_descriptor (x : VkDescriptorImageInfo) (i : Image) : Image :=
  {| image := image i; descriptor := x |}.

(** ** The outside world *)

(** Commands recorded into a command buffer. *)
Inductive Command :=
| CmdPipelineBarrier2 (depInfo : VkDependencyInfo)
| CmdClearColorImage (img : N) (layout : VkImageLayout) (value : VkClearColorValue)
    (rangeCount : N) (ranges : list VkImageSubresourceRange)
| CmdClearDepthStencilImage (img : N) (layout : VkImageLayout)
    (value : VkClearDepthStencilValue) (rangeCount : N) (ranges : list VkImageSubresourceRange).

(** Calls that leave the object, in the order they are made.  A creation
    call is logged with its result and with the handles it produced (null
    when it failed). *)
Inductive Event :=
| EvDeviceWaitIdle (device : N)
| EvCreateImage (info : VkImageCreateInfo) (viewInfo : VkImageViewCreateInfo)
    (res : Z) (img view : N)
| EvDestroyImage (img : Image)
| EvCreateImageView (device : N) (viewInfo : VkImageViewCreateInfo) (res : Z) (view : N)
| EvDestroyImageView (device : N) (view : N)
| EvCreateDescriptorSetLayout (device : N) (info : VkDescriptorSetLayoutCreateInfo)
    (res : Z) (layout : N)
| EvDestroyDescriptorSetLayout (device : N) (layout : N)
| EvAllocateDescriptorSets (device : N) (info : VkDescriptorSetAllocateInfo)
    (res : Z) (sets : list N)
| EvFreeDescriptorSets (device : N) (pool : N) (count : N) (sets : list N)
| EvUpdateDescriptorSets (device : N) (count : N) (writes : list VkWriteDescriptorSet)
| EvSetObjectName (handle : N) (name : string)
| EvCmd (cmd : N) (c : Command).

(** [oracle k] is the result the driver gives to the [k]-th call that can
    fail, [calls] counts the calls made so far; a new object gets the
    handle [Npos next_handle], so that no created handle is null and no
    two are equal. *)
Record World := {
  oracle : nat -> Z;
  calls : nat;
  next_handle : positive;
  trace : list Event
}.

Definition St : Type := GBuffer * World.

(** ** The monad: state, early return, undefined behaviour *)

Inductive outcome (A : Type) :=
| Ret (x : A) (s : St)
| Early (res : Z) (s : St)
| Undef.
Arguments Ret {A} x s.
Arguments Early {A} res s.
Arguments Undef {A}.

Definition M (A : Type) : Type := St -> outcome A.

Global Instance M_ret : MRet M := fun A x s => Ret x s.
Global Instance M_bind : MBind M := fun A B k m s =>
  match m s with
  | Ret x s' => k x s'
  | Early res s' => Early res s'
  | Undef => Undef
  end.

Definition this : M GBuffer := fun s => Ret (fst s) s.
Definition modify (f : GBuffer -> GBuffer) : M unit := fun s => Ret tt (f (fst s), snd s).
Definition modify_res (f : Resources -> Resources) : M unit :=
  modify (fun o => set_m_res (f (m_res o)) o).
Definition early {A} (res : Z) : M A := fun s => Early res s.
Definition undefined {A} : M A := fun _ => Undef.

(** Dereferencing a pointer and indexing a vector are undefined when the
    pointer is null or the index out of range. *)
Definition deref {A} (p : option A) : M A :=
  match p with Some x => mret x | None => undefined end.
Definition assert (c : bool) : M unit := if c then mret tt else undefined.

(** The world after one more logged call, and after several. *)
Definition log (e : Event) (w : World) : World :=
  {| oracle := oracle w; calls := calls w; next_handle := next_handle w;
     trace := trace w ++ [e] |}.
Definition logs (evs : list Event) (w : World) : World :=
  {| oracle := oracle w; calls := calls w; next_handle := next_handle w;
     trace := trace w ++ evs |}.

Definition emit (e : Event) : M unit := fun s => Ret tt (fst s, log e (snd s)).
Definition fresh : M N := fun s =>
  let w := snd s in
  Ret (Npos (next_handle w))
      (fst s, {| oracle := oracle w; calls := calls w;
                 next_handle := Pos.succ (next_handle w); trace := trace w |}).
Definition driver_result : M Z := fun s =>
  let w := snd s in
  Ret (oracle w (calls w))
      (fst s, {| oracle := oracle w; calls := S (calls w);
                 next_handle := next_handle w; trace := trace w |}).

Fixpoint fresh_n (n : nat) : M (list N) :=
  match n with
  | O => mret []
  | S n' => h ← fresh; hs ← fresh_n n'; mret (h :: hs)
  end.

(** [for(uint32_t c = 0; c < n; c++) body] is [forM_ (seq 0 n) body];
    [for(x : v) body] is [forM_ v body]. *)
Fixpoint forM_ {A} (l : list A) (body : A -> M unit) : M unit :=
  match l with
  | [] => mret tt
  | c :: l' => body c;; forM_ l' body
  end.
(** The same loop, threading the value of a local variable. *)
Fixpoint foldM {A} (l : list nat) (body : A -> nat -> M A) (x : A) : M A :=
  match l with
  | [] => mret x
  | c :: l' => y ← body x c; foldM l' body y
  end.

(** A function body that leaves through [return]. *)
Definition returning (body : M Z) : M Z := fun s =>
  match body s with
  | Early res s' => Ret res s'
  | o => o
  end.

(** Modelled from the spec: check_error.hpp is not among the sources;
    [NVVK_FAIL_RETURN(call)] leaves the enclosing function with the result
    of the call when the call failed.  The creation calls it wraps here
    have VK_SUCCESS as their only success code. *)
Definition NVVK_FAIL_RETURN (call : M Z) : M unit :=
  res ← call;
  if Z.eqb res VK_SUCCESS then mret tt else early res.

(** ** The collaborators

    The allocator, the device and the debug-name registry are not part of
    the sources.  Each call is logged; a creation call asks the driver for
    its result and, when it succeeds, takes fresh handles and writes them
    through the reference it was given ([store]). *)

(** Modelled from the spec: [createImage(outResource, imageDescriptor,
    viewDescriptor) -> result] of the allocator.  On success the out
    resource holds the new image and its view; on failure it is left as
    it was. *)
Definition createImage (alloc : ResourceAllocator) (store : Image -> M unit)
    (info : VkImageCreateInfo) (viewInfo : VkImageViewCreateInfo) : M Z :=
  res ← driver_result;
  if Z.eqb res VK_SUCCESS then
    img ← fresh;
    view ← fresh;
    emit (EvCreateImage info viewInfo res img view);;
    store {| image := img;
             descriptor := {| sampler := VK_NULL_HANDLE; imageView := view;
                              imageLayout := VK_IMAGE_LAYOUT_UNDEFINED |} |};;
    mret res
  else
    emit (EvCreateImage info viewInfo res VK_NULL_HANDLE VK_NULL_HANDLE);;
    mret res.

Definition destroyImage (alloc : ResourceAllocator) (img : Image) : M unit :=
  emit (EvDestroyImage img).

Definition vkCreateImageView (device : N) (viewInfo : VkImageViewCreateInfo)
    (store : N -> M unit) : M Z :=
  res ← driver_result;
  if Z.eqb res VK_SUCCESS then
    view ← fresh;
    emit (EvCreateImageView device viewInfo res view);;
    store view;;
    mret res
  else
    emit (EvCreateImageView device viewInfo res VK_NULL_HANDLE);;
    mret res.

Definition vkDestroyImageView (device : N) (view : N) : M unit :=
  emit (EvDestroyImageView device view).

Definition vkCreateDescriptorSetLayout (device : N) (info : VkDescriptorSetLayoutCreateInfo)
    (store : N -> M unit) : M Z :=
  res ← driver_result;
  if Z.eqb res VK_SUCCESS then
    layout ← fresh;
    emit (EvCreateDescriptorSetLayout device info res layout);;
    store layout;;
    mret res
  else
    emit (EvCreateDescriptorSetLayout device info res VK_NULL_HANDLE);;
    mret res.

Definition vkDestroyDescriptorSetLayout (device : N) (layout : N) : M unit :=
  emit (EvDestroyDescriptorSetLayout device layout).

(** The call writes [descriptorSetCount] handles into the array [out] it
    is given (null handles when the allocation fails); an array shorter
    than that is overrun. *)
Definition vkAllocateDescriptorSets (device : N) (info : VkDescriptorSetAllocateInfo)
    (out : list N) (store : list N -> M unit) : M Z :=
  let count := N.to_nat (descriptorSetCount info) in
  assert (bool_decide (count <= length out));;
  res ← driver_result;
  if Z.eqb res VK_SUCCESS then
    sets ← fresh_n count;
    emit (EvAllocateDescriptorSets device info res sets);;
    store (sets ++ drop count out);;
    mret res
  else
    emit (EvAllocateDescriptorSets device info res (replicate count VK_NULL_HANDLE));;
    store (replicate count VK_NULL_HANDLE ++ drop count out);;
    mret res.

Definition vkFreeDescriptorSets (device pool count : N) (sets : list N) : M unit :=
  emit (EvFreeDescriptorSets device pool count sets).

Definition vkUpdateDescriptorSets (device count : N) (writes : list VkWriteDescriptorSet)
  : M unit :=
  emit (EvUpdateDescriptorSets device count writes).

Definition vkDeviceWaitIdle (device : N) : M unit := emit (EvDeviceWaitIdle device).

Definition setObjectName (handle : N) (name : string) : M unit :=
  emit (EvSetObjectName handle name).

Definition vkCmdPipelineBarrier2 (cmd : N) (depInfo : VkDependencyInfo) : M unit :=
  emit (EvCmd cmd (CmdPipelineBarrier2 depInfo)).
Definition vkCmdClearColorImage (cmd img : N) (layout : VkImageLayout)
    (value : VkClearColorValue) (rangeCount : N) (ranges : list VkImageSubresourceRange)
  : M unit :=
  emit (EvCmd cmd (CmdClearColorImage img layout value rangeCount ranges)).
Definition vkCmdClearDepthStencilImage (cmd img : N) (layout : VkImageLayout)
    (value : VkClearDepthStencilValue) (rangeCount : N)
    (ranges : list VkImageSubresourceRange) : M unit :=
  emit (EvCmd cmd (CmdClearDepthStencilImage img layout value rangeCount ranges)).

(** [std::to_string] and the conversion of a [size_t] to [uint32_t]. *)
Definition to_string (c : nat) : string := NilEmpty.string_of_uint (Nat.to_uint c).
Definition uint32_of_size (n : nat) : N := (N.of_nat n mod 2 ^ 32)%N.

(** ** nvvk::GBuffer *)

(** Reading [m_res.gBufferColor[c]], assigning to it, and updating one of
    its members in place. *)
Definition color_at (c : nat) : M Image :=
  o ← this; deref (gBufferColor (m_res o) !! c).
Definition msaa_at (c : nat) : M Image :=
  o ← this; deref (gBufferColorMSAA (m_res o) !! c).
Definition uiView_at (c : nat) : M N :=
  o ← this; deref (uiImageViews (m_res o) !! c).
Definition set_color_at (c : nat) (x : Image) : M unit :=
  modify_res (fun q => set_gBufferColor (<[c := x]> (gBufferColor q)) q).
Definition set_msaa_at (c : nat) (x : Image) : M unit :=
  modify_res (fun q => set_gBufferColorMSAA (<[c := x]> (gBufferColorMSAA q)) q).
Definition set_uiView_at (c : nat) (x : N) : M unit :=
  modify_res (fun q => set_uiImageViews (<[c := x]> (uiImageViews q)) q).
Definition modify_color_at (c : nat) (f : Image -> Image) : M unit :=
  col ← color_at c; set_color_at c (f col).
Definition modify_msaa_at (c : nat) (f : Image -> Image) : M unit :=
  ms ← msaa_at c; set_msaa_at c (f ms).
Definition with_sampler (x : N) (i : Image) : Image :=
  set_descriptor (set_sampler x (descriptor i)) i.
Definition with_imageLayout (x : VkImageLayout) (i : Image) : Image :=
  set_descriptor (set_imageLayout x (descriptor i)) i.

(** [init]: the assertion, then a copy of the creation info. *)
Definition init (createInfo : GBufferInitInfo) : M unit :=
  o ← this;
  assert (bool_decide (colorFormats (m_info o) = []));;
  modify (set_m_info createInfo).

Definition deinitResources : M unit :=
  o ← this;
  match allocator (m_info o) with
  | None => mret tt
  | Some alloc =>
      let device := getDevice alloc in
      (if negb (descriptorPool (m_info o) =? VK_NULL_HANDLE)%N
          && negb (bool_decide (uiDescriptorSets (m_res o) = []))
       then
         vkFreeDescriptorSets device (descriptorPool (m_info o))
           (uint32_of_size (length (uiDescriptorSets (m_res o))))
           (uiDescriptorSets (m_res o));;
         vkDestroyDescriptorSetLayout device (m_descLayout o);;
         modify_res (set_uiDescriptorSets []);;
         modify (set_m_descLayout VK_NULL_HANDLE)
       else mret tt);;
      o ← this;
      forM_ (gBufferColor (m_res o)) (fun bc => destroyImage alloc bc);;
      modify_res (set_gBufferColor []);;
      o ← this;
      forM_ (gBufferColorMSAA (m_res o)) (fun bc => destroyImage alloc bc);;
      modify_res (set_gBufferColorMSAA []);;
      o ← this;
      (if negb (image (gBufferDepth (m_res o)) =? VK_NULL_HANDLE)%N then
         destroyImage alloc (gBufferDepth (m_res o));;
         modify_res (set_gBufferDepth Image_default)
       else mret tt);;
      o ← this;
      forM_ (uiImageViews (m_res o)) (fun view => vkDestroyImageView device view);;
      modify_res (set_uiImageViews [])
  end.

Definition deinit : M unit :=
  deinitResources;;
  modify (set_m_res Resources_default);;
  modify (set_m_size VkExtent2D_default);;
  modify (set_m_descLayout VK_NULL_HANDLE);;
  modify (set_m_info GBufferInitInfo_default).

(** *** initResources, block by block *)

Definition color_usage : N :=
  N.lor (N.lor (N.lor (N.lor VK_IMAGE_USAGE_COLOR_ATTACHMENT_BIT VK_IMAGE_USAGE_SAMPLED_BIT)
                             VK_IMAGE_USAGE_TRANSFER_SRC_BIT)
               VK_IMAGE_USAGE_TRANSFER_DST_BIT)
        VK_IMAGE_USAGE_STORAGE_BIT.
Definition msaaUsage : N :=
  N.lor (N.lor VK_IMAGE_USAGE_COLOR_ATTACHMENT_BIT VK_IMAGE_USAGE_TRANSIENT_ATTACHMENT_BIT)
        VK_IMAGE_USAGE_TRANSFER_DST_BIT.
Definition depth_usage : N :=
  N.lor (N.lor (N.lor VK_IMAGE_USAGE_DEPTH_STENCIL_ATTACHMENT_BIT VK_IMAGE_USAGE_SAMPLED_BIT)
               VK_IMAGE_USAGE_TRANSFER_SRC_BIT)
        VK_IMAGE_USAGE_TRANSFER_DST_BIT.

Definition components_identity : VkComponentMapping :=
  {| comp_r := VK_COMPONENT_SWIZZLE_IDENTITY; comp_g := VK_COMPONENT_SWIZZLE_IDENTITY;
     comp_b := VK_COMPONENT_SWIZZLE_IDENTITY; comp_a := VK_COMPONENT_SWIZZLE_IDENTITY |}.
Definition set_comp_a (x : VkComponentSwizzle) (m : VkComponentMapping) : VkComponentMapping :=
  {| comp_r := comp_r m; comp_g := comp_g m; comp_b := comp_b m; comp_a := x |}.

(** The image and view descriptions of a colour attachment. *)
Definition color_info (fmt : N) (size : VkExtent2D) : VkImageCreateInfo :=
  {| ici_sType := VK_STRUCTURE_TYPE_IMAGE_CREATE_INFO;
     imageType := VK_IMAGE_TYPE_2D;
     ici_format := fmt;
     extent := {| width3 := width size; height3 := height size; depth3 := 1 |};
     mipLevels := 1;
     arrayLayers := 1;
     samples := VK_SAMPLE_COUNT_1_BIT;
     usage := color_usage |}.
Definition color_viewInfo (fmt : N) : VkImageViewCreateInfo :=
  {| ivci_sType := VK_STRUCTURE_TYPE_IMAGE_VIEW_CREATE_INFO;
     ivci_image := VK_NULL_HANDLE;
     viewType := VK_IMAGE_VIEW_TYPE_2D;
     ivci_format := fmt;
     components := components_identity;
     subresourceRange := {| aspectMask := VK_IMAGE_ASPECT_COLOR_BIT; baseMipLevel := 0;
                            levelCount := 1; baseArrayLayer := 0; layerCount := 1 |} |}.
(** [viewInfo.image = ...; viewInfo.components.a = VK_COMPONENT_SWIZZLE_ONE;] *)
Definition ui_viewInfo (viewInfo : VkImageViewCreateInfo) (img : N) : VkImageViewCreateInfo :=
  {| ivci_sType := ivci_sType viewInfo;
     ivci_image := img;
     viewType := viewType viewInfo;
     ivci_format := ivci_format viewInfo;
     components := set_comp_a VK_COMPONENT_SWIZZLE_ONE (components viewInfo);
     subresourceRange := subresourceRange viewInfo |}.
(** [info.samples = m_info.sampleCount; info.usage = msaaUsage;] *)
Definition msaa_info (info : VkImageCreateInfo) (sc : N) : VkImageCreateInfo :=
  {| ici_sType := ici_sType info; imageType := imageType info; ici_format := ici_format info;
     extent := extent info; mipLevels := mipLevels info; arrayLayers := arrayLayers info;
     samples := sc; usage := msaaUsage |}.

(** One round of the first loop: colour image, UI view, sampler and, with
    multisampling, the multisampled image.  A creation call gets a
    reference to an element of a vector: the element is looked up first
    (which is undefined out of range), and the call writes through the
    assignment to that element. *)
Definition initResources_color (device : N) (isMsaa : bool) (c : nat) : M unit :=
  o ← this;
  alloc ← deref (allocator (m_info o));
  fmt ← deref (colorFormats (m_info o) !! c);
  let info := color_info fmt (m_size o) in
  let viewInfo := color_viewInfo fmt in
  color_at c;;
  NVVK_FAIL_RETURN (createImage alloc (set_color_at c) info viewInfo);;
  col ← color_at c;
  setObjectName (image col) ("G-Color" ++ to_string c);;
  setObjectName (imageView (descriptor col)) ("G-Color" ++ to_string c);;
  (* UI image colour view *)
  let viewInfo := ui_viewInfo viewInfo (image col) in
  uiView_at c;;
  NVVK_FAIL_RETURN (vkCreateImageView device viewInfo (set_uiView_at c));;
  view ← uiView_at c;
  setObjectName view ("UI G-Color" ++ to_string c);;
  (* the sampler of the colour attachment *)
  o ← this;
  modify_color_at c (with_sampler (imageSampler (m_info o)));;
  if isMsaa then
    o ← this;
    let info := msaa_info info (sampleCount (m_info o)) in
    msaa_at c;;
    NVVK_FAIL_RETURN (createImage alloc (set_msaa_at c) info viewInfo);;
    ms ← msaa_at c;
    setObjectName (image ms) ("G-Color-MSAA-" ++ to_string c);;
    setObjectName (imageView (descriptor ms)) ("G-Color-MSAA-" ++ to_string c)
  else mret tt.

Definition depth_info (fmt : N) (size : VkExtent2D) (sc : N) : VkImageCreateInfo :=
  {| ici_sType := VK_STRUCTURE_TYPE_IMAGE_CREATE_INFO;
     imageType := VK_IMAGE_TYPE_2D;
     ici_format := fmt;
     extent := {| width3 := width size; height3 := height size; depth3 := 1 |};
     mipLevels := 1;
     arrayLayers := 1;
     samples := sc;
     usage := depth_usage |}.
Definition depth_viewInfo (fmt : N) : VkImageViewCreateInfo :=
  {| ivci_sType := VK_STRUCTURE_TYPE_IMAGE_VIEW_CREATE_INFO;
     ivci_image := VK_NULL_HANDLE;
     viewType := VK_IMAGE_VIEW_TYPE_2D;
     ivci_format := fmt;
     components := components_identity;
     subresourceRange := {| aspectMask := VK_IMAGE_ASPECT_DEPTH_BIT; baseMipLevel := 0;
                            levelCount := 1; baseArrayLayer := 0; layerCount := 1 |} |}.

Definition initResources_depth : M unit :=
  o ← this;
  if negb (depthFormat (m_info o) =? VK_FORMAT_UNDEFINED)%N then
    alloc ← deref (allocator (m_info o));
    let createInfo := depth_info (depthFormat (m_info o)) (m_size o) (sampleCount (m_info o)) in
    let viewInfo := depth_viewInfo (depthFormat (m_info o)) in
    NVVK_FAIL_RETURN
      (createImage alloc (fun x => modify_res (set_gBufferDepth x)) createInfo viewInfo);;
    o ← this;
    setObjectName (image (gBufferDepth (m_res o))) "G-Depth";;
    setObjectName (imageView (descriptor (gBufferDepth (m_res o)))) "G-Depth"
  else mret tt.

Definition clear_value : VkClearColorValue :=
  {| float32 := [f32_zero; f32_zero; f32_zero; f32_zero] |}.
Definition range : list VkImageSubresourceRange :=
  [ {| aspectMask := VK_IMAGE_ASPECT_COLOR_BIT; baseMipLevel := 0; levelCount := 1;
       baseArrayLayer := 0; layerCount := 1 |} ].
Definition clear_depth : VkClearDepthStencilValue := {| depth := f32_one; stencil := 0 |}.
Definition range_depth : VkImageSubresourceRange :=
  {| aspectMask := VK_IMAGE_ASPECT_DEPTH_BIT; baseMipLevel := 0; levelCount := 1;
     baseArrayLayer := 0; layerCount := 1 |}.

Definition barrier (img : N) (old new : VkImageLayout)
    (rng : option VkImageSubresourceRange) : VkImageMemoryBarrier2 :=
  makeImageMemoryBarrier
    {| imb_image := img; oldLayout := old; newLayout := new; imb_subresourceRange := rng |}.

Definition dependencyInfo (barriers : list VkImageMemoryBarrier2) : VkDependencyInfo :=
  {| di_sType := VK_STRUCTURE_TYPE_DEPENDENCY_INFO;
     imageMemoryBarrierCount := uint32_of_size (length barriers);
     pImageMemoryBarriers := barriers |}.

(** The three loops of the block "Clear all images and change layout". *)
Definition clear_barriers_round (isMsaa : bool) (barriers : list VkImageMemoryBarrier2)
    (c : nat) : M (list VkImageMemoryBarrier2) :=
  col ← color_at c;
  let barriers := barriers ++
    [barrier (image col) VK_IMAGE_LAYOUT_UNDEFINED VK_IMAGE_LAYOUT_TRANSFER_DST_OPTIMAL None] in
  if isMsaa then
    ms ← msaa_at c;
    mret (barriers ++
      [barrier (image ms) VK_IMAGE_LAYOUT_UNDEFINED VK_IMAGE_LAYOUT_TRANSFER_DST_OPTIMAL None])
  else mret barriers.

Definition clear_round (cmd : N) (isMsaa : bool) (c : nat) : M unit :=
  col ← color_at c;
  vkCmdClearColorImage cmd (image col) VK_IMAGE_LAYOUT_TRANSFER_DST_OPTIMAL clear_value
    (uint32_of_size (length range)) range;;
  if isMsaa then
    ms ← msaa_at c;
    vkCmdClearColorImage cmd (image ms) VK_IMAGE_LAYOUT_TRANSFER_DST_OPTIMAL clear_value
      (uint32_of_size (length range)) range
  else mret tt.

Definition final_barriers_round (layout : VkImageLayout) (isMsaa : bool)
    (barriers : list VkImageMemoryBarrier2) (c : nat) : M (list VkImageMemoryBarrier2) :=
  col ← color_at c;
  let barriers := barriers ++
    [barrier (image col) VK_IMAGE_LAYOUT_TRANSFER_DST_OPTIMAL layout None] in
  modify_color_at c (with_imageLayout layout);;
  if isMsaa then
    ms ← msaa_at c;
    let barriers := barriers ++
      [barrier (image ms) VK_IMAGE_LAYOUT_TRANSFER_DST_OPTIMAL
         VK_IMAGE_LAYOUT_COLOR_ATTACHMENT_OPTIMAL None] in
    modify_msaa_at c (with_imageLayout VK_IMAGE_LAYOUT_COLOR_ATTACHMENT_OPTIMAL);;
    mret barriers
  else mret barriers.

(** The block itself.  [barriers] is the local vector; each statement
    hands its value to the next one. *)
Definition initResources_clear (cmd : N) (layout : VkImageLayout) (isMsaa : bool)
    (numColor : nat) : M unit :=
  barriers ← foldM (seq 0 numColor) (clear_barriers_round isMsaa) [];
  o ← this;
  let barriers :=
    if negb (image (gBufferDepth (m_res o)) =? VK_NULL_HANDLE)%N then
      barriers ++ [barrier (image (gBufferDepth (m_res o))) VK_IMAGE_LAYOUT_UNDEFINED
                     VK_IMAGE_LAYOUT_TRANSFER_DST_OPTIMAL (Some range_depth)]
    else barriers in
  vkCmdPipelineBarrier2 cmd (dependencyInfo barriers);;
  (* Clear ALL images *)
  forM_ (seq 0 numColor) (clear_round cmd isMsaa);;
  o ← this;
  (if negb (image (gBufferDepth (m_res o)) =? VK_NULL_HANDLE)%N then
     vkCmdClearDepthStencilImage cmd (image (gBufferDepth (m_res o)))
       VK_IMAGE_LAYOUT_TRANSFER_DST_OPTIMAL clear_depth 1 [range_depth]
   else mret tt);;
  (* Transition to the final layout *)
  barriers ← foldM (seq 0 numColor) (final_barriers_round layout isMsaa) [];
  o ← this;
  barriers ←
    (if negb (image (gBufferDepth (m_res o)) =? VK_NULL_HANDLE)%N then
       let barriers := barriers ++
         [barrier (image (gBufferDepth (m_res o))) VK_IMAGE_LAYOUT_TRANSFER_DST_OPTIMAL
            VK_IMAGE_LAYOUT_DEPTH_STENCIL_ATTACHMENT_OPTIMAL (Some range_depth)] in
       modify_res (fun q => set_gBufferDepth
         (with_imageLayout VK_IMAGE_LAYOUT_DEPTH_STENCIL_ATTACHMENT_OPTIMAL (gBufferDepth q)) q);;
       mret barriers
     else mret barriers);
  vkCmdPipelineBarrier2 cmd (dependencyInfo barriers).

Definition ui_binding : VkDescriptorSetLayoutBinding :=
  {| binding := 0; descriptorType := VK_DESCRIPTOR_TYPE_COMBINED_IMAGE_SAMPLER;
     descriptorCount := 1; stageFlags := VK_SHADER_STAGE_FRAGMENT_BIT |}.
Definition ui_layout_info : VkDescriptorSetLayoutCreateInfo :=
  {| dslci_sType := VK_STRUCTURE_TYPE_DESCRIPTOR_SET_LAYOUT_CREATE_INFO;
     bindingCount := 1; pBindings := [ui_binding] |}.
Definition ui_allocInfos (pool numColor layout : N) : VkDescriptorSetAllocateInfo :=
  {| dsai_sType := VK_STRUCTURE_TYPE_DESCRIPTOR_SET_ALLOCATE_INFO;
     dsai_descriptorPool := pool;
     descriptorSetCount := numColor;
     pSetLayouts := replicate (N.to_nat numColor) layout |}.
Definition ui_write (set : N) (info : VkDescriptorImageInfo) : VkWriteDescriptorSet :=
  {| wds_sType := VK_STRUCTURE_TYPE_WRITE_DESCRIPTOR_SET; dstSet := set;
     wds_descriptorCount := 1;
     wds_descriptorType := VK_DESCRIPTOR_TYPE_COMBINED_IMAGE_SAMPLER;
     pImageInfo := info |}.

(** One round of the loop that fills [descImages] and [writeDesc]; the
    two vectors are filled at the indices 0, 1, ... in turn, which the
    model does by appending. *)
Definition ui_write_round (layout : VkImageLayout) (writeDesc : list VkWriteDescriptorSet)
    (d : nat) : M (list VkWriteDescriptorSet) :=
  o ← this;
  view ← deref (uiImageViews (m_res o) !! d);
  set ← deref (uiDescriptorSets (m_res o) !! d);
  let descImage :=
    {| sampler := imageSampler (m_info o); imageView := view; imageLayout := layout |} in
  mret (writeDesc ++ [ui_write set descImage]).

(** The block "Descriptor Set for ImGUI". *)
Definition initResources_ui (device : N) (layout : VkImageLayout) (numColor : N) : M unit :=
  o ← this;
  if negb (descriptorPool (m_info o) =? VK_NULL_HANDLE)%N then
    modify_res (fun q =>
      set_uiDescriptorSets (resize (N.to_nat numColor) VK_NULL_HANDLE (uiDescriptorSets q)) q);;
    NVVK_FAIL_RETURN
      (vkCreateDescriptorSetLayout device ui_layout_info (fun l => modify (set_m_descLayout l)));;
    o ← this;
    NVVK_FAIL_RETURN
      (vkAllocateDescriptorSets device
         (ui_allocInfos (descriptorPool (m_info o)) numColor (m_descLayout o))
         (uiDescriptorSets (m_res o))
         (fun sets => modify_res (set_uiDescriptorSets sets)));;
    writeDesc ← foldM (seq 0 (N.to_nat numColor)) (ui_write_round layout) [];
    o ← this;
    vkUpdateDescriptorSets device (uint32_of_size (length (uiDescriptorSets (m_res o)))) writeDesc
  else mret tt.

(** Everything before the final [return VK_SUCCESS]. *)
Definition initResources_body (cmd : N) : M unit :=
  let layout := VK_IMAGE_LAYOUT_SHADER_READ_ONLY_OPTIMAL in
  o ← this;
  alloc ← deref (allocator (m_info o));
  let device := getDevice alloc in
  let isMsaa := (VK_SAMPLE_COUNT_1_BIT <? sampleCount (m_info o))%N in
  let numColor := uint32_of_size (length (colorFormats (m_info o))) in
  modify_res (fun q =>
    set_gBufferColor (resize (N.to_nat numColor) Image_default (gBufferColor q)) q);;
  modify_res (fun q =>
    set_uiImageViews (resize (N.to_nat numColor) VK_NULL_HANDLE (uiImageViews q)) q);;
  (if isMsaa then
     modify_res (fun q =>
       set_gBufferColorMSAA (resize (N.to_nat numColor) Image_default (gBufferColorMSAA q)) q)
   else mret tt);;
  forM_ (seq 0 (N.to_nat numColor)) (initResources_color device isMsaa);;
  initResources_depth;;
  initResources_clear cmd layout isMsaa (N.to_nat numColor);;
  initResources_ui device layout numColor.

Definition initResources (cmd : N) : M Z :=
  returning (initResources_body cmd;; mret VK_SUCCESS).

Definition update (cmd : N) (newSize : VkExtent2D) (newSampleCount : N) : M Z :=
  o ← this;
  if (width newSize =? width (m_size o))%N && (height newSize =? height (m_size o))%N
     && (newSampleCount =? sampleCount (m_info o))%N
  then mret VK_SUCCESS
  else
    alloc ← deref (allocator (m_info o));
    vkDeviceWaitIdle (getDevice alloc);;
    deinitResources;;
    modify (set_m_size newSize);;
    modify (fun o => set_m_info (set_sampleCount newSampleCount (m_info o)) o);;
    initResources cmd.

(** The overload without a sample count. *)
Definition update_size (cmd : N) (newSize : VkExtent2D) : M Z :=
  o ← this; update cmd newSize (sampleCount (m_info o)).

(** *** Accessors ([None]: the index is out of range) *)

Definition getDescriptorSet (o : GBuffer) (i : nat) : option N :=
  uiDescriptorSets (m_res o) !! i.
Definition getSize (o : GBuffer) : VkExtent2D := m_size o.
Definition getColorImage (o : GBuffer) (i : nat) : option N :=
  image <$> gBufferColor (m_res o) !! i.
Definition getColorMSAAImage (o : GBuffer) (i : nat) : option N :=
  image <$> gBufferColorMSAA (m_res o) !! i.
Definition getDepthImage (o : GBuffer) : N := image (gBufferDepth (m_res o)).
Definition getColorImageView (o : GBuffer) (i : nat) : option N :=
  (fun x => imageView (descriptor x)) <$> gBufferColor (m_res o) !! i.
Definition getRenderImageView (o : GBuffer) (i : nat) : option N :=
  if (VK_SAMPLE_COUNT_1_BIT <? sampleCount (m_info o))%N
     && negb (bool_decide (gBufferColorMSAA (m_res o) = []))
  then (fun x => imageView (descriptor x)) <$> gBufferColorMSAA (m_res o) !! i
  else (fun x => imageView (descriptor x)) <$> gBufferColor (m_res o) !! i.
Definition getDescriptorImageInfo (o : GBuffer) (i : nat) : option VkDescriptorImageInfo :=
  descriptor <$> gBufferColor (m_res o) !! i.
Definition getDepthImageView (o : GBuffer) : N := imageView (descriptor (gBufferDepth (m_res o))).
Definition getColorFormat (o : GBuffer) (i : nat) : option N := colorFormats (m_info o) !! i.
Definition getDepthFormat (o : GBuffer) : N := depthFormat (m_info o).
Definition getSampleCount (o : GBuffer) : N := sampleCount (m_info o).
Definition getAspectRatio (o : GBuffer) : spec_float :=
  if (height (m_size o) =? 0)%N then f32_one
  else f32_div (float_of_uint32 (width (m_size o))) (float_of_uint32 (height (m_size o))).

(** ** Concrete configurations, after the usage example of the source *)

Definition all_succeed : nat -> Z := fun _ => VK_SUCCESS.
Definition fails_at (k : nat) (res : Z) : nat -> Z :=
  fun j => if Nat.eqb j k then res else VK_SUCCESS.
Definition world0 (orc : nat -> Z) : World :=
  {| oracle := orc; calls := 0; next_handle := 1%positive; trace := [] |}.
Definition example_alloc : ResourceAllocator := {| getDevice := 1001 |}.
Definition example_info (pool sc : N) : GBufferInitInfo :=
  {| allocator := Some example_alloc;
     colorFormats := [VK_FORMAT_R8G8B8A8_UNORM; VK_FORMAT_R32G32B32A32_SFLOAT];
     depthFormat := VK_FORMAT_D32_SFLOAT;
     sampleCount := sc;
     imageSampler := 1002;
     descriptorPool := pool |}.
Definition example_cmd : N := 1003.
Definition example_pool : N := 1004.


(** *** Move construction and move assignment

    Both name two objects, so the objects live in a store, addressed by
    their location.  A failed assertion ends the program: [None]. *)

(** [std::swap] on each of the four members in turn. *)
Definition swap_members (x y : GBuffer) : GBuffer * GBuffer :=
  let '(x, y) := (set_m_res (m_res y) x, set_m_res (m_res x) y) in
  let '(x, y) := (set_m_size (m_size y) x, set_m_size (m_size x) y) in
  let '(x, y) := (set_m_info (m_info y) x, set_m_info (m_info x) y) in
  (set_m_descLayout (m_descLayout y) x, set_m_descLayout (m_descLayout x) y).

(** [GBuffer(GBuffer&& other)]: the new object at [self] starts from the
    default member initialisers. *)
Definition move_construct (self other : positive) (st : gmap positive GBuffer)
  : option (gmap positive GBuffer) :=
  match st !! self, st !! other with
  | None, Some y =>
      let x := GBuffer_default in
      if bool_decide (allocator (m_info x) = None) then
        let '(x, y) := swap_members x y in
        Some (<[self := x]> (<[other := y]> st))
      else None
  | _, _ => None
  end.

(** [operator=(GBuffer&& other)] *)
Definition move_assign (self other : positive) (st : gmap positive GBuffer)
  : option (gmap positive GBuffer) :=
  if bool_decide (self ≠ other) then
    match st !! self, st !! other with
    | Some x, Some y =>
        if bool_decide (allocator (m_info x) = None) then
          let '(x, y) := swap_members x y in
          Some (<[self := x]> (<[other := y]> st))
        else None
    | _, _ => None
    end
  else Some st.
(** * Vocabulary of the specifications *)

(** ** Relational specifications

    [sat R E m]: when [m] runs from [s] to [s'], then [R s s'] if it
    falls through and [E res s s'] if it returns early with [res].
    Nothing is said about undefined runs.  [R] is a preorder that [E]
    absorbs on the left, so that the rules follow the syntax of [m]. *)

Class RelOK (R : St -> St -> Prop) (E : Z -> St -> St -> Prop) : Prop := {
  rel_refl : forall s, R s s;
  rel_trans : forall s1 s2 s3, R s1 s2 -> R s2 s3 -> R s1 s3;
  rel_early : forall res s1 s2 s3, R s1 s2 -> E res s2 s3 -> E res s1 s3
}.

Definition sat (R : St -> St -> Prop) (E : Z -> St -> St -> Prop) {A} (m : M A) : Prop :=
  forall s, match m s with
            | Ret _ s' => R s s'
            | Early res s' => E res s s'
            | Undef => True
            end.

(** ** What kind of call an event is *)

Definition teardown_event (e : Event) : Prop :=
  match e with
  | EvDestroyImage _ | EvDestroyImageView _ _ | EvDestroyDescriptorSetLayout _ _
  | EvFreeDescriptorSets _ _ _ _ => True
  | _ => False
  end.
Definition construct_event (e : Event) : Prop :=
  match e with
  | EvCreateImage _ _ _ _ _ | EvCreateImageView _ _ _ _
  | EvCreateDescriptorSetLayout _ _ _ _ | EvAllocateDescriptorSets _ _ _ _
  | EvUpdateDescriptorSets _ _ _ | EvSetObjectName _ _ | EvCmd _ _ => True
  | _ => False
  end.
Definition silent_event (e : Event) : Prop :=
  match e with EvCmd _ _ => False | _ => True end.
Definition command_event (e : Event) : Prop :=
  match e with EvCmd _ _ => True | _ => False end.

(** The result with which a creation call was logged. *)
Definition event_result (e : Event) : option Z :=
  match e with
  | EvCreateImage _ _ res _ _ | EvCreateImageView _ _ res _
  | EvCreateDescriptorSetLayout _ _ res _ | EvAllocateDescriptorSets _ _ res _ => Some res
  | _ => None
  end.

(** The commands recorded into command buffer [cmd]. *)
Fixpoint recorded (cmd : N) (tr : list Event) : list Command :=
  match tr with
  | [] => []
  | EvCmd cmd' c :: tr' => if (cmd' =? cmd)%N then c :: recorded cmd tr' else recorded cmd tr'
  | _ :: tr' => recorded cmd tr'
  end.

(** ** Three relations *)

(** The configuration and the size stay as they are. *)
Definition frame_rel (s s' : St) : Prop :=
  m_info (fst s') = m_info (fst s) /\ m_size (fst s') = m_size (fst s).

(** The log grows by calls of kind [P]; the driver is the same. *)
Definition grows (P : Event -> Prop) (s s' : St) : Prop :=
  oracle (snd s') = oracle (snd s) /\
  exists evs, trace (snd s') = trace (snd s) ++ evs /\ Forall P evs.

(** All calls that can fail succeeded ([oracle_ok]); or all of them but
    the last one, whose result is returned and which is the last call
    logged ([oracle_early]). *)
Definition oracle_ok (s s' : St) : Prop :=
  oracle (snd s') = oracle (snd s) /\
  calls (snd s) <= calls (snd s') /\
  forall j, calls (snd s) <= j < calls (snd s') -> oracle (snd s) j = VK_SUCCESS.
Definition oracle_early (res : Z) (s s' : St) : Prop :=
  oracle (snd s') = oracle (snd s) /\
  res <> VK_SUCCESS /\
  (exists j, calls (snd s') = S j /\ calls (snd s) <= j /\
             oracle (snd s) j = res /\
             forall i, calls (snd s) <= i < j -> oracle (snd s) i = VK_SUCCESS) /\
  exists e, last (trace (snd s')) = Some e /\ event_result e = Some res.


(** ** Weakest preconditions

    [wp m Q E s]: from [s] the computation [m] has defined behaviour, and
    [Q] holds of its value and final state if it falls through, [E] of
    the result and final state if it returns early. *)
Definition wp {A} (m : M A) (Q : A -> St -> Prop) (E : Z -> St -> Prop) (s : St) : Prop :=
  match m s with
  | Ret x s' => Q x s'
  | Early res s' => E res s'
  | Undef => False
  end.

(** ** Teardown, as the specification describes it *)

(** The UI descriptor sets and their layout are released when a pool was
    configured and descriptor sets exist. *)
Definition frees_ui (o : GBuffer) : bool :=
  negb (descriptorPool (m_info o) =? VK_NULL_HANDLE)%N
  && negb (bool_decide (uiDescriptorSets (m_res o) = [])).

(** The calls of a teardown: descriptor sets and layout, every colour
    image, every multisampled image, the depth image if there is one,
    every UI view. *)
Definition teardown_events (alloc : ResourceAllocator) (o : GBuffer) : list Event :=
  (if frees_ui o then
     [EvFreeDescriptorSets (getDevice alloc) (descriptorPool (m_info o))
        (uint32_of_size (length (uiDescriptorSets (m_res o)))) (uiDescriptorSets (m_res o));
      EvDestroyDescriptorSetLayout (getDevice alloc) (m_descLayout o)]
   else []) ++
  (EvDestroyImage <$> gBufferColor (m_res o)) ++
  (EvDestroyImage <$> gBufferColorMSAA (m_res o)) ++
  (if negb (image (gBufferDepth (m_res o)) =? VK_NULL_HANDLE)%N
   then [EvDestroyImage (gBufferDepth (m_res o))] else []) ++
  (EvDestroyImageView (getDevice alloc) <$> uiImageViews (m_res o)).

(** The object after a teardown. *)
Definition torn_down (o : GBuffer) : GBuffer :=
  {| m_res :=
       {| gBufferColor := [];
          gBufferColorMSAA := [];
          gBufferDepth :=
            if negb (image (gBufferDepth (m_res o)) =? VK_NULL_HANDLE)%N
            then Image_default else gBufferDepth (m_res o);
          uiImageViews := [];
          uiDescriptorSets := if frees_ui o then [] else uiDescriptorSets (m_res o) |};
     m_size := m_size o;
     m_info := m_info o;
     m_descLayout := if frees_ui o then VK_NULL_HANDLE else m_descLayout o |}.

(** A state property that every entry point keeps: a depth image that is
    null has a null view, and descriptor sets exist only with a
    descriptor pool, an allocator and at least one colour format. *)
Definition consistent (o : GBuffer) : Prop :=
  (image (gBufferDepth (m_res o)) = VK_NULL_HANDLE ->
   imageView (descriptor (gBufferDepth (m_res o))) = VK_NULL_HANDLE) /\
  (uiDescriptorSets (m_res o) <> [] ->
     descriptorPool (m_info o) <> VK_NULL_HANDLE /\ allocator (m_info o) <> None /\
     colorFormats (m_info o) <> []).

(** No resources at all: what a teardown leaves. *)
Definition torn (q : Resources) : Prop :=
  gBufferColor q = [] /\ gBufferColorMSAA q = [] /\ uiImageViews q = [] /\
  uiDescriptorSets q = [] /\
  image (gBufferDepth q) = VK_NULL_HANDLE /\
  imageView (descriptor (gBufferDepth q)) = VK_NULL_HANDLE.

(** ** The clear-and-transition protocol, as the specification describes it *)

(** The images of a bundle: per colour format the colour target, followed
    by its multisampled shadow when multisampling is on; then the depth
    image when there is one. *)
Inductive attachment :=
| ColorAtt (img : N)
| MsaaAtt (img : N)
| DepthAtt (img : N).

Definition round_atts (isMsaa : bool) (q : Resources) (c : nat) : list attachment :=
  ColorAtt (image (gBufferColor q !!! c))
  :: (if isMsaa then [MsaaAtt (image (gBufferColorMSAA q !!! c))] else []).
Definition depth_atts (q : Resources) : list attachment :=
  if negb (image (gBufferDepth q) =? VK_NULL_HANDLE)%N
  then [DepthAtt (image (gBufferDepth q))] else [].
Definition attachments (isMsaa : bool) (q : Resources) : list attachment :=
  flat_map (round_atts isMsaa q) (seq 0 (length (gBufferColor q))) ++ depth_atts q.

(** Phase A: undefined layout to transfer-destination layout. *)
Definition phaseA_barrier (x : attachment) : VkImageMemoryBarrier2 :=
  match x with
  | ColorAtt img | MsaaAtt img =>
      barrier img VK_IMAGE_LAYOUT_UNDEFINED VK_IMAGE_LAYOUT_TRANSFER_DST_OPTIMAL None
  | DepthAtt img =>
      barrier img VK_IMAGE_LAYOUT_UNDEFINED VK_IMAGE_LAYOUT_TRANSFER_DST_OPTIMAL
        (Some range_depth)
  end.
(** Phase B: the clear, in transfer-destination layout; colour to
    (0,0,0,0), depth to 1.0 with stencil 0. *)
Definition clear_command (x : attachment) : Command :=
  match x with
  | ColorAtt img | MsaaAtt img =>
      CmdClearColorImage img VK_IMAGE_LAYOUT_TRANSFER_DST_OPTIMAL
        {| float32 := [f32_zero; f32_zero; f32_zero; f32_zero] |} 1
        [ {| aspectMask := VK_IMAGE_ASPECT_COLOR_BIT; baseMipLevel := 0; levelCount := 1;
             baseArrayLayer := 0; layerCount := 1 |} ]
  | DepthAtt img =>
      CmdClearDepthStencilImage img VK_IMAGE_LAYOUT_TRANSFER_DST_OPTIMAL
        {| depth := f32_one; stencil := 0 |} 1 [range_depth]
  end.
(** Phase C: to the layout of steady use. *)
Definition phaseC_barrier (x : attachment) : VkImageMemoryBarrier2 :=
  match x with
  | ColorAtt img =>
      barrier img VK_IMAGE_LAYOUT_TRANSFER_DST_OPTIMAL
        VK_IMAGE_LAYOUT_SHADER_READ_ONLY_OPTIMAL None
  | MsaaAtt img =>
      barrier img VK_IMAGE_LAYOUT_TRANSFER_DST_OPTIMAL
        VK_IMAGE_LAYOUT_COLOR_ATTACHMENT_OPTIMAL None
  | DepthAtt img =>
      barrier img VK_IMAGE_LAYOUT_TRANSFER_DST_OPTIMAL
        VK_IMAGE_LAYOUT_DEPTH_STENCIL_ATTACHMENT_OPTIMAL (Some range_depth)
  end.

(** One batched barrier call, the clears, one batched barrier call. *)
Definition three_phases (atts : list attachment) : list Command :=
  [CmdPipelineBarrier2 (dependencyInfo (phaseA_barrier <$> atts))] ++
  (clear_command <$> atts) ++
  [CmdPipelineBarrier2 (dependencyInfo (phaseC_barrier <$> atts))].

(** The vectors have one element per colour format. *)
Definition shaped (n : nat) (isMsaa : bool) (q : Resources) : Prop :=
  length (gBufferColor q) = n /\ length (uiImageViews q) = n /\
  (isMsaa = true -> length (gBufferColorMSAA q) = n).

(** Two bundles with the same images. *)
Definition images_same (q q' : Resources) : Prop :=
  image <$> gBufferColor q' = image <$> gBufferColor q /\
  image <$> gBufferColorMSAA q' = image <$> gBufferColorMSAA q /\
  image (gBufferDepth q') = image (gBufferDepth q).

(** ** What a built bundle looks like *)

(** The handles an object holds. *)
Definition image_handles (i : Image) : list N := [image i; imageView (descriptor i)].
Definition resource_handles (q : Resources) : list N :=
  (gBufferColor q ≫= image_handles) ++
  (gBufferColorMSAA q ≫= image_handles) ++
  image_handles (gBufferDepth q) ++
  uiImageViews q.
Definition bundle_handles (o : GBuffer) : list N :=
  resource_handles (m_res o) ++ uiDescriptorSets (m_res o) ++ [m_descLayout o].

(** The handles a logged call produced. *)
Definition created (e : Event) : list N :=
  match e with
  | EvCreateImage _ _ _ img view => [img; view]
  | EvCreateImageView _ _ _ view => [view]
  | EvCreateDescriptorSetLayout _ _ _ layout => [layout]
  | EvAllocateDescriptorSets _ _ _ sets => sets
  | _ => []
  end.

(** Every object created by the calls [evs] is held by [o]; is among the
    images and views of [q]. *)
Definition all_held (evs : list Event) (o : GBuffer) : Prop :=
  forall e h, e ∈ evs -> h ∈ created e -> h <> VK_NULL_HANDLE -> h ∈ bundle_handles o.
Definition res_held (evs : list Event) (q : Resources) : Prop :=
  forall e h, e ∈ evs -> h ∈ created e -> h <> VK_NULL_HANDLE -> h ∈ resource_handles q.

(** Colour attachment [c] exists: the image and its view were created
    with the format configured at index [c], single-sampled, at the
    stored size; the UI view was created over the same image with alpha
    swizzled to one; the sampler is the configured one. *)
Definition color_built (device : N) (info : GBufferInitInfo) (size : VkExtent2D)
    (q : Resources) (evs : list Event) (c : nat) : Prop :=
  exists fmt col uiv,
    colorFormats info !! c = Some fmt /\
    gBufferColor q !! c = Some col /\
    uiImageViews q !! c = Some uiv /\
    image col <> VK_NULL_HANDLE /\ imageView (descriptor col) <> VK_NULL_HANDLE /\
    uiv <> VK_NULL_HANDLE /\
    sampler (descriptor col) = imageSampler info /\
    EvCreateImage (color_info fmt size) (color_viewInfo fmt) VK_SUCCESS
      (image col) (imageView (descriptor col)) ∈ evs /\
    EvCreateImageView device (ui_viewInfo (color_viewInfo fmt) (image col)) VK_SUCCESS uiv ∈ evs.

(** The multisampled shadow of attachment [c] exists, with the same
    format and size and the configured sample count. *)
Definition msaa_built (info : GBufferInitInfo) (size : VkExtent2D)
    (q : Resources) (evs : list Event) (c : nat) : Prop :=
  exists fmt col ms,
    colorFormats info !! c = Some fmt /\
    gBufferColor q !! c = Some col /\
    gBufferColorMSAA q !! c = Some ms /\
    image ms <> VK_NULL_HANDLE /\ imageView (descriptor ms) <> VK_NULL_HANDLE /\
    EvCreateImage (msaa_info (color_info fmt size) (sampleCount info))
      (ui_viewInfo (color_viewInfo fmt) (image col)) VK_SUCCESS
      (image ms) (imageView (descriptor ms)) ∈ evs.

(** The depth image exists. *)
Definition depth_built (info : GBufferInitInfo) (size : VkExtent2D)
    (q : Resources) (evs : list Event) : Prop :=
  image (gBufferDepth q) <> VK_NULL_HANDLE /\
  imageView (descriptor (gBufferDepth q)) <> VK_NULL_HANDLE /\
  EvCreateImage (depth_info (depthFormat info) size (sampleCount info))
    (depth_viewInfo (depthFormat info)) VK_SUCCESS
    (image (gBufferDepth q)) (imageView (descriptor (gBufferDepth q))) ∈ evs.

(** The effect of one round of the first loop on the object: element [c]
    of each vector is assigned, nothing else changes. *)
Definition round_update (isMsaa : bool) (c : nat) (col : Image) (uiv : N) (ms : Image)
    (o o' : GBuffer) : Prop :=
  gBufferColor (m_res o') = <[c := col]> (gBufferColor (m_res o)) /\
  uiImageViews (m_res o') = <[c := uiv]> (uiImageViews (m_res o)) /\
  gBufferColorMSAA (m_res o') =
    (if isMsaa then <[c := ms]> (gBufferColorMSAA (m_res o)) else gBufferColorMSAA (m_res o)) /\
  gBufferDepth (m_res o') = gBufferDepth (m_res o) /\
  uiDescriptorSets (m_res o') = uiDescriptorSets (m_res o) /\
  m_info o' = m_info o /\ m_size o' = m_size o /\ m_descLayout o' = m_descLayout o.

(** The handles the calls [new] of a round produced are those assigned. *)
Definition round_held (isMsaa : bool) (col : Image) (uiv : N) (ms : Image)
    (new : list Event) : Prop :=
  forall e h, e ∈ new -> h ∈ created e -> h <> VK_NULL_HANDLE ->
    h ∈ image_handles col ++ [uiv] ++ (if isMsaa then image_handles ms else []).

(** A round that succeeded. *)
Definition round_ok (device : N) (info : GBufferInitInfo) (size : VkExtent2D)
    (isMsaa : bool) (fmt : N) (col : Image) (uiv : N) (ms : Image) (new : list Event) : Prop :=
  image col <> VK_NULL_HANDLE /\ imageView (descriptor col) <> VK_NULL_HANDLE /\
  uiv <> VK_NULL_HANDLE /\
  sampler (descriptor col) = imageSampler info /\
  EvCreateImage (color_info fmt size) (color_viewInfo fmt) VK_SUCCESS
    (image col) (imageView (descriptor col)) ∈ new /\
  EvCreateImageView device (ui_viewInfo (color_viewInfo fmt) (image col)) VK_SUCCESS uiv ∈ new /\
  (isMsaa = true ->
     image ms <> VK_NULL_HANDLE /\ imageView (descriptor ms) <> VK_NULL_HANDLE /\
     EvCreateImage (msaa_info (color_info fmt size) (sampleCount info))
       (ui_viewInfo (color_viewInfo fmt) (image col)) VK_SUCCESS
       (image ms) (imageView (descriptor ms)) ∈ new).

(** The state of the first loop before round [c], when it started from
    the object [o0] with the log [tr0]: the rounds before [c] built their
    attachments, the elements from [c] on are the default ones, and every
    object created so far is held. *)
Definition color_inv (device : N) (isMsaa : bool) (n : nat) (o0 : GBuffer)
    (tr0 : list Event) (c : nat) (s : St) : Prop :=
  m_info (fst s) = m_info o0 /\ m_size (fst s) = m_size o0 /\
  m_descLayout (fst s) = m_descLayout o0 /\
  gBufferDepth (m_res (fst s)) = gBufferDepth (m_res o0) /\
  uiDescriptorSets (m_res (fst s)) = uiDescriptorSets (m_res o0) /\
  shaped n isMsaa (m_res (fst s)) /\
  (isMsaa = false -> gBufferColorMSAA (m_res (fst s)) = gBufferColorMSAA (m_res o0)) /\
  (forall i, c <= i < n ->
     gBufferColor (m_res (fst s)) !! i = Some Image_default /\
     uiImageViews (m_res (fst s)) !! i = Some VK_NULL_HANDLE /\
     (isMsaa = true -> gBufferColorMSAA (m_res (fst s)) !! i = Some Image_default)) /\
  exists evs,
    trace (snd s) = tr0 ++ evs /\
    (forall i, i < c ->
       color_built device (m_info o0) (m_size o0) (m_res (fst s)) evs i /\
       (isMsaa = true -> msaa_built (m_info o0) (m_size o0) (m_res (fst s)) evs i)) /\
    res_held evs (m_res (fst s)).

(** What is known when construction is abandoned: the calls made so far
    and the objects they created, all of them still held. *)
Definition abandoned_held (tr0 : list Event) (s : St) : Prop :=
  exists evs, trace (snd s) = tr0 ++ evs /\ all_held evs (fst s).

(** ** The UI descriptors, as the specification describes them *)

(** One write per colour attachment: the descriptor set at that index
    gets the UI view at that index, the configured sampler and the
    shader-read layout. *)
Definition ui_writes (info : GBufferInitInfo) (sets views : list N)
  : list VkWriteDescriptorSet :=
  zip_with (fun set view =>
              ui_write set {| sampler := imageSampler info; imageView := view;
                              imageLayout := VK_IMAGE_LAYOUT_SHADER_READ_ONLY_OPTIMAL |})
           sets views.

(** The calls of the block: one layout with the single binding, one
    allocation of all sets from the pool with that layout for each, one
    update with all the writes. *)
Definition ui_events (device : N) (info : GBufferInitInfo) (numColor : N)
    (layout : N) (sets views : list N) : list Event :=
  [EvCreateDescriptorSetLayout device ui_layout_info VK_SUCCESS layout;
   EvAllocateDescriptorSets device (ui_allocInfos (descriptorPool info) numColor layout)
     VK_SUCCESS sets;
   EvUpdateDescriptorSets device (uint32_of_size (length sets)) (ui_writes info sets views)].

Definition ui_built (device : N) (info : GBufferInitInfo) (numColor : N) (o : GBuffer)
    (evs : list Event) : Prop :=
  m_descLayout o <> VK_NULL_HANDLE /\
  length (uiDescriptorSets (m_res o)) = N.to_nat numColor /\
  Forall (fun h => h <> VK_NULL_HANDLE) (uiDescriptorSets (m_res o)) /\
  evs = ui_events device info numColor (m_descLayout o) (uiDescriptorSets (m_res o))
          (uiImageViews (m_res o)).

(** Two objects with the same images, views, configuration and size. *)
Definition same_images (o o' : GBuffer) : Prop :=
  gBufferColor (m_res o') = gBufferColor (m_res o) /\
  gBufferColorMSAA (m_res o') = gBufferColorMSAA (m_res o) /\
  gBufferDepth (m_res o') = gBufferDepth (m_res o) /\
  uiImageViews (m_res o') = uiImageViews (m_res o) /\
  m_info o' = m_info o /\ m_size o' = m_size o.

(** The objects created by [evs] are the descriptor sets and the
    descriptor-set layout of [o]. *)
Definition ui_held (evs : list Event) (o : GBuffer) : Prop :=
  forall e h, e ∈ evs -> h ∈ created e -> h <> VK_NULL_HANDLE ->
    h ∈ uiDescriptorSets (m_res o) ++ [m_descLayout o].

(** Two objects that differ in the depth image only. *)
Definition same_but_depth (o o' : GBuffer) : Prop :=
  gBufferColor (m_res o') = gBufferColor (m_res o) /\
  gBufferColorMSAA (m_res o') = gBufferColorMSAA (m_res o) /\
  uiImageViews (m_res o') = uiImageViews (m_res o) /\
  uiDescriptorSets (m_res o') = uiDescriptorSets (m_res o) /\
  m_info o' = m_info o /\ m_size o' = m_size o /\ m_descLayout o' = m_descLayout o.

(** The handles of an image record: everything but the layout. *)
Definition handles_of (i : Image) : N * N * N :=
  (image i, imageView (descriptor i), sampler (descriptor i)).

(** Two states whose objects agree on everything but the layouts
    recorded with the images. *)
Definition same_handles (s s' : St) : Prop :=
  handles_of <$> gBufferColor (m_res (fst s')) = handles_of <$> gBufferColor (m_res (fst s)) /\
  handles_of <$> gBufferColorMSAA (m_res (fst s')) =
    handles_of <$> gBufferColorMSAA (m_res (fst s)) /\
  handles_of (gBufferDepth (m_res (fst s'))) = handles_of (gBufferDepth (m_res (fst s))) /\
  uiImageViews (m_res (fst s')) = uiImageViews (m_res (fst s)) /\
  uiDescriptorSets (m_res (fst s')) = uiDescriptorSets (m_res (fst s)) /\
  m_descLayout (fst s') = m_descLayout (fst s) /\
  m_info (fst s') = m_info (fst s) /\ m_size (fst s') = m_size (fst s).

(** ** A bundle that was built

    The object and the log after a successful construction that started
    from the configuration and size of [o0] with the log [tr0]: one
    colour attachment per configured format, multisampled shadows exactly
    when the sample count exceeds one, the depth image exactly when a
    depth format is configured, the UI descriptors exactly when a pool is
    configured, the three phases in the command buffer, and every object
    created is held. *)
Definition bundle_built (cmd : N) (alloc : ResourceAllocator) (o0 : GBuffer)
    (tr0 : list Event) (s : St) : Prop :=
  let info := m_info o0 in
  let size := m_size o0 in
  let isMsaa := (VK_SAMPLE_COUNT_1_BIT <? sampleCount info)%N in
  let numColor := uint32_of_size (length (colorFormats info)) in
  let q := m_res (fst s) in
  m_info (fst s) = info /\ m_size (fst s) = size /\
  shaped (N.to_nat numColor) isMsaa q /\
  (isMsaa = false -> gBufferColorMSAA q = []) /\
  exists evs,
    trace (snd s) = tr0 ++ evs /\
    (forall i, i < N.to_nat numColor ->
       color_built (getDevice alloc) info size q evs i /\
       (isMsaa = true -> msaa_built info size q evs i)) /\
    (if (depthFormat info =? VK_FORMAT_UNDEFINED)%N
     then image (gBufferDepth q) = VK_NULL_HANDLE /\
          imageView (descriptor (gBufferDepth q)) = VK_NULL_HANDLE
     else depth_built info size q evs) /\
    (if (descriptorPool info =? VK_NULL_HANDLE)%N
     then uiDescriptorSets q = [] /\ m_descLayout (fst s) = m_descLayout o0
     else exists pre ui,
            evs = pre ++ ui /\ ui_built (getDevice alloc) info numColor (fst s) ui) /\
    recorded cmd evs = three_phases (attachments isMsaa q) /\
    (forall cmd', cmd' <> cmd -> recorded cmd' evs = []) /\
    all_held evs (fst s).

(** An abandoned construction leaves a consistent object with the
    configuration and size it started from. *)
Definition abandoned (o0 : GBuffer) (tr0 : list Event) (s : St) : Prop :=
  m_info (fst s) = m_info o0 /\ m_size (fst s) = m_size o0 /\
  consistent (fst s) /\ abandoned_held tr0 s.

(** The first loop and the clear block leave the depth image (but for
    its layout), the descriptor sets, their layout and the configuration
    alone. *)
Definition keeps_rest (s s' : St) : Prop :=
  handles_of (gBufferDepth (m_res (fst s'))) = handles_of (gBufferDepth (m_res (fst s))) /\
  uiDescriptorSets (m_res (fst s')) = uiDescriptorSets (m_res (fst s)) /\
  m_descLayout (fst s') = m_descLayout (fst s) /\
  m_info (fst s') = m_info (fst s) /\ m_size (fst s') = m_size (fst s).

(** ** update *)

(** The request names the stored size and sample count. *)
Definition requested (newSize : VkExtent2D) (newSampleCount : N) (o : GBuffer) : Prop :=
  width newSize = width (m_size o) /\ height newSize = height (m_size o) /\
  newSampleCount = sampleCount (m_info o).

(** The object from which update starts the construction: torn down,
    with the new size and sample count stored. *)
Definition prepared (newSize : VkExtent2D) (newSampleCount : N) (o : GBuffer) : GBuffer :=
  set_m_info (set_sampleCount newSampleCount (m_info (torn_down o)))
             (set_m_size newSize (torn_down o)).

(** The states a manager can be in: a fresh one, and what init, update
    and deinit make of a state when they return. *)
Inductive reachable : GBuffer -> Prop :=
| reach_fresh : reachable GBuffer_default
| reach_init o w createInfo o' w' :
    reachable o -> init createInfo (o, w) = Ret tt (o', w') -> reachable o'
| reach_update o w cmd newSize newSampleCount res o' w' :
    reachable o -> update cmd newSize newSampleCount (o, w) = Ret res (o', w') ->
    reachable o'
| reach_deinit o w o' w' :
    reachable o -> deinit (o, w) = Ret tt (o', w') -> reachable o'.

(** A reference handed to a creation call only assigns to the object. *)
Definition assigns {A} (store : A -> M unit) : Prop :=
  forall x s, exists o', store x s = Ret tt (o', snd s).

(** The handles a logged call destroyed or freed. *)
Definition destroyed (e : Event) : list N :=
  match e with
  | EvDestroyImage img => image_handles img
  | EvDestroyImageView _ view => [view]
  | EvDestroyDescriptorSetLayout _ layout => [layout]
  | EvFreeDescriptorSets _ _ _ sets => sets
  | _ => []
  end.


(** ** Concrete runs *)

(** The state in which a call leaves the manager. *)
Definition state_after {A} (m : M A) (s : St) : St :=
  match m s with
  | Ret _ s' | Early _ s' => s'
  | Undef => s
  end.

Definition example_size : VkExtent2D := {| width := 600; height := 480 |}.
Definition example_world : World := world0 all_succeed.

(** A new manager after [init]. *)
Definition example_initialised (pool sc : N) : GBuffer :=
  set_m_info (example_info pool sc) GBuffer_default.

(** ... and after its first update, with a driver that gives [orc]. *)
Definition example_updated (pool sc : N) (orc : nat -> Z) : St :=
  state_after (update example_cmd example_size sc) (example_initialised pool sc, world0 orc).

Definition example_failing (k : nat) : nat -> Z := fails_at k VK_ERROR_OUT_OF_DEVICE_MEMORY.
Definition example_larger : VkExtent2D := {| width := 1280; height := 720 |}.

(** Two objects in a store: a new one at 1, a built one at 2. *)
Definition example_store : gmap positive GBuffer :=
  <[2%positive := fst (example_updated example_pool VK_SAMPLE_COUNT_4_BIT all_succeed)]>
    (<[1%positive := GBuffer_default]> ∅).

(** No descriptor set was written. *)
Definition no_descriptor_write (e : Event) : Prop :=
  match e with EvUpdateDescriptorSets _ _ _ => False | _ => True end.

(** ** The destructor and the usage example *)

(** [~GBuffer()]: the assertion "Missing deinit()". *)
Definition destroy_GBuffer : M unit :=
  o ← this; assert (bool_decide (allocator (m_info o) = None)).

(** The creation info of the usage example; the sample count is not
    named there and keeps its default. *)
Definition usage_info (alloc : ResourceAllocator) (linearSampler descriptorPool : N)
  : GBufferInitInfo :=
  {| allocator := Some alloc;
     colorFormats := [VK_FORMAT_R8G8B8A8_UNORM; VK_FORMAT_R32G32B32A32_SFLOAT];
     depthFormat := VK_FORMAT_D32_SFLOAT;
     sampleCount := sampleCount GBufferInitInfo_default;
     imageSampler := linearSampler;
     descriptorPool := descriptorPool |}.

(** The statements of [usage_GBuffer] on its local object, which is the
    object of the state and newly constructed; the three views it reads
    are returned. *)
Definition usage_GBuffer_body (alloc : ResourceAllocator) : M (N * N * N) :=
  let linearSampler := VK_NULL_HANDLE in
  let descriptorPool := VK_NULL_HANDLE in
  init (usage_info alloc linearSampler descriptorPool);;
  let cmd := VK_NULL_HANDLE in
  update_size cmd {| width := 600; height := 480 |};;
  o ← this;
  colorImageViewRgba8 ← deref (getColorImageView o 0);
  o ← this;
  colorImageViewRgbaF32 ← deref (getColorImageView o 1);
  o ← this;
  let depthImageView := getDepthImageView o in
  mret (colorImageViewRgba8, colorImageViewRgbaF32, depthImageView).

(** [usage_GBuffer]: at the end of the scope the local object is
    destroyed. *)
Definition usage_GBuffer (alloc : ResourceAllocator) : M unit :=
  usage_GBuffer_body alloc;;
  destroy_GBuffer.

(** ** More vocabulary *)

(** The vectors keep their lengths; the descriptor sets, their layout,
    the configuration and the size stay as they are. *)
Definition steady (s s' : St) : Prop :=
  length (gBufferColor (m_res (fst s'))) = length (gBufferColor (m_res (fst s))) /\
  length (gBufferColorMSAA (m_res (fst s'))) = length (gBufferColorMSAA (m_res (fst s))) /\
  length (uiImageViews (m_res (fst s'))) = length (uiImageViews (m_res (fst s))) /\
  uiDescriptorSets (m_res (fst s')) = uiDescriptorSets (m_res (fst s)) /\
  m_descLayout (fst s') = m_descLayout (fst s) /\
  m_info (fst s') = m_info (fst s) /\ m_size (fst s') = m_size (fst s).

(** A descriptor-set layout, if there is one, is one that the next
    teardown destroys. *)
Definition layout_owned (o : GBuffer) : Prop :=
  m_descLayout o <> VK_NULL_HANDLE -> frees_ui o = true.

(** No call destroys a descriptor-set layout. *)
Definition keeps_layouts (e : Event) : Prop :=
  match e with EvDestroyDescriptorSetLayout _ _ => False | _ => True end.

(** What construction leaves, finished or abandoned, from the object
    [o]: the colour and UI-view vectors have one element per colour
    format, the multisampled vector too when multisampling is on; the
    descriptor sets and their layout are untouched, or there is a pool
    and one set per colour format. *)
Definition constructed_shape (o : GBuffer) (s' : St) : Prop :=
  let n := N.to_nat (uint32_of_size (length (colorFormats (m_info o)))) in
  m_info (fst s') = m_info o /\
  length (gBufferColor (m_res (fst s'))) = n /\
  length (uiImageViews (m_res (fst s'))) = n /\
  length (gBufferColorMSAA (m_res (fst s'))) =
    (if (VK_SAMPLE_COUNT_1_BIT <? sampleCount (m_info o))%N then n
     else length (gBufferColorMSAA (m_res o))) /\
  ((m_descLayout (fst s') = m_descLayout o /\
    uiDescriptorSets (m_res (fst s')) = uiDescriptorSets (m_res o)) \/
   (descriptorPool (m_info o) <> VK_NULL_HANDLE /\
    length (uiDescriptorSets (m_res (fst s'))) = n)).

(** The layouts recorded with the images of a bundle are those of
    steady use: shader-read for the colour images, colour-attachment for
    the multisampled ones, depth-stencil-attachment for the depth image
    if there is one. *)
Definition layouts_recorded (isMsaa : bool) (q : Resources) : Prop :=
  (forall i col, gBufferColor q !! i = Some col ->
     imageLayout (descriptor col) = VK_IMAGE_LAYOUT_SHADER_READ_ONLY_OPTIMAL) /\
  (isMsaa = true ->
   forall i ms, gBufferColorMSAA q !! i = Some ms ->
     imageLayout (descriptor ms) = VK_IMAGE_LAYOUT_COLOR_ATTACHMENT_OPTIMAL) /\
  (image (gBufferDepth q) <> VK_NULL_HANDLE ->
   imageLayout (descriptor (gBufferDepth q)) =
     VK_IMAGE_LAYOUT_DEPTH_STENCIL_ATTACHMENT_OPTIMAL).

(** The vectors of a manager go together: one UI view per colour image,
    and multisampled images for none or for all of the colour images. *)
Definition aligned (q : Resources) : Prop :=
  length (uiImageViews q) = length (gBufferColor q) /\
  (gBufferColorMSAA q = [] \/ length (gBufferColorMSAA q) = length (gBufferColor q)).

(** The calls of the first two blocks of initResources, and those of its
    last block. *)
Definition image_phase_event (e : Event) : Prop :=
  match e with
  | EvCreateImage _ _ _ _ _ | EvCreateImageView _ _ _ _ | EvSetObjectName _ _ => True
  | _ => False
  end.
Definition ui_phase_event (e : Event) : Prop :=
  match e with
  | EvCreateDescriptorSetLayout _ _ _ _ | EvAllocateDescriptorSets _ _ _ _
  | EvUpdateDescriptorSets _ _ _ => True
  | _ => False
  end.

(** What a failed update has recorded into [cmd], by the call that
    failed: nothing when an image or a view could not be created, the
    whole clear sequence when the descriptor-set layout or the descriptor
    sets could not. *)
Definition recorded_at_failure (cmd : N) (isMsaa : bool) (q : Resources)
    (evs : list Event) (e : Event) : Prop :=
  match e with
  | EvCreateImage _ _ _ _ _ | EvCreateImageView _ _ _ _ => recorded cmd evs = []
  | EvCreateDescriptorSetLayout _ _ _ _ | EvAllocateDescriptorSets _ _ _ _ =>
      recorded cmd evs = three_phases (attachments isMsaa q)
  | _ => False
  end.

(** ** More concrete runs *)

(** A configuration with a descriptor pool and no colour format. *)
Definition example_info_empty : GBufferInitInfo :=
  {| allocator := Some example_alloc;
     colorFormats := [];
     depthFormat := VK_FORMAT_D32_SFLOAT;
     sampleCount := VK_SAMPLE_COUNT_1_BIT;
     imageSampler := 1002;
     descriptorPool := example_pool |}.
Definition example_updated_empty : St :=
  state_after (update example_cmd example_size VK_SAMPLE_COUNT_1_BIT)
    (set_m_info example_info_empty GBuffer_default, example_world).

(** The built manager of the examples, and the one whose fourth creation
    call failed. *)
Definition example_built : St := example_updated example_pool VK_SAMPLE_COUNT_4_BIT all_succeed.
Definition example_partial : St :=
  example_updated example_pool VK_SAMPLE_COUNT_4_BIT (example_failing 3).

(** ** The calls of a construction, one by one *)

(** The calls of one successful round of the first loop of
    initResources, for the colour format [fmt] at index [c]: the colour
    image with its view and their names, the UI view and its name, and
    with multisampling the multisampled image with its view and their
    names. *)
Definition round_events (device : N) (info : GBufferInitInfo) (size : VkExtent2D)
    (isMsaa : bool) (c : nat) (fmt : N) (col : Image) (uiv : N) (ms : Image) : list Event :=
  [EvCreateImage (color_info fmt size) (color_viewInfo fmt) VK_SUCCESS
     (image col) (imageView (descriptor col));
   EvSetObjectName (image col) ("G-Color" ++ to_string c);
   EvSetObjectName (imageView (descriptor col)) ("G-Color" ++ to_string c);
   EvCreateImageView device (ui_viewInfo (color_viewInfo fmt) (image col)) VK_SUCCESS uiv;
   EvSetObjectName uiv ("UI G-Color" ++ to_string c)] ++
  (if isMsaa then
     [EvCreateImage (msaa_info (color_info fmt size) (sampleCount info))
        (ui_viewInfo (color_viewInfo fmt) (image col)) VK_SUCCESS
        (image ms) (imageView (descriptor ms));
      EvSetObjectName (image ms) ("G-Color-MSAA-" ++ to_string c);
      EvSetObjectName (imageView (descriptor ms)) ("G-Color-MSAA-" ++ to_string c)]
   else []).

(** The calls of the rounds [0 .. n-1], read off the bundle [q]. *)
Definition color_events (device : N) (info : GBufferInitInfo) (size : VkExtent2D)
    (isMsaa : bool) (q : Resources) (n : nat) : list Event :=
  flat_map (fun c =>
              round_events device info size isMsaa c (colorFormats info !!! c)
                (gBufferColor q !!! c) (uiImageViews q !!! c) (gBufferColorMSAA q !!! c))
           (seq 0 n).

(** The calls of the depth block. *)
Definition depth_events (info : GBufferInitInfo) (size : VkExtent2D) (d : Image)
  : list Event :=
  if (depthFormat info =? VK_FORMAT_UNDEFINED)%N then []
  else
    [EvCreateImage (depth_info (depthFormat info) size (sampleCount info))
       (depth_viewInfo (depthFormat info)) VK_SUCCESS (image d) (imageView (descriptor d));
     EvSetObjectName (image d) "G-Depth";
     EvSetObjectName (imageView (descriptor d)) "G-Depth"].

(** All calls of a successful construction that left the object [o']. *)
Definition construction_events (cmd : N) (device : N) (o' : GBuffer) : list Event :=
  let info := m_info o' in
  let isMsaa := (VK_SAMPLE_COUNT_1_BIT <? sampleCount info)%N in
  color_events device info (m_size o') isMsaa (m_res o') (length (gBufferColor (m_res o'))) ++
  depth_events info (m_size o') (gBufferDepth (m_res o')) ++
  (EvCmd cmd <$> three_phases (attachments isMsaa (m_res o'))) ++
  (if (descriptorPool info =? VK_NULL_HANDLE)%N then []
   else ui_events device info (uint32_of_size (length (colorFormats info)))
          (m_descLayout o') (uiDescriptorSets (m_res o')) (uiImageViews (m_res o'))).

(** ** The images of the phases, and the results of the creation calls *)

(** The image of an attachment. *)
Definition attachment_image (x : attachment) : N :=
  match x with ColorAtt img | MsaaAtt img | DepthAtt img => img end.

(** The results with which the creation calls among [evs] were logged,
    in order. *)
Definition results (evs : list Event) : list Z := omap event_result evs.

(** The answers the driver gives to the [n] calls that come after the
    calls made in the world [w]. *)
Definition answers (w : World) (n : nat) : list Z := oracle w <$> seq (calls w) n.

(** A run in which every creation call succeeded: each call logged the
    driver's answer to it, every answer was VK_SUCCESS, and the driver
    was asked once per creation call. *)
Definition answered (s s' : St) : Prop :=
  oracle (snd s') = oracle (snd s) /\
  exists evs,
    trace (snd s') = trace (snd s) ++ evs /\
    calls (snd s') = calls (snd s) + length (results evs) /\
    results evs = answers (snd s) (length (results evs)) /\
    Forall (fun r => r = VK_SUCCESS) (results evs).

(** A run that ended with a creation call that failed with [res]: that
    call is the last call logged, every creation call before it
    succeeded, and again each logged the driver's answer to it. *)
Definition refused (res : Z) (s s' : St) : Prop :=
  oracle (snd s') = oracle (snd s) /\
  res <> VK_SUCCESS /\
  exists evs e,
    trace (snd s') = trace (snd s) ++ evs ++ [e] /\
    event_result e = Some res /\
    calls (snd s') = calls (snd s) + length (results (evs ++ [e])) /\
    results (evs ++ [e]) = answers (snd s) (length (results (evs ++ [e]))) /\
    Forall (fun r => r = VK_SUCCESS) (results evs).

(** The images that the image creation calls among [evs] returned, in
    order. *)
Definition created_image (e : Event) : option N :=
  match e with EvCreateImage _ _ _ img _ => Some img | _ => None end.
Definition created_images (evs : list Event) : list N := omap created_image evs.
(** * Reasoning about the monad *)

Section Sat.
Context (R : St -> St -> Prop) (E : Z -> St -> St -> Prop) `{!RelOK R E}.

Lemma sat_ret {A} (x : A) : sat R E (mret x).
Proof. intros s. apply rel_refl. Qed.

Lemma sat_bind {A B} (m : M A) (k : A -> M B) :
  sat R E m -> (forall x, sat R E (k x)) -> sat R E (m ≫= k).
Proof.
  intros Hm Hk s. unfold mbind, M_bind. specialize (Hm s).
  destruct (m s) as [x s1|res s1|]; [|done..].
  specialize (Hk x s1). destruct (k x s1) as [y s2|res s2|]; [| |done].
  - eapply rel_trans; eauto.
  - eapply rel_early; eauto.
Qed.

Lemma sat_this : sat R E this.
Proof. intros s. apply rel_refl. Qed.

Lemma sat_undefined {A} : sat R E (@undefined A).
Proof. intros s. exact I. Qed.

Lemma sat_deref {A} (p : option A) : sat R E (deref p).
Proof. destruct p; [apply sat_ret | apply sat_undefined]. Qed.

Lemma sat_assert (c : bool) : sat R E (assert c).
Proof. destruct c; [apply sat_ret | apply sat_undefined]. Qed.

Lemma sat_forM {A} (l : list A) (body : A -> M unit) :
  (forall x, sat R E (body x)) -> sat R E (forM_ l body).
Proof.
  intros Hb. induction l as [|x l IH]; simpl.
  - apply sat_ret.
  - apply sat_bind; [apply Hb | intros _; exact IH].
Qed.

Lemma sat_foldM {A} (l : list nat) (body : A -> nat -> M A) (x : A) :
  (forall y c, sat R E (body y c)) -> sat R E (foldM l body x).
Proof.
  intros Hb. revert x. induction l as [|c l IH]; intros x; simpl.
  - apply sat_ret.
  - apply sat_bind; [apply Hb | intros y; apply IH].
Qed.

(** The primitives that change the state satisfy [R] when each single
    change does. *)
Lemma sat_modify (f : GBuffer -> GBuffer) :
  (forall o w, R (o, w) (f o, w)) -> sat R E (modify f).
Proof. intros H [o w]. apply H. Qed.

Lemma sat_step {A} (m : M A) :
  (forall s x s', m s = Ret x s' -> R s s') ->
  (forall s res s', m s <> Early res s') ->
  sat R E m.
Proof.
  intros H1 H2 s. specialize (H1 s). specialize (H2 s).
  destruct (m s) as [x s1|res s1|]; [eauto | by destruct (H2 res s1) | done].
Qed.
End Sat.

Global Instance frame_rel_ok : RelOK frame_rel (fun _ => frame_rel).
Proof.
  split; unfold frame_rel.
  - done.
  - intros s1 s2 s3 [? ?] [? ?]. split; congruence.
  - intros _ s1 s2 s3 [? ?] [? ?]. split; congruence.
Qed.

Lemma grows_trans P s1 s2 s3 : grows P s1 s2 -> grows P s2 s3 -> grows P s1 s3.
Proof.
  intros [Ho1 (evs1 & Ht1 & Hf1)] [Ho2 (evs2 & Ht2 & Hf2)]. split; [congruence|].
  exists (evs1 ++ evs2). split.
  - rewrite Ht2, Ht1. by rewrite <- app_assoc.
  - by apply Forall_app.
Qed.

Global Instance grows_ok P : RelOK (grows P) (fun _ => grows P).
Proof.
  split.
  - intros s. split; [done|]. exists []. by rewrite app_nil_r.
  - apply grows_trans.
  - intros _. apply grows_trans.
Qed.

Global Instance oracle_rel_ok : RelOK oracle_ok oracle_early.
Proof.
  split.
  - intros s. split; [done|]. split; [done|]. intros j ?. lia.
  - intros s1 s2 s3 (Ho1 & Hc1 & Hs1) (Ho2 & Hc2 & Hs2).
    split; [congruence|]. split; [lia|]. intros j Hj.
    destruct (decide (j < calls (snd s2))).
    + apply Hs1. lia.
    + rewrite <- Ho1. apply Hs2. lia.
  - intros res s1 s2 s3 (Ho1 & Hc1 & Hs1) (Ho2 & Hne & (j & Hj & Hle & Hres & Hs2) & He).
    split; [congruence|]. split; [done|]. split; [|done].
    exists j. split; [done|]. split; [lia|]. split; [congruence|].
    intros i Hi. destruct (decide (i < calls (snd s2))).
    + apply Hs1. lia.
    + rewrite <- Ho1. apply Hs2. lia.
Qed.

(** ** The primitives under the three relations *)

Lemma sat_early_same (R : St -> St -> Prop) `{!RelOK R (fun _ => R)} {A} (res : Z) :
  sat R (fun _ => R) (@early A res).
Proof. intros s. apply rel_refl. Qed.

Lemma sat_emit_frame e : sat frame_rel (fun _ => frame_rel) (emit e).
Proof. by intros [o w]. Qed.
Lemma sat_fresh_frame : sat frame_rel (fun _ => frame_rel) fresh.
Proof. by intros [o w]. Qed.
Lemma sat_driver_frame : sat frame_rel (fun _ => frame_rel) driver_result.
Proof. by intros [o w]. Qed.
Lemma sat_modify_res_frame f : sat frame_rel (fun _ => frame_rel) (modify_res f).
Proof. by intros [o w]. Qed.
Lemma sat_set_descLayout_frame l : sat frame_rel (fun _ => frame_rel) (modify (set_m_descLayout l)).
Proof. by intros [o w]. Qed.

Lemma grows_same_world P o o' w : grows P (o, w) (o', w).
Proof. split; [done|]. exists []. by rewrite app_nil_r. Qed.

Lemma sat_emit_grows (P : Event -> Prop) e : P e -> sat (grows P) (fun _ => grows P) (emit e).
Proof. intros He [o w]. split; [done|]. exists [e]. split; [done|]. by constructor. Qed.
Lemma sat_fresh_grows P : sat (grows P) (fun _ => grows P) fresh.
Proof. intros [o w]. split; [done|]. exists []. by rewrite app_nil_r. Qed.
Lemma sat_driver_grows P : sat (grows P) (fun _ => grows P) driver_result.
Proof. intros [o w]. split; [done|]. exists []. by rewrite app_nil_r. Qed.
Lemma sat_modify_grows P f : sat (grows P) (fun _ => grows P) (modify f).
Proof. intros [o w]. apply grows_same_world. Qed.

Lemma sat_fresh_n (R : St -> St -> Prop) E `{!RelOK R E} n :
  sat R E fresh -> sat R E (fresh_n n).
Proof.
  intros Hf. induction n as [|n IH]; simpl.
  - by apply sat_ret.
  - apply sat_bind; [done..|]. intros h. apply sat_bind; [done..|].
    intros hs. by apply sat_ret.
Qed.

Create HintDb sat_frame discriminated.
Create HintDb sat_grows discriminated.
#[global] Hint Resolve sat_emit_frame sat_fresh_frame sat_driver_frame sat_modify_res_frame
  sat_set_descLayout_frame : sat_frame.
#[global] Hint Resolve sat_fresh_grows sat_driver_grows sat_modify_grows : sat_grows.

(** Following the syntax of a computation. *)
Ltac sat_syntax leaf :=
  repeat first
    [ apply sat_ret; solve [tc_solve]
    | apply sat_this; solve [tc_solve]
    | apply sat_deref; solve [tc_solve]
    | apply sat_assert; solve [tc_solve]
    | apply sat_early_same; solve [tc_solve]
    | solve [leaf]
    | lazymatch goal with
      | |- sat _ _ (if ?c then _ else _) => destruct c
      | |- sat _ _ (match ?x with Some _ => _ | None => _ end) => destruct x
      | |- sat _ _ (let _ := _ in _) => cbv zeta
      end
    | apply sat_fresh_n; [solve [tc_solve] | ]
    | apply sat_forM; [solve [tc_solve] | intros ?]
    | apply sat_foldM; [solve [tc_solve] | intros ? ?]
    | apply sat_bind; [solve [tc_solve] | | intros ?] ].

Ltac sat_frame := sat_syntax ltac:(eauto with sat_frame).
Ltac sat_grows tac :=
  sat_syntax ltac:(first [ solve [eauto with sat_grows] | apply sat_emit_grows; tac ]).

(** *** initResources keeps the configuration and the size *)

Lemma initResources_body_frame cmd : sat frame_rel (fun _ => frame_rel) (initResources_body cmd).
Proof. unfold initResources_body. sat_frame. Qed.

(** The function proper: it returns VK_SUCCESS when its body falls
    through, and the result of the failed call otherwise. *)
Lemma initResources_run cmd s :
  initResources cmd s =
  match initResources_body cmd s with
  | Ret _ s' => Ret VK_SUCCESS s'
  | Early res s' => Ret res s'
  | Undef => Undef
  end.
Proof.
  unfold initResources, returning, mbind, M_bind.
  by destruct (initResources_body cmd s).
Qed.

Lemma initResources_frame cmd s res s' :
  initResources cmd s = Ret res s' -> frame_rel s s'.
Proof.
  rewrite initResources_run. pose proof (initResources_body_frame cmd s) as H.
  destruct (initResources_body cmd s); intros; simplify_eq; done.
Qed.

(** ** Rules for weakest preconditions *)

Section Wp.
Context {A : Type}.
Implicit Types (Q : A -> St -> Prop) (E : Z -> St -> Prop).

Lemma wp_ret Q E (x : A) s : Q x s -> wp (mret x) Q E s.
Proof. done. Qed.

Lemma wp_bind {B} (m : M B) (k : B -> M A) Q E s :
  wp m (fun x s' => wp (k x) Q E s') E s -> wp (m ≫= k) Q E s.
Proof. unfold wp, mbind, M_bind. by destruct (m s). Qed.

Lemma wp_mono (m : M A) Q Q' E E' s :
  wp m Q E s ->
  (forall x s', Q x s' -> Q' x s') -> (forall res s', E res s' -> E' res s') ->
  wp m Q' E' s.
Proof. unfold wp. destruct (m s); eauto. Qed.

Lemma wp_early Q E res s : E res s -> wp (early res) Q E s.
Proof. done. Qed.

Lemma wp_deref Q E (p : option A) x s : p = Some x -> Q x s -> wp (deref p) Q E s.
Proof. by intros ->. Qed.

(** What a run says about the postcondition. *)
Lemma wp_ret_inv (m : M A) Q E s x s' : wp m Q E s -> m s = Ret x s' -> Q x s'.
Proof. unfold wp. intros H Heq. by rewrite Heq in H. Qed.
Lemma wp_early_inv (m : M A) Q E s res s' : wp m Q E s -> m s = Early res s' -> E res s'.
Proof. unfold wp. intros H Heq. by rewrite Heq in H. Qed.
Lemma wp_defined (m : M A) Q E s : wp m Q E s -> m s <> Undef.
Proof. unfold wp. by destruct (m s). Qed.

(** A relational specification can be added to a weakest precondition. *)
Lemma wp_sat (m : M A) (R : St -> St -> Prop) (E0 : Z -> St -> St -> Prop) Q E s :
  sat R E0 m -> wp m Q E s ->
  wp m (fun x s' => Q x s' /\ R s s') (fun res s' => E res s' /\ E0 res s s') s.
Proof. intros Hs. specialize (Hs s). unfold wp. by destruct (m s). Qed.
End Wp.

Lemma wp_this Q E o w : Q o (o, w) -> wp this Q E (o, w).
Proof. done. Qed.
Lemma wp_modify f Q E o w : Q tt (f o, w) -> wp (modify f) Q E (o, w).
Proof. done. Qed.
Lemma wp_modify_res f Q E o w :
  Q tt (set_m_res (f (m_res o)) o, w) -> wp (modify_res f) Q E (o, w).
Proof. done. Qed.
Lemma wp_emit e Q E o w : Q tt (o, log e w) -> wp (emit e) Q E (o, w).
Proof. done. Qed.
Lemma wp_assert (c : bool) Q E s : c = true -> Q tt s -> wp (assert c) Q E s.
Proof. by intros ->. Qed.

(** Loops over [seq], with an invariant indexed by the loop counter. *)
Lemma wp_forM_seq (I : nat -> St -> Prop) (E : Z -> St -> Prop) body a n s :
  I a s ->
  (forall c s, a <= c < a + n -> I c s -> wp (body c) (fun _ s' => I (S c) s') E s) ->
  wp (forM_ (seq a n) body) (fun _ s' => I (a + n) s') E s.
Proof.
  revert a s. induction n as [|n IH]; intros a s HI Hb; simpl.
  - apply wp_ret. by rewrite Nat.add_0_r.
  - apply wp_bind. eapply wp_mono; [apply (Hb a); [lia|done] | | done].
    intros ? s' HI'. simpl in *. eapply wp_mono; [apply (IH (S a)); [done|] | | done].
    + intros c s0 Hc. apply Hb. lia.
    + intros ? s0. by rewrite Nat.add_succ_r.
Qed.

Lemma wp_foldM_seq {A} (I : nat -> A -> St -> Prop) (E : Z -> St -> Prop)
    (body : A -> nat -> M A) a n x s :
  I a x s ->
  (forall c y s, a <= c < a + n -> I c y s -> wp (body y c) (fun z s' => I (S c) z s') E s) ->
  wp (foldM (seq a n) body x) (fun z s' => I (a + n) z s') E s.
Proof.
  revert a x s. induction n as [|n IH]; intros a x s HI Hb; simpl.
  - apply wp_ret. by rewrite Nat.add_0_r.
  - apply wp_bind. eapply wp_mono; [apply (Hb a); [lia|done] | | done].
    intros y s' HI'. simpl. eapply wp_mono; [apply (IH (S a)); [done|] | | done].
    + intros c z s0 Hc. apply Hb. lia.
    + intros z s0. by rewrite Nat.add_succ_r.
Qed.

(** A loop whose body only logs calls. *)
Lemma forM_emit {A} (l : list A) (f : A -> Event) o w :
  forM_ l (fun x => emit (f x)) (o, w) = Ret tt (o, logs (f <$> l) w).
Proof.
  revert w. induction l as [|x l IH]; intros w; simpl.
  - unfold mret, M_ret, logs. rewrite app_nil_r. by destruct w.
  - unfold mbind, M_bind, emit at 1. simpl. rewrite IH. unfold logs, log. simpl.
    by rewrite <- app_assoc.
Qed.

Lemma logs_nil w : logs [] w = w.
Proof. unfold logs. rewrite app_nil_r. by destruct w. Qed.
Lemma logs_logs evs1 evs2 w : logs evs2 (logs evs1 w) = logs (evs1 ++ evs2) w.
Proof. unfold logs. simpl. by rewrite app_assoc. Qed.
Lemma log_logs e w : log e w = logs [e] w.
Proof. done. Qed.

Lemma wp_forM_emit {A} (l : list A) (f : A -> Event) (Q : unit -> St -> Prop) E o w :
  Q tt (o, logs (f <$> l) w) -> wp (forM_ l (fun x => emit (f x))) Q E (o, w).
Proof. intros H. unfold wp. by rewrite forM_emit. Qed.

(** One step of symbolic execution, chosen by the head of the computation. *)
Ltac wp_step :=
  lazymatch goal with
  | |- wp (mret _) _ _ _ => apply wp_ret
  | |- wp this _ _ _ => apply wp_this
  | |- wp (modify_res _) _ _ _ => apply wp_modify_res
  | |- wp (modify _) _ _ _ => apply wp_modify
  | |- wp (emit _) _ _ _ => apply wp_emit
  | |- wp (forM_ _ (fun x => emit _)) _ _ _ => apply wp_forM_emit
  | |- wp (if ?c then _ else _) _ _ _ => destruct c
  | |- wp (_ ≫= _) _ _ _ => apply wp_bind
  end.
Ltac wp_steps := repeat (wp_step; simpl).

(** Straight-line execution up to the next creation call or branch;
    look-ups are discharged from the hypotheses. *)
Ltac wp_lookup :=
  first [ eassumption
        | apply list_lookup_insert_eq; first [ assumption | by rewrite ?length_insert ]
        | apply list_lookup_lookup_total_lt; lia ].
Ltac wp_auto :=
  repeat (lazymatch goal with
          | |- wp (mret _) _ _ _ => apply wp_ret
          | |- wp this _ _ _ => apply wp_this
          | |- wp (modify_res _) _ _ _ => apply wp_modify_res
          | |- wp (modify _) _ _ _ => apply wp_modify
          | |- wp (emit _) _ _ _ => apply wp_emit
          | |- wp (deref _) _ _ _ => eapply wp_deref; [wp_lookup|]
          | |- wp (color_at _) _ _ _ => unfold color_at
          | |- wp (msaa_at _) _ _ _ => unfold msaa_at
          | |- wp (uiView_at _) _ _ _ => unfold uiView_at
          | |- wp (set_color_at _ _) _ _ _ => unfold set_color_at
          | |- wp (set_msaa_at _ _) _ _ _ => unfold set_msaa_at
          | |- wp (set_uiView_at _ _) _ _ _ => unfold set_uiView_at
          | |- wp (modify_color_at _ _) _ _ _ => unfold modify_color_at
          | |- wp (modify_msaa_at _ _) _ _ _ => unfold modify_msaa_at
          | |- wp (setObjectName _ _) _ _ _ => unfold setObjectName
          | |- wp (_ ≫= _) _ _ _ => apply wp_bind
          end; simpl).

(** ** The creation calls

    Each rule has one premise for the successful call and one for the
    failed call.  The handles are only known to be non-null, the world
    only by its log. *)

Lemma wp_createImage alloc (store : Image -> M unit) info viewInfo
    (Q : unit -> St -> Prop) E o w :
  (forall img view w', img <> VK_NULL_HANDLE -> view <> VK_NULL_HANDLE ->
     trace w' = trace w ++ [EvCreateImage info viewInfo VK_SUCCESS img view] ->
     wp (store {| image := img;
                  descriptor := {| sampler := VK_NULL_HANDLE; imageView := view;
                                   imageLayout := VK_IMAGE_LAYOUT_UNDEFINED |} |})
        Q E (o, w')) ->
  (forall res w', res <> VK_SUCCESS ->
     trace w' = trace w ++ [EvCreateImage info viewInfo res VK_NULL_HANDLE VK_NULL_HANDLE] ->
     E res (o, w')) ->
  wp (NVVK_FAIL_RETURN (createImage alloc store info viewInfo)) Q E (o, w).
Proof.
  intros Hok Hfail.
  unfold NVVK_FAIL_RETURN, createImage, wp, mbind, M_bind, driver_result, fresh, emit. simpl.
  destruct (Z.eqb_spec (oracle w (calls w)) 0) as [Heq|Hne]; simpl.
  - match goal with |- context [store ?x ?s] =>
      specialize (Hok (N.pos (next_handle w)) (N.pos (Pos.succ (next_handle w))) (snd s));
      unfold wp in Hok; simpl in Hok; destruct (store x s) as [[] s1|res s1|] end.
    + unfold mret, M_ret. rewrite Heq. simpl. apply Hok; [done..|by rewrite Heq].
    + apply Hok; [done..|by rewrite Heq].
    + apply Hok; [done..|by rewrite Heq].
  - unfold mret, M_ret. destruct (Z.eqb_spec (oracle w (calls w)) 0); [done|].
    unfold early. by apply Hfail.
Qed.

Lemma wp_createImageView device viewInfo (store : N -> M unit)
    (Q : unit -> St -> Prop) E o w :
  (forall view w', view <> VK_NULL_HANDLE ->
     trace w' = trace w ++ [EvCreateImageView device viewInfo VK_SUCCESS view] ->
     wp (store view) Q E (o, w')) ->
  (forall res w', res <> VK_SUCCESS ->
     trace w' = trace w ++ [EvCreateImageView device viewInfo res VK_NULL_HANDLE] ->
     E res (o, w')) ->
  wp (NVVK_FAIL_RETURN (vkCreateImageView device viewInfo store)) Q E (o, w).
Proof.
  intros Hok Hfail.
  unfold NVVK_FAIL_RETURN, vkCreateImageView, wp, mbind, M_bind, driver_result, fresh, emit.
  simpl.
  destruct (Z.eqb_spec (oracle w (calls w)) 0) as [Heq|Hne]; simpl.
  - match goal with |- context [store ?x ?s] =>
      specialize (Hok (N.pos (next_handle w)) (snd s));
      unfold wp in Hok; simpl in Hok; destruct (store x s) as [[] s1|res s1|] end.
    + unfold mret, M_ret. rewrite Heq. simpl. apply Hok; [done|by rewrite Heq].
    + apply Hok; [done|by rewrite Heq].
    + apply Hok; [done|by rewrite Heq].
  - unfold mret, M_ret. destruct (Z.eqb_spec (oracle w (calls w)) 0); [done|].
    unfold early. by apply Hfail.
Qed.

Lemma wp_createDescriptorSetLayout device info (store : N -> M unit)
    (Q : unit -> St -> Prop) E o w :
  (forall layout w', layout <> VK_NULL_HANDLE ->
     trace w' = trace w ++ [EvCreateDescriptorSetLayout device info VK_SUCCESS layout] ->
     wp (store layout) Q E (o, w')) ->
  (forall res w', res <> VK_SUCCESS ->
     trace w' = trace w ++ [EvCreateDescriptorSetLayout device info res VK_NULL_HANDLE] ->
     E res (o, w')) ->
  wp (NVVK_FAIL_RETURN (vkCreateDescriptorSetLayout device info store)) Q E (o, w).
Proof.
  intros Hok Hfail.
  unfold NVVK_FAIL_RETURN, vkCreateDescriptorSetLayout, wp, mbind, M_bind, driver_result,
    fresh, emit. simpl.
  destruct (Z.eqb_spec (oracle w (calls w)) 0) as [Heq|Hne]; simpl.
  - match goal with |- context [store ?x ?s] =>
      specialize (Hok (N.pos (next_handle w)) (snd s));
      unfold wp in Hok; simpl in Hok; destruct (store x s) as [[] s1|res s1|] end.
    + unfold mret, M_ret. rewrite Heq. simpl. apply Hok; [done|by rewrite Heq].
    + apply Hok; [done|by rewrite Heq].
    + apply Hok; [done|by rewrite Heq].
  - unfold mret, M_ret. destruct (Z.eqb_spec (oracle w (calls w)) 0); [done|].
    unfold early. by apply Hfail.
Qed.

(** [fresh_n] takes [n] handles, none of them null, and logs nothing. *)
Lemma fresh_n_run n o w :
  exists hs w', fresh_n n (o, w) = Ret hs (o, w') /\ length hs = n /\
                Forall (fun h => h <> VK_NULL_HANDLE) hs /\
                trace w' = trace w /\ oracle w' = oracle w /\ calls w' = calls w.
Proof.
  revert w. induction n as [|n IH]; intros w; simpl.
  - exists [], w. by repeat split.
  - unfold mbind, M_bind, fresh at 1. simpl.
    match goal with |- context [fresh_n n (o, ?w1)] => destruct (IH w1) as (hs & w' & -> & ?) end.
    unfold mret, M_ret. eexists _, _. split; [done|]. simpl in *.
    destruct_and!. repeat split; [by f_equal| |done..]. by constructor.
Qed.

Lemma wp_allocateDescriptorSets device info out (store : list N -> M unit)
    (Q : unit -> St -> Prop) E o w :
  N.to_nat (descriptorSetCount info) <= length out ->
  (forall sets w', length sets = N.to_nat (descriptorSetCount info) ->
     Forall (fun h => h <> VK_NULL_HANDLE) sets ->
     trace w' = trace w ++ [EvAllocateDescriptorSets device info VK_SUCCESS sets] ->
     wp (store (sets ++ drop (N.to_nat (descriptorSetCount info)) out)) Q E (o, w')) ->
  (forall res w', res <> VK_SUCCESS ->
     trace w' = trace w ++
       [EvAllocateDescriptorSets device info res
          (replicate (N.to_nat (descriptorSetCount info)) VK_NULL_HANDLE)] ->
     wp (store (replicate (N.to_nat (descriptorSetCount info)) VK_NULL_HANDLE
                ++ drop (N.to_nat (descriptorSetCount info)) out))
        (fun _ s' => E res s') E (o, w')) ->
  wp (NVVK_FAIL_RETURN (vkAllocateDescriptorSets device info out store)) Q E (o, w).
Proof.
  intros Hlen Hok Hfail.
  unfold NVVK_FAIL_RETURN, vkAllocateDescriptorSets, wp. unfold mbind at 1 2, M_bind at 1 2.
  rewrite bool_decide_eq_true_2 by done. simpl.
  unfold mbind at 1, M_bind at 1, driver_result. simpl.
  destruct (Z.eqb_spec (oracle w (calls w)) 0) as [Heq|Hne]; simpl.
  - unfold mbind at 1, M_bind at 1.
    match goal with |- context [fresh_n ?n (o, ?w1)] =>
      destruct (fresh_n_run n o w1) as (hs & w' & -> & Hl & Hnz & Htr & _) end.
    unfold mbind, M_bind, emit. simpl.
    match goal with |- context [store ?x ?s] =>
      specialize (Hok hs (snd s) Hl Hnz);
      unfold wp in Hok; simpl in Hok; destruct (store x s) as [[] s1|res s1|] end.
    + unfold mret, M_ret. rewrite Heq. simpl. apply Hok. by rewrite Htr, Heq.
    + apply Hok. by rewrite Htr, Heq.
    + apply Hok. by rewrite Htr, Heq.
  - unfold mbind, M_bind, emit. simpl.
    match goal with |- context [store ?x ?s] =>
      specialize (Hfail (oracle w (calls w)) (snd s) Hne);
      unfold wp in Hfail; simpl in Hfail; destruct (store x s) as [[] s1|res s1|] end.
    + unfold mret, M_ret. destruct (Z.eqb_spec (oracle w (calls w)) 0); [done|].
      unfold early. by apply Hfail.
    + by apply Hfail.
    + by apply Hfail.
Qed.

(** * Teardown *)

Lemma deinitResources_null o w :
  allocator (m_info o) = None -> deinitResources (o, w) = Ret tt (o, w).
Proof. intros Ha. unfold deinitResources, mbind, M_bind, this. simpl. by rewrite Ha. Qed.

Lemma deinitResources_wp o w alloc :
  allocator (m_info o) = Some alloc ->
  wp deinitResources
     (fun _ s' => s' = (torn_down o, logs (teardown_events alloc o) w))
     (fun _ _ => False) (o, w).
Proof.
  intros Ha. destruct o as [q size info dl]. simpl in Ha.
  unfold deinitResources, torn_down, teardown_events, frees_ui.
  apply wp_bind, wp_this. simpl. rewrite Ha.
  unfold destroyImage, vkDestroyImageView, vkFreeDescriptorSets, vkDestroyDescriptorSetLayout.
  wp_steps; unfold logs, log, set_m_res; simpl;
    rewrite <- ?app_assoc; simpl; rewrite ?app_nil_r; reflexivity.
Qed.

Lemma deinitResources_run o w alloc :
  allocator (m_info o) = Some alloc ->
  deinitResources (o, w) = Ret tt (torn_down o, logs (teardown_events alloc o) w).
Proof.
  intros Ha. pose proof (deinitResources_wp o w alloc Ha) as H. unfold wp in H.
  destruct (deinitResources (o, w)) as [[] s'|?|]; [by subst | done..].
Qed.

(** Teardown always returns, and only logs destructions. *)
Lemma deinitResources_total s : exists s', deinitResources s = Ret tt s'.
Proof.
  destruct s as [o w]. destruct (allocator (m_info o)) as [alloc|] eqn:Ha.
  - rewrite (deinitResources_run _ _ alloc) by done. eauto.
  - rewrite deinitResources_null by done. eauto.
Qed.

Lemma teardown_events_kind alloc o : Forall teardown_event (teardown_events alloc o).
Proof.
  unfold teardown_events. repeat apply Forall_app_2.
  - destruct (frees_ui o); repeat constructor.
  - apply Forall_fmap, Forall_true. by intros.
  - apply Forall_fmap, Forall_true. by intros.
  - destruct (negb _); repeat constructor.
  - apply Forall_fmap, Forall_true. by intros.
Qed.

Lemma torn_down_torn o :
  consistent o -> allocator (m_info o) <> None -> torn (m_res (torn_down o)).
Proof.
  intros [Hd Hs] Ha. unfold torn, torn_down. simpl. repeat split.
  - unfold frees_ui. destruct (decide (uiDescriptorSets (m_res o) = [])) as [->|Hne].
    + by destruct (negb _ && _).
    + destruct (Hs Hne) as (Hp & _). rewrite bool_decide_eq_false_2 by done.
      destruct (N.eqb_spec (descriptorPool (m_info o)) 0); done.
  - destruct (N.eqb_spec (image (gBufferDepth (m_res o))) 0); simpl; done.
  - destruct (N.eqb_spec (image (gBufferDepth (m_res o))) 0); simpl; [by apply Hd | done].
Qed.

(** * The entry points *)

(** ** The no-op path of update *)

(** The run of an update that asks for what is stored. *)
Lemma update_requested_run cmd newSize newSampleCount o w :
  requested newSize newSampleCount o ->
  update cmd newSize newSampleCount (o, w) = Ret VK_SUCCESS (o, w).
Proof.
  intros (Hw & Hh & Hs). unfold update, mbind, M_bind, this. simpl.
  rewrite Hw, Hh, Hs, !N.eqb_refl. reflexivity.
Qed.

(** C2: a call of update with the stored width, height and sample count
    returns VK_SUCCESS at once: the object and the world (log of calls,
    command buffers, driver) are exactly as before, so nothing was
    recorded, waited for or torn down. *)
Theorem update_same_is_noop cmd newSize newSampleCount o w :
  width newSize = width (m_size o) ->
  height newSize = height (m_size o) ->
  newSampleCount = sampleCount (m_info o) ->
  update cmd newSize newSampleCount (o, w) = Ret VK_SUCCESS (o, w).
Proof.
  intros Hw Hh Hs. unfold update, mbind, M_bind, this. simpl.
  rewrite Hw, Hh, Hs, !N.eqb_refl. reflexivity.
Qed.

(** What update does on the other path. *)
Lemma update_rebuild_run cmd newSize newSampleCount o w alloc :
  (width newSize =? width (m_size o))%N && (height newSize =? height (m_size o))%N
    && (newSampleCount =? sampleCount (m_info o))%N = false ->
  allocator (m_info o) = Some alloc ->
  update cmd newSize newSampleCount (o, w) =
  match deinitResources (o, log (EvDeviceWaitIdle (getDevice alloc)) w) with
  | Ret _ (o1, w1) =>
      initResources cmd
        (set_m_info (set_sampleCount newSampleCount (m_info o1)) (set_m_size newSize o1), w1)
  | Early res s => Early res s
  | Undef => Undef
  end.
Proof.
  intros Hc Ha. unfold update, mbind, M_bind, this. simpl. rewrite Hc, Ha. simpl.
  unfold vkDeviceWaitIdle, emit. simpl.
  destruct (deinitResources _) as [[] [o1 w1]|res s1|]; reflexivity.
Qed.

Lemma update_null_allocator cmd newSize newSampleCount o w :
  (width newSize =? width (m_size o))%N && (height newSize =? height (m_size o))%N
    && (newSampleCount =? sampleCount (m_info o))%N = false ->
  allocator (m_info o) = None ->
  update cmd newSize newSampleCount (o, w) = Undef.
Proof.
  intros Hc Ha. unfold update, mbind, M_bind, this. simpl. by rewrite Hc, Ha.
Qed.

(** ** A failed update *)

(** C5: update stores the requested size and sample count before it
    builds the bundle: a failed update ran initResources from an object
    that already held them, it leaves them stored, and the same request
    made again returns VK_SUCCESS without touching the object or the
    world, so the partial bundle stays. *)
Theorem update_failed_then_noop cmd newSize newSampleCount o w res o' w' :
  update cmd newSize newSampleCount (o, w) = Ret res (o', w') ->
  res <> VK_SUCCESS ->
  (exists o1 w1, m_size o1 = newSize /\ sampleCount (m_info o1) = newSampleCount /\
                 initResources cmd (o1, w1) = Ret res (o', w')) /\
  m_size o' = newSize /\
  sampleCount (m_info o') = newSampleCount /\
  forall cmd2, update cmd2 newSize newSampleCount (o', w') = Ret VK_SUCCESS (o', w').
Proof.
  intros Hrun Hres.
  destruct ((width newSize =? width (m_size o))%N && (height newSize =? height (m_size o))%N
            && (newSampleCount =? sampleCount (m_info o))%N) eqn:Hc.
  { unfold update, mbind, M_bind, this in Hrun. simpl in Hrun. rewrite Hc in Hrun.
    unfold mret, M_ret in Hrun. by simplify_eq. }
  destruct (allocator (m_info o)) as [alloc|] eqn:Ha;
    [|by rewrite update_null_allocator in Hrun].
  rewrite (update_rebuild_run _ _ _ _ _ alloc) in Hrun by done.
  destruct (deinitResources _) as [[] [o1 w1]|res1 s1|]; [|done..].
  destruct (initResources_frame _ _ _ _ Hrun) as [Hinfo Hsize]. simpl in Hinfo, Hsize.
  assert (m_size o' = newSize) as Hs by (by rewrite Hsize).
  assert (sampleCount (m_info o') = newSampleCount) as Hn by (by rewrite Hinfo).
  split; [|split; [done|split; [done|]]].
  - eexists _, _. split; [|split; [|exact Hrun]]; done.
  - intros cmd2. apply update_requested_run. unfold requested. by rewrite ?Hs, ?Hn.
Qed.

(** ** The aspect ratio *)

(** The literal [1.0f] is the conversion of the integer 1. *)
Lemma f32_one_is_one : f32_one = float_of_uint32 1.
Proof. reflexivity. Qed.

(** C10: the aspect ratio is exactly 1.0 when the stored height is zero,
    and otherwise the single-precision quotient of the stored width and
    height, each converted to single precision. *)
Theorem getAspectRatio_spec o :
  (height (m_size o) = 0%N -> getAspectRatio o = f32_one) /\
  ((0 < height (m_size o))%N ->
   getAspectRatio o =
   f32_div (float_of_uint32 (width (m_size o))) (float_of_uint32 (height (m_size o)))).
Proof.
  unfold getAspectRatio. split; intros H.
  - by rewrite H.
  - destruct (N.eqb_spec (height (m_size o)) 0); [lia | done].
Qed.

(** ** Moves *)

Lemma swap_members_default y : swap_members GBuffer_default y = (y, GBuffer_default).
Proof. by destruct y. Qed.

(** C8: a move into an object in the deinited state (move construction
    starts from it) hands the bundle, the size, the configuration and the
    descriptor-set layout of the source over together and leaves the
    source in the deinited state; other objects are untouched, and a move
    assignment of an object to itself changes nothing. *)
Theorem move_transfers_everything (st : gmap positive GBuffer) (self other : positive)
    (src : GBuffer) :
  st !! other = Some src ->
  self ≠ other ->
  (st !! self = Some GBuffer_default ->
   move_assign self other st = Some (<[self := src]> (<[other := GBuffer_default]> st))) /\
  (st !! self = None ->
   move_construct self other st = Some (<[self := src]> (<[other := GBuffer_default]> st))) /\
  move_assign other other st = Some st /\
  (<[self := src]> (<[other := GBuffer_default]> st)) !! self = Some src /\
  (<[self := src]> (<[other := GBuffer_default]> st)) !! other = Some GBuffer_default /\
  (forall p, p ≠ self -> p ≠ other ->
     (<[self := src]> (<[other := GBuffer_default]> st)) !! p = st !! p).
Proof.
  intros Hsrc Hne. repeat split.
  - intros Hself. unfold move_assign. rewrite bool_decide_eq_true_2 by done.
    rewrite Hself, Hsrc, swap_members_default. reflexivity.
  - intros Hself. unfold move_construct.
    rewrite Hself, Hsrc, swap_members_default. reflexivity.
  - unfold move_assign. by rewrite bool_decide_eq_false_2 by naive_solver.
  - by rewrite lookup_insert_eq.
  - rewrite lookup_insert_ne by done. by rewrite lookup_insert_eq.
  - intros p H1 H2. by rewrite !lookup_insert_ne by done.
Qed.

(** * The clear-and-transition block *)

Lemma images_same_refl q : images_same q q.
Proof. done. Qed.

Lemma fmap_eq_lookup_total {A B} `{!Inhabited A} (f : A -> B) (l l' : list A) c :
  f <$> l' = f <$> l -> c < length l -> f (l' !!! c) = f (l !!! c).
Proof.
  intros Heq Hc.
  assert (length l' = length l) as Hlen.
  { by rewrite <- (length_fmap f l'), Heq, length_fmap. }
  assert ((f <$> l') !! c = (f <$> l) !! c) as Hl by (by rewrite Heq).
  rewrite !list_lookup_fmap in Hl.
  rewrite (list_lookup_lookup_total_lt l' c) in Hl by lia.
  rewrite (list_lookup_lookup_total_lt l c) in Hl by lia.
  simpl in Hl. congruence.
Qed.

Lemma fmap_insert_same {A B} (f : A -> B) (l : list A) c x y :
  l !! c = Some x -> f y = f x -> f <$> <[c := y]> l = f <$> l.
Proof.
  intros Hl Hf. rewrite list_fmap_insert, Hf.
  apply list_insert_id. by rewrite list_lookup_fmap, Hl.
Qed.

Lemma images_same_round_atts isMsaa n q q' c :
  images_same q q' -> shaped n isMsaa q -> c < n ->
  round_atts isMsaa q' c = round_atts isMsaa q c.
Proof.
  intros (Hc & Hm & _) (Hlc & _ & Hlen) Hlt. unfold round_atts.
  rewrite (fmap_eq_lookup_total image _ _ c Hc) by lia.
  destruct isMsaa; [|done].
  rewrite (fmap_eq_lookup_total image _ _ c Hm); [done|]. rewrite Hlen; done.
Qed.

Lemma flat_map_ext_seq {A} (f g : nat -> list A) n :
  (forall c, c < n -> f c = g c) -> flat_map f (seq 0 n) = flat_map g (seq 0 n).
Proof.
  intros H. induction n as [|n IH]; [done|].
  rewrite seq_S, !flat_map_app. simpl. rewrite IH, H by (intros; auto with lia). done.
Qed.

Lemma images_same_attachments isMsaa n q q' :
  images_same q q' -> shaped n isMsaa q ->
  attachments isMsaa q' = attachments isMsaa q.
Proof.
  intros Hs Hsh. unfold attachments, depth_atts.
  destruct Hs as (Hc & Hm & Hd). rewrite Hd. f_equal.
  assert (length (gBufferColor q') = length (gBufferColor q)) as ->.
  { by rewrite <- (length_fmap image (gBufferColor q')), Hc, length_fmap. }
  apply flat_map_ext_seq. intros c Hin.
  apply (images_same_round_atts _ n); [done..|]. destruct Hsh as (<- & _). done.
Qed.

Lemma flat_map_seq_S {A} (f : nat -> list A) c :
  flat_map f (seq 0 (S c)) = flat_map f (seq 0 c) ++ f c.
Proof. rewrite seq_S, flat_map_app. simpl. by rewrite app_nil_r. Qed.

Section Clear.
Context (cmd : N) (isMsaa : bool) (n : nat) (o : GBuffer) (w : World).
Hypothesis Hshape : shaped n isMsaa (m_res o).

Local Abbreviation q := (m_res o).

Lemma clear_lookup_color c : c < n -> gBufferColor q !! c = Some (gBufferColor q !!! c).
Proof. intros Hc. apply list_lookup_lookup_total_lt. destruct Hshape as (-> & _). done. Qed.
Lemma clear_lookup_msaa c :
  isMsaa = true -> c < n -> gBufferColorMSAA q !! c = Some (gBufferColorMSAA q !!! c).
Proof.
  intros Hm Hc. apply list_lookup_lookup_total_lt. destruct Hshape as (_ & _ & Hl).
  by rewrite Hl.
Qed.

(** The first loop collects the phase-A barriers and changes nothing. *)
Lemma clear_barriers_loop :
  wp (foldM (seq 0 n) (clear_barriers_round isMsaa) [])
     (fun bs s' => s' = (o, w) /\
                   bs = phaseA_barrier <$> flat_map (round_atts isMsaa q) (seq 0 n))
     (fun _ _ => False) (o, w).
Proof.
  apply (wp_foldM_seq
           (fun c bs s' => s' = (o, w) /\
              bs = phaseA_barrier <$> flat_map (round_atts isMsaa q) (seq 0 c))
           _ _ 0 n); [done|].
  intros c bs s Hc [-> ->]. unfold clear_barriers_round, color_at, msaa_at.
  rewrite flat_map_seq_S, fmap_app. unfold round_atts at 2.
  apply wp_bind, wp_bind, wp_this. simpl.
  eapply wp_deref; [apply clear_lookup_color; lia|].
  pose proof (clear_lookup_msaa c) as Hlm.
  destruct isMsaa eqn:Hm.
  - apply wp_bind, wp_bind, wp_this. simpl.
    eapply wp_deref; [apply Hlm; [done|lia]|].
    apply wp_ret. split; [done|]. simpl. by rewrite <- app_assoc.
  - apply wp_ret. done.
Qed.

(** The second loop records one clear per image. *)
Lemma clear_loop w1 :
  wp (forM_ (seq 0 n) (clear_round cmd isMsaa))
     (fun _ s' => s' = (o, logs (EvCmd cmd <$> (clear_command <$>
                                   flat_map (round_atts isMsaa q) (seq 0 n))) w1))
     (fun _ _ => False) (o, w1).
Proof.
  apply (wp_forM_seq
           (fun c s' => s' = (o, logs (EvCmd cmd <$> (clear_command <$>
                                   flat_map (round_atts isMsaa q) (seq 0 c))) w1))
           _ _ 0 n); [by rewrite logs_nil|].
  intros c s Hc ->. unfold clear_round, color_at, msaa_at, vkCmdClearColorImage.
  rewrite flat_map_seq_S, !fmap_app. unfold round_atts at 2.
  apply wp_bind, wp_bind, wp_this. simpl.
  eapply wp_deref; [apply clear_lookup_color; lia|].
  apply wp_bind, wp_emit.
  pose proof (clear_lookup_msaa c) as Hlm.
  destruct isMsaa eqn:Hm.
  - apply wp_bind, wp_bind, wp_this. simpl.
    eapply wp_deref; [apply Hlm; [done|lia]|].
    apply wp_emit. rewrite !log_logs, !logs_logs. reflexivity.
  - apply wp_ret. rewrite log_logs, logs_logs. reflexivity.
Qed.

(** The third loop collects the phase-C barriers and sets the layout
    recorded with each image; the images stay. *)
Lemma final_barriers_loop w1 :
  wp (foldM (seq 0 n) (final_barriers_round VK_IMAGE_LAYOUT_SHADER_READ_ONLY_OPTIMAL isMsaa) [])
     (fun bs s' => snd s' = w1 /\ images_same q (m_res (fst s')) /\
                   bs = phaseC_barrier <$> flat_map (round_atts isMsaa q) (seq 0 n))
     (fun _ _ => False) (o, w1).
Proof.
  apply (wp_foldM_seq
           (fun c bs s' => snd s' = w1 /\ images_same q (m_res (fst s')) /\
              bs = phaseC_barrier <$> flat_map (round_atts isMsaa q) (seq 0 c))
           _ _ 0 n); [done|].
  intros c bs [o1 w'] Hc (Hw & Hsame & ->). simpl in Hw, Hsame. subst w'.
  assert (c < length (gBufferColor q)) as Hlt.
  { destruct Hshape as (-> & _). lia. }
  pose proof (images_same_round_atts isMsaa n q (m_res o1) c Hsame Hshape) as Hatts.
  specialize (Hatts ltac:(lia)).
  destruct Hsame as (Hsc & Hsm & Hsd).
  assert (length (gBufferColor (m_res o1)) = length (gBufferColor q)) as Hlc.
  { by rewrite <- (length_fmap image (gBufferColor (m_res o1))), Hsc, length_fmap. }
  assert (length (gBufferColorMSAA (m_res o1)) = length (gBufferColorMSAA q)) as Hlm.
  { by rewrite <- (length_fmap image (gBufferColorMSAA (m_res o1))), Hsm, length_fmap. }
  unfold final_barriers_round, modify_color_at, modify_msaa_at, color_at, msaa_at,
    set_color_at, set_msaa_at.
  rewrite flat_map_seq_S, fmap_app, <- Hatts. unfold round_atts at 2.
  apply wp_bind, wp_bind, wp_this. simpl.
  eapply wp_deref; [apply list_lookup_lookup_total_lt; lia|].
  apply wp_bind, wp_bind, wp_bind, wp_this. simpl.
  eapply wp_deref; [apply list_lookup_lookup_total_lt; lia|].
  apply wp_modify_res. simpl.
  assert (isMsaa = true -> c < length (gBufferColorMSAA q)) as Hltm.
  { intros Hm. destruct Hshape as (_ & _ & Hl). rewrite Hl by done. lia. }
  destruct isMsaa eqn:Hm.
  - specialize (Hltm eq_refl).
    apply wp_bind, wp_bind, wp_this. simpl.
    eapply wp_deref; [apply list_lookup_lookup_total_lt; lia|].
    apply wp_bind, wp_bind, wp_bind, wp_this. simpl.
    eapply wp_deref; [apply list_lookup_lookup_total_lt; lia|].
    apply wp_modify_res. simpl. apply wp_ret. simpl.
    split; [done|]. split; [|by rewrite <- app_assoc].
    unfold images_same. simpl. split; [|split; [|done]].
    + erewrite fmap_insert_same; [done|apply list_lookup_lookup_total_lt; lia|done].
    + erewrite fmap_insert_same; [done|apply list_lookup_lookup_total_lt; lia|done].
  - apply wp_ret. simpl. split; [done|]. split; [|done].
    unfold images_same. simpl. split; [|split; [done|done]].
    erewrite fmap_insert_same; [done|apply list_lookup_lookup_total_lt; lia|done].
Qed.
End Clear.

(** The block records exactly the three phases over the images of the
    bundle, and leaves the images in place. *)
Lemma initResources_clear_wp cmd isMsaa n o w :
  shaped n isMsaa (m_res o) ->
  wp (initResources_clear cmd VK_IMAGE_LAYOUT_SHADER_READ_ONLY_OPTIMAL isMsaa n)
     (fun _ s' =>
        snd s' = logs (EvCmd cmd <$> three_phases (attachments isMsaa (m_res o))) w /\
        images_same (m_res o) (m_res (fst s')))
     (fun _ _ => False) (o, w).
Proof.
  intros Hshape. unfold initResources_clear, vkCmdPipelineBarrier2, vkCmdClearDepthStencilImage.
  unfold attachments. rewrite (proj1 Hshape).
  set (atts := flat_map (round_atts isMsaa (m_res o)) (seq 0 n)).
  apply wp_bind.
  eapply wp_mono; [by apply clear_barriers_loop| |done].
  intros bs s' [-> ->]. fold atts. simpl.
  apply wp_bind, wp_this. apply wp_bind, wp_emit. apply wp_bind.
  eapply wp_mono; [by apply clear_loop| |done].
  intros ? s' ->. fold atts. simpl.
  apply wp_bind, wp_this. apply wp_bind.
  unfold depth_atts.
  destruct (negb (image (gBufferDepth (m_res o)) =? 0)%N) eqn:Hd.
  - apply wp_emit. apply wp_bind.
    eapply wp_mono; [by apply final_barriers_loop| |done].
    intros bs [o1 w1] (Hw & Hsame & ->). fold atts. simpl in Hw, Hsame. subst w1.
    apply wp_bind, wp_this. apply wp_bind.
    rewrite (proj2 (proj2 Hsame)), Hd.
    apply wp_bind, wp_modify_res. apply wp_ret. apply wp_emit. simpl. split.
    + rewrite !log_logs, !logs_logs. unfold three_phases.
      rewrite !fmap_app. simpl. rewrite <- !app_assoc. reflexivity.
    + destruct Hsame as (? & ? & ?). by split.
  - apply wp_ret. apply wp_bind.
    eapply wp_mono; [by apply final_barriers_loop| |done].
    intros bs [o1 w1] (Hw & Hsame & ->). fold atts. simpl in Hw, Hsame. subst w1.
    apply wp_bind, wp_this. apply wp_bind.
    rewrite (proj2 (proj2 Hsame)), Hd.
    apply wp_ret. apply wp_emit. simpl. split; [|done].
    rewrite !log_logs, !logs_logs. unfold three_phases.
    rewrite !fmap_app, !app_nil_r. simpl. rewrite <- ?app_assoc. reflexivity.
Qed.

(** * The first loop of initResources *)

(** The log after some steps, from what is known of the worlds passed. *)
Ltac solve_trace :=
  simpl;
  repeat match goal with
         | H : trace ?w = _ |- context [trace ?w] => rewrite H; simpl
         end;
  rewrite <- ?app_assoc; simpl; reflexivity.

(** The handles created by an explicit list of calls. *)
Ltac solve_held :=
  let e := fresh "e" in let h := fresh "h" in
  let He := fresh "He" in let Hh := fresh "Hh" in let Hnz := fresh "Hnz" in
  intros e h He Hh Hnz; simpl;
  repeat (apply elem_of_cons in He as [->|He]);
  try (by apply elem_of_nil in He);
  simpl in Hh;
  repeat (apply elem_of_cons in Hh as [->|Hh]);
  try (by apply elem_of_nil in Hh);
  try done;
  repeat first [ apply list_elem_of_here | apply list_elem_of_further ].

(** One round, from an object whose elements [c] are still the default
    ones: it assigns the elements [c] and logs the calls [new]; the
    objects those calls created are the ones assigned. *)
Lemma initResources_color_wp device isMsaa c o w alloc fmt :
  allocator (m_info o) = Some alloc ->
  colorFormats (m_info o) !! c = Some fmt ->
  gBufferColor (m_res o) !! c = Some Image_default ->
  uiImageViews (m_res o) !! c = Some VK_NULL_HANDLE ->
  (isMsaa = true -> gBufferColorMSAA (m_res o) !! c = Some Image_default) ->
  wp (initResources_color device isMsaa c)
     (fun _ s' => exists col uiv ms new,
        round_update isMsaa c col uiv ms o (fst s') /\
        trace (snd s') = trace w ++ new /\
        round_held isMsaa col uiv ms new /\
        round_ok device (m_info o) (m_size o) isMsaa fmt col uiv ms new)
     (fun _ s' => exists col uiv ms new,
        round_update isMsaa c col uiv ms o (fst s') /\
        trace (snd s') = trace w ++ new /\
        round_held isMsaa col uiv ms new)
     (o, w).
Proof.
  intros Ha Hf Hc Hu Hm.
  assert (c < length (gBufferColor (m_res o))) as Hlc by (by eapply lookup_lt_Some).
  assert (c < length (uiImageViews (m_res o))) as Hlu by (by eapply lookup_lt_Some).
  unfold initResources_color, color_at, uiView_at, msaa_at, modify_color_at, set_color_at,
    set_uiView_at, set_msaa_at, setObjectName.
  wp_auto. apply wp_createImage.
  2:{ (* the colour image could not be created *)
    intros res w1 Hres Ht1.
    eexists Image_default, VK_NULL_HANDLE, Image_default, _.
    split; [|split; [exact Ht1|]].
    - unfold round_update. rewrite !list_insert_id by auto.
      destruct isMsaa; [rewrite list_insert_id by auto|]; done.
    - solve_held. }
  intros img view w1 Himg Hview Ht1.
  wp_auto. apply wp_createImageView.
  2:{ (* the UI view could not be created *)
    intros res w2 Hres Ht2.
    eexists _, VK_NULL_HANDLE, Image_default, _.
    split; [|split].
    - unfold round_update. simpl. split; [reflexivity|].
      rewrite !list_insert_id by auto.
      destruct isMsaa; [rewrite list_insert_id by auto|]; done.
    - solve_trace.
    - solve_held. }
  intros uiv w2 Huiv Ht2.
  wp_auto. rewrite list_insert_insert_eq.
  destruct isMsaa eqn:HisMsaa.
  - specialize (Hm eq_refl).
    assert (c < length (gBufferColorMSAA (m_res o))) as Hlm by (by eapply lookup_lt_Some).
    wp_auto. apply wp_createImage.
    2:{ (* the multisampled image could not be created *)
      intros res w3 Hres Ht3.
      eexists _, uiv, Image_default, _.
      split; [|split].
      - unfold round_update. simpl. split; [reflexivity|]. split; [reflexivity|].
        rewrite list_insert_id by auto. done.
      - solve_trace.
      - solve_held. }
    intros mimg mview w3 Hmimg Hmview Ht3.
    wp_auto.
    eexists _, uiv, _, _. split; [|split; [|split]].
    + unfold round_update. simpl. done.
    + solve_trace.
    + solve_held.
    + unfold round_ok. simpl. repeat split; try done; try set_solver.
  - wp_auto.
    eexists _, uiv, Image_default, _. split; [|split; [|split]].
    + unfold round_update. simpl. done.
    + solve_trace.
    + solve_held.
    + unfold round_ok. simpl. repeat split; try done; try set_solver.
Qed.

(** ** Keeping the invariant of the loop *)

Lemma elem_of_bind_insert {A} (f : A -> list N) (l : list A) c x d h :
  l !! c = Some d -> (forall h', h' ∈ f d -> h' = VK_NULL_HANDLE) -> h <> VK_NULL_HANDLE ->
  h ∈ l ≫= f -> h ∈ <[c := x]> l ≫= f.
Proof.
  intros Hd Hnull Hnz Hin. apply list_elem_of_bind in Hin as (y & Hy & Hl).
  apply list_elem_of_lookup in Hl as [i Hi]. apply list_elem_of_bind.
  destruct (decide (i = c)) as [->|Hne].
  - rewrite Hd in Hi. simplify_eq. by destruct (Hnz (Hnull _ Hy)).
  - exists y. split; [done|]. apply list_elem_of_lookup. exists i.
    by rewrite list_lookup_insert_ne.
Qed.

Lemma elem_of_bind_insert_new {A} (f : A -> list N) (l : list A) c x h :
  c < length l -> h ∈ f x -> h ∈ <[c := x]> l ≫= f.
Proof.
  intros Hc Hin. apply list_elem_of_bind. exists x. split; [done|].
  apply list_elem_of_lookup. exists c. by apply list_lookup_insert_eq.
Qed.

Lemma elem_of_insert_other (l : list N) c x h :
  l !! c = Some VK_NULL_HANDLE -> h <> VK_NULL_HANDLE -> h ∈ l -> h ∈ <[c := x]> l.
Proof.
  intros Hd Hnz Hin. apply list_elem_of_lookup in Hin as [i Hi].
  apply list_elem_of_lookup. exists i.
  destruct (decide (i = c)) as [->|Hne]; [congruence|]. by rewrite list_lookup_insert_ne.
Qed.

Lemma elem_of_insert_new (l : list N) c x : c < length l -> x ∈ <[c := x]> l.
Proof. intros Hc. apply list_elem_of_lookup. exists c. by apply list_lookup_insert_eq. Qed.

Lemma image_handles_default h : h ∈ image_handles Image_default -> h = VK_NULL_HANDLE.
Proof.
  unfold image_handles. simpl. intros H.
  repeat (apply elem_of_cons in H as [->|H]); [done..|by apply elem_of_nil in H].
Qed.

Section Round.
Context (isMsaa : bool) (c : nat) (col : Image) (uiv : N) (ms : Image) (o o' : GBuffer).
Hypothesis Hupd : round_update isMsaa c col uiv ms o o'.
Hypothesis Hc : gBufferColor (m_res o) !! c = Some Image_default.
Hypothesis Hu : uiImageViews (m_res o) !! c = Some VK_NULL_HANDLE.
Hypothesis Hm : isMsaa = true -> gBufferColorMSAA (m_res o) !! c = Some Image_default.

(** Nothing that was held is lost. *)
Lemma round_keeps_held h :
  h <> VK_NULL_HANDLE -> h ∈ resource_handles (m_res o) -> h ∈ resource_handles (m_res o').
Proof.
  intros Hnz. destruct Hupd as (Hq1 & Hq2 & Hq3 & Hq4 & _).
  unfold resource_handles. rewrite Hq1, Hq2, Hq3, Hq4, !elem_of_app.
  intros [H|[H|[H|H]]].
  - left. eapply elem_of_bind_insert; eauto using image_handles_default.
  - right; left. destruct isMsaa; [|done].
    eapply elem_of_bind_insert; eauto using image_handles_default.
  - by right; right; left.
  - right; right; right. by apply elem_of_insert_other.
Qed.

(** What the round assigned is held. *)
Lemma round_holds_new h :
  h ∈ image_handles col ++ [uiv] ++ (if isMsaa then image_handles ms else []) ->
  h ∈ resource_handles (m_res o').
Proof.
  destruct Hupd as (Hq1 & Hq2 & Hq3 & Hq4 & _).
  assert (c < length (gBufferColor (m_res o))) by (by eapply lookup_lt_Some).
  assert (c < length (uiImageViews (m_res o))) by (by eapply lookup_lt_Some).
  unfold resource_handles. rewrite Hq1, Hq2, Hq3, !elem_of_app.
  intros [H1|[H1|H1]].
  - left. by apply elem_of_bind_insert_new.
  - apply list_elem_of_singleton in H1 as ->. do 3 right.
    by apply elem_of_insert_new.
  - destruct isMsaa; [|by apply elem_of_nil in H1]. right. left.
    apply elem_of_bind_insert_new; [|done]. eapply lookup_lt_Some. by apply Hm.
Qed.
End Round.

Lemma color_built_keep device info size q q' evs evs' c i col uiv :
  gBufferColor q' = <[c := col]> (gBufferColor q) ->
  uiImageViews q' = <[c := uiv]> (uiImageViews q) ->
  i <> c -> (forall e, e ∈ evs -> e ∈ evs') ->
  color_built device info size q evs i -> color_built device info size q' evs' i.
Proof.
  intros Hq1 Hq2 Hne Hsub (fmt & x & v & H1 & H2 & H3 & H4 & H5 & H6 & H7 & H8 & H9).
  exists fmt, x, v. rewrite Hq1, Hq2, !list_lookup_insert_ne by done.
  repeat split; auto.
Qed.

Lemma msaa_built_keep info size q q' evs evs' c i col ms :
  gBufferColor q' = <[c := col]> (gBufferColor q) ->
  gBufferColorMSAA q' = <[c := ms]> (gBufferColorMSAA q) ->
  i <> c -> (forall e, e ∈ evs -> e ∈ evs') ->
  msaa_built info size q evs i -> msaa_built info size q' evs' i.
Proof.
  intros Hq1 Hq2 Hne Hsub (fmt & x & m & H1 & H2 & H3 & H4 & H5 & H6).
  exists fmt, x, m. rewrite Hq1, Hq2, !list_lookup_insert_ne by done.
  repeat split; auto.
Qed.

Section Step.
Context (device : N) (isMsaa : bool) (n : nat) (o0 : GBuffer) (tr0 : list Event).
Context (c : nat) (o : GBuffer) (w : World) (o' : GBuffer) (w' : World).
Context (col : Image) (uiv : N) (ms : Image) (new : list Event).
Hypothesis Hinv : color_inv device isMsaa n o0 tr0 c (o, w).
Hypothesis Hlt : c < n.
Hypothesis Hupd : round_update isMsaa c col uiv ms o o'.
Hypothesis Htr : trace w' = trace w ++ new.
Hypothesis Hheld : round_held isMsaa col uiv ms new.

Lemma color_inv_held evs :
  trace w = tr0 ++ evs -> res_held evs (m_res o) -> res_held (evs ++ new) (m_res o').
Proof.
  intros Hevs Hall e h He Hh Hnz.
  destruct Hinv as (_ & _ & _ & _ & _ & _ & _ & Htail & _).
  destruct (Htail c ltac:(lia)) as (Hc & Hu & Hm).
  apply elem_of_app in He as [He|He].
  - eapply round_keeps_held; eauto.
  - eapply round_holds_new; eauto.
Qed.

Lemma color_inv_early : abandoned_held tr0 (o', w').
Proof.
  destruct Hinv as (_ & _ & _ & _ & _ & _ & _ & _ & evs & Hevs & _ & Hall).
  simpl in Hevs. exists (evs ++ new). split.
  - simpl. by rewrite Htr, Hevs, app_assoc.
  - simpl. intros e h He Hh Hnz. unfold bundle_handles. apply elem_of_app. left.
    by eapply color_inv_held.
Qed.

Lemma color_inv_step fmt :
  colorFormats (m_info o) !! c = Some fmt ->
  round_ok device (m_info o) (m_size o) isMsaa fmt col uiv ms new ->
  color_inv device isMsaa n o0 tr0 (S c) (o', w').
Proof.
  intros Hf Hok.
  pose proof color_inv_held as Hheld'.
  destruct Hinv as (Hi & Hs & Hdl & Hd & Hsets & (Hl1 & Hl2 & Hl3) & Hno & Htail &
                    evs & Hevs & Hbuilt & Hall).
  destruct Hupd as (Hq1 & Hq2 & Hq3 & Hq4 & Hq5 & Hq6 & Hq7 & Hq8).
  simpl in *. unfold color_inv. simpl.
  split; [congruence|]. split; [congruence|]. split; [congruence|].
  split; [congruence|]. split; [congruence|].
  split; [|split; [|split]].
  - unfold shaped. rewrite Hq1, Hq2, Hq3, !length_insert. split; [done|]. split; [done|].
    intros ->. rewrite length_insert. auto.
  - intros ->. rewrite Hq3. auto.
  - intros i Hi'. destruct (Htail i ltac:(lia)) as (H1 & H2 & H3).
    rewrite Hq1, Hq2, Hq3, !list_lookup_insert_ne by lia.
    split; [done|]. split; [done|]. intros ->. rewrite list_lookup_insert_ne by lia. auto.
  - exists (evs ++ new). split; [by rewrite Htr, Hevs, app_assoc|].
    split; [|by apply Hheld'].
    assert (forall e, e ∈ evs -> e ∈ evs ++ new) as Hsub.
    { intros e He. apply elem_of_app. by left. }
    assert (forall e, e ∈ new -> e ∈ evs ++ new) as Hsub'.
    { intros e He. apply elem_of_app. by right. }
    intros i Hi'. destruct (decide (i = c)) as [->|Hne].
    + destruct Hok as (Hk1 & Hk2 & Hk3 & Hk4 & Hk5 & Hk6 & Hk7).
      assert (c < length (gBufferColor (m_res o))) by lia.
      assert (c < length (uiImageViews (m_res o))) by lia.
      split.
      * exists fmt, col, uiv. rewrite Hq1, Hq2, !list_lookup_insert_eq by done.
        rewrite <- Hi, <- Hs. repeat split; auto.
      * intros ->. destruct (Hk7 eq_refl) as (Hm1 & Hm2 & Hm3).
        exists fmt, col, ms. rewrite Hq1, Hq3, !list_lookup_insert_eq by (auto; lia).
        rewrite <- Hi, <- Hs. repeat split; auto.
    + destruct (Hbuilt i ltac:(lia)) as [Hb1 Hb2]. split.
      * eapply (color_built_keep _ _ _ (m_res o) _ evs); eauto.
      * intros ->. eapply (msaa_built_keep _ _ (m_res o) _ evs); eauto.
Qed.
End Step.

(** ** The loop *)

Lemma initResources_color_loop device isMsaa n o0 w0 alloc :
  allocator (m_info o0) = Some alloc ->
  n <= length (colorFormats (m_info o0)) ->
  gBufferColor (m_res o0) = replicate n Image_default ->
  uiImageViews (m_res o0) = replicate n VK_NULL_HANDLE ->
  (isMsaa = true -> gBufferColorMSAA (m_res o0) = replicate n Image_default) ->
  wp (forM_ (seq 0 n) (initResources_color device isMsaa))
     (fun _ s' => color_inv device isMsaa n o0 (trace w0) n s')
     (fun _ s' => abandoned_held (trace w0) s')
     (o0, w0).
Proof.
  intros Ha Hn Hc0 Hu0 Hm0.
  apply (wp_forM_seq (color_inv device isMsaa n o0 (trace w0)) _ _ 0 n).
  - unfold color_inv. simpl. repeat split; try done.
    + by rewrite Hc0, length_replicate.
    + by rewrite Hu0, length_replicate.
    + intros Hm. by rewrite Hm0, length_replicate.
    + rewrite Hc0. apply lookup_replicate_2. lia.
    + rewrite Hu0. apply lookup_replicate_2. lia.
    + intros Hm. rewrite Hm0 by done. apply lookup_replicate_2. lia.
    + exists []. split; [by rewrite app_nil_r|]. split; [intros; lia|].
      intros e h He. by apply elem_of_nil in He.
  - intros c [o w] Hc Hinv.
    pose proof Hinv as (Hi & Hs & _ & _ & _ & _ & _ & Htail & _). simpl in Hi, Hs, Htail.
    destruct (Htail c ltac:(lia)) as (Hlc & Hlu & Hlm).
    destruct (lookup_lt_is_Some_2 (colorFormats (m_info o0)) c ltac:(lia)) as [fmt Hf].
    rewrite <- Hi in Hf, Ha.
    eapply wp_mono; [by apply (initResources_color_wp device isMsaa c o w alloc fmt)| |].
    + intros _ [o' w'] (col & uiv & ms & new & Hupd & Htr & Hheld & Hok). simpl in *.
      eapply color_inv_step; eauto. lia.
    + intros _ [o' w'] (col & uiv & ms & new & Hupd & Htr & Hheld). simpl in *.
      eapply color_inv_early; eauto. lia.
Qed.

(** * The depth block and the UI block of initResources *)

Lemma initResources_depth_wp o w alloc :
  allocator (m_info o) = Some alloc ->
  wp initResources_depth
     (fun _ s' => exists new,
        trace (snd s') = trace w ++ new /\
        same_but_depth o (fst s') /\
        (forall e h, e ∈ new -> h ∈ created e -> h <> VK_NULL_HANDLE ->
           h ∈ image_handles (gBufferDepth (m_res (fst s')))) /\
        if (depthFormat (m_info o) =? VK_FORMAT_UNDEFINED)%N
        then gBufferDepth (m_res (fst s')) = gBufferDepth (m_res o) /\ new = []
        else depth_built (m_info o) (m_size o) (m_res (fst s')) new)
     (fun _ s' => exists new,
        trace (snd s') = trace w ++ new /\ fst s' = o /\
        (forall e h, e ∈ new -> h ∈ created e -> h = VK_NULL_HANDLE))
     (o, w).
Proof.
  intros Ha. unfold initResources_depth, setObjectName.
  apply wp_bind, wp_this. simpl.
  destruct (depthFormat (m_info o) =? 0)%N eqn:Hd; simpl.
  - apply wp_ret. exists []. simpl. rewrite app_nil_r. repeat split; try done.
    intros e h He. by apply elem_of_nil in He.
  - rewrite Ha. wp_auto. apply wp_createImage.
    + intros img view w1 Himg Hview Ht1. wp_auto.
      eexists. split; [solve_trace|]. split; [done|]. split; [solve_held|].
      unfold depth_built. simpl. repeat split; try done.
      apply list_elem_of_here.
    + intros res w1 Hres Ht1. eexists. split; [exact Ht1|]. split; [done|].
      intros e h He Hh. apply list_elem_of_singleton in He as ->. simpl in Hh.
      repeat (apply elem_of_cons in Hh as [->|Hh]); [done..|by apply elem_of_nil in Hh].
Qed.

(** The loop that fills the writes. *)
Lemma ui_write_loop n o w :
  n <= length (uiImageViews (m_res o)) ->
  n <= length (uiDescriptorSets (m_res o)) ->
  wp (foldM (seq 0 n) (ui_write_round VK_IMAGE_LAYOUT_SHADER_READ_ONLY_OPTIMAL) [])
     (fun ws s' =>
        s' = (o, w) /\
        ws = ui_writes (m_info o) (take n (uiDescriptorSets (m_res o)))
               (take n (uiImageViews (m_res o))))
     (fun _ _ => False) (o, w).
Proof.
  intros Hv Hs.
  apply (wp_foldM_seq
           (fun c ws s' =>
              s' = (o, w) /\
              ws = ui_writes (m_info o) (take c (uiDescriptorSets (m_res o)))
                     (take c (uiImageViews (m_res o))))
           _ _ 0 n); [done|].
  intros c ws s Hc [-> ->]. unfold ui_write_round.
  destruct (lookup_lt_is_Some_2 (uiImageViews (m_res o)) c ltac:(lia)) as [v Hlv].
  destruct (lookup_lt_is_Some_2 (uiDescriptorSets (m_res o)) c ltac:(lia)) as [st Hls].
  wp_auto. split; [done|].
  rewrite (take_S_r _ _ _ Hlv), (take_S_r _ _ _ Hls). unfold ui_writes.
  rewrite zip_with_app; [done|]. rewrite !length_take. lia.
Qed.

Lemma initResources_ui_wp device numColor o w :
  length (uiImageViews (m_res o)) = N.to_nat numColor ->
  wp (initResources_ui device VK_IMAGE_LAYOUT_SHADER_READ_ONLY_OPTIMAL numColor)
     (fun _ s' =>
        if (descriptorPool (m_info o) =? VK_NULL_HANDLE)%N then s' = (o, w)
        else exists new,
          trace (snd s') = trace w ++ new /\ same_images o (fst s') /\
          ui_built device (m_info o) numColor (fst s') new)
     (fun _ s' => exists new,
        trace (snd s') = trace w ++ new /\ same_images o (fst s') /\
        ui_held new (fst s') /\
        descriptorPool (m_info o) <> VK_NULL_HANDLE /\
        length (uiDescriptorSets (m_res (fst s'))) = N.to_nat numColor)
     (o, w).
Proof.
  intros Hlen. unfold initResources_ui.
  apply wp_bind, wp_this. simpl.
  destruct (descriptorPool (m_info o) =? 0)%N eqn:Hp; simpl; [by apply wp_ret|].
  assert (descriptorPool (m_info o) <> 0%N) as Hpool by (by apply N.eqb_neq).
  wp_auto. apply wp_createDescriptorSetLayout.
  2:{ intros res w1 Hres Ht1. eexists. split; [exact Ht1|]. split; [done|].
      split; [|split; [done|simpl; by rewrite length_resize]].
      intros e h He Hh Hnz. apply list_elem_of_singleton in He as ->. simpl in Hh.
      apply list_elem_of_singleton in Hh. done. }
  intros layout w1 Hlayout Ht1. wp_auto.
  apply wp_allocateDescriptorSets.
  { simpl. by rewrite length_resize. }
  2:{ intros res w2 Hres Ht2. wp_auto.
      eexists. split; [solve_trace|]. split; [done|].
      split; [|split; [done|simpl;
        rewrite length_app, length_replicate, length_drop, length_resize; lia]].
      intros e h He Hh Hnz. unfold ui_allocInfos in *. simpl in *.
      repeat (apply elem_of_cons in He as [->|He]); try (by apply elem_of_nil in He);
        simpl in Hh.
      - apply list_elem_of_singleton in Hh as ->. apply elem_of_app. right.
        apply list_elem_of_here.
      - apply elem_of_replicate in Hh as [-> _]. done. }
  intros sets w2 Hl Hnz Ht2. simpl in Hl.
  rewrite drop_ge by (simpl; by rewrite length_resize). rewrite app_nil_r.
  wp_auto.
  eapply wp_mono; [apply ui_write_loop; simpl; lia| |done].
  intros ws s' [-> ->]. simpl. wp_auto.
  rewrite take_ge by lia. rewrite take_ge by lia.
  eexists. split; [solve_trace|]. split; [done|].
  unfold ui_built. simpl. repeat split; try done.
Qed.

(** * Relational facts about the blocks *)

(** ** Which blocks record commands *)

Lemma color_loop_silent device isMsaa n :
  sat (grows silent_event) (fun _ => grows silent_event)
      (forM_ (seq 0 n) (initResources_color device isMsaa)).
Proof. unfold initResources_color. sat_grows ltac:(exact I). Qed.

Lemma initResources_depth_silent :
  sat (grows silent_event) (fun _ => grows silent_event) initResources_depth.
Proof. unfold initResources_depth. sat_grows ltac:(exact I). Qed.

Lemma initResources_ui_silent device layout numColor :
  sat (grows silent_event) (fun _ => grows silent_event)
      (initResources_ui device layout numColor).
Proof. unfold initResources_ui. sat_grows ltac:(exact I). Qed.

Lemma deinitResources_silent :
  sat (grows silent_event) (fun _ => grows silent_event) deinitResources.
Proof. unfold deinitResources. sat_grows ltac:(exact I). Qed.

(** Construction logs construction calls only. *)
Lemma initResources_body_constructs cmd :
  sat (grows construct_event) (fun _ => grows construct_event) (initResources_body cmd).
Proof. unfold initResources_body. sat_grows ltac:(exact I). Qed.

(** ** The clear block changes layouts only *)

Global Instance same_handles_ok : RelOK same_handles (fun _ => same_handles).
Proof.
  split; unfold same_handles.
  - intros s. repeat split.
  - intros s1 s2 s3 ? ?. destruct_and!. repeat split; congruence.
  - intros _ s1 s2 s3 ? ?. destruct_and!. repeat split; congruence.
Qed.

Lemma sat_emit_handles e : sat same_handles (fun _ => same_handles) (emit e).
Proof. intros [o w]. simpl. unfold same_handles. simpl. repeat split. Qed.

Lemma sat_modify_color_handles c l :
  sat same_handles (fun _ => same_handles) (modify_color_at c (with_imageLayout l)).
Proof.
  intros [o w]. unfold modify_color_at, color_at, set_color_at, mbind, M_bind, this. simpl.
  destruct (gBufferColor (m_res o) !! c) as [col|] eqn:Hc; simpl; [|done].
  unfold same_handles. simpl. repeat split. by eapply fmap_insert_same.
Qed.

Lemma sat_modify_msaa_handles c l :
  sat same_handles (fun _ => same_handles) (modify_msaa_at c (with_imageLayout l)).
Proof.
  intros [o w]. unfold modify_msaa_at, msaa_at, set_msaa_at, mbind, M_bind, this. simpl.
  destruct (gBufferColorMSAA (m_res o) !! c) as [ms|] eqn:Hc; simpl; [|done].
  unfold same_handles. simpl. repeat split. by eapply fmap_insert_same.
Qed.

Lemma sat_modify_depth_handles l :
  sat same_handles (fun _ => same_handles)
      (modify_res (fun q => set_gBufferDepth (with_imageLayout l (gBufferDepth q)) q)).
Proof. intros [o w]. simpl. unfold same_handles. simpl. repeat split. Qed.

Create HintDb sat_handles discriminated.
#[global] Hint Resolve sat_emit_handles sat_modify_color_handles sat_modify_msaa_handles
  sat_modify_depth_handles : sat_handles.

Lemma initResources_clear_handles cmd layout isMsaa n :
  sat same_handles (fun _ => same_handles) (initResources_clear cmd layout isMsaa n).
Proof.
  unfold initResources_clear, clear_barriers_round, clear_round, final_barriers_round,
    color_at, msaa_at, vkCmdPipelineBarrier2, vkCmdClearColorImage,
    vkCmdClearDepthStencilImage.
  sat_syntax ltac:(eauto with sat_handles).
Qed.

(** ** The first loop leaves the depth image and the descriptors alone *)

Global Instance keeps_rest_ok : RelOK keeps_rest (fun _ => keeps_rest).
Proof.
  split; unfold keeps_rest.
  - intros s. repeat split.
  - intros s1 s2 s3 ? ?. destruct_and!. repeat split; congruence.
  - intros _ s1 s2 s3 ? ?. destruct_and!. repeat split; congruence.
Qed.

Lemma sat_emit_keeps e : sat keeps_rest (fun _ => keeps_rest) (emit e).
Proof. intros [o w]. simpl. unfold keeps_rest. simpl. repeat split. Qed.
Lemma sat_fresh_keeps : sat keeps_rest (fun _ => keeps_rest) fresh.
Proof. intros [o w]. simpl. unfold keeps_rest. simpl. repeat split. Qed.
Lemma sat_driver_keeps : sat keeps_rest (fun _ => keeps_rest) driver_result.
Proof. intros [o w]. simpl. unfold keeps_rest. simpl. repeat split. Qed.
Lemma sat_modify_res_keeps f :
  (forall q, gBufferDepth (f q) = gBufferDepth q /\
             uiDescriptorSets (f q) = uiDescriptorSets q) ->
  sat keeps_rest (fun _ => keeps_rest) (modify_res f).
Proof.
  intros Hf [o w]. simpl. unfold keeps_rest. simpl.
  destruct (Hf (m_res o)) as [-> ->]. repeat split.
Qed.

Create HintDb sat_keeps discriminated.
#[global] Hint Resolve sat_emit_keeps sat_fresh_keeps sat_driver_keeps : sat_keeps.

Lemma color_loop_keeps_rest device isMsaa n :
  sat keeps_rest (fun _ => keeps_rest) (forM_ (seq 0 n) (initResources_color device isMsaa)).
Proof.
  unfold initResources_color, modify_color_at, set_color_at, set_msaa_at, set_uiView_at.
  sat_syntax ltac:(first [ solve [eauto with sat_keeps]
                         | apply sat_modify_res_keeps; intros ?; split; reflexivity ]).
Qed.

(** * Carrying facts from block to block *)

Lemma recorded_app cmd tr1 tr2 : recorded cmd (tr1 ++ tr2) = recorded cmd tr1 ++ recorded cmd tr2.
Proof.
  induction tr1 as [|e tr1 IH]; [done|]. simpl.
  destruct e; try done. destruct (_ =? _)%N; simpl; by rewrite IH.
Qed.

Lemma recorded_silent cmd tr : Forall silent_event tr -> recorded cmd tr = [].
Proof.
  induction 1 as [|e tr He _ IH]; [done|]. simpl. destruct e; try done.
Qed.

Lemma recorded_commands cmd cs : recorded cmd (EvCmd cmd <$> cs) = cs.
Proof.
  induction cs as [|c cs IH]; [done|]. rewrite fmap_cons. cbn [recorded].
  by rewrite N.eqb_refl, IH.
Qed.

Lemma recorded_other cmd cmd' cs : cmd' <> cmd -> recorded cmd' (EvCmd cmd <$> cs) = [].
Proof.
  intros Hne. induction cs as [|c cs IH]; [done|]. rewrite fmap_cons. cbn [recorded].
  destruct (N.eqb_spec cmd cmd'); [congruence|done].
Qed.

Lemma created_command cmd (cs : list Command) e h :
  e ∈ EvCmd cmd <$> cs -> h ∈ created e -> False.
Proof.
  intros He Hh. apply list_elem_of_fmap in He as (c & -> & _). simpl in Hh.
  by apply elem_of_nil in Hh.
Qed.

Lemma bind_image_handles (l : list Image) :
  l ≫= image_handles = (handles_of <$> l) ≫= (fun t => [t.1.1; t.1.2]).
Proof. induction l as [|x l IH]; [done|]. by rewrite fmap_cons, !bind_cons, IH. Qed.

Lemma handles_of_lookup (l l' : list Image) i x :
  handles_of <$> l' = handles_of <$> l -> l !! i = Some x ->
  exists x', l' !! i = Some x' /\ image x' = image x /\
             imageView (descriptor x') = imageView (descriptor x) /\
             sampler (descriptor x') = sampler (descriptor x).
Proof.
  intros Heq Hl.
  assert ((handles_of <$> l') !! i = Some (handles_of x)) as H.
  { by rewrite Heq, list_lookup_fmap, Hl. }
  rewrite list_lookup_fmap in H. destruct (l' !! i) as [x'|]; [|done].
  simpl in H. unfold handles_of in H. simplify_eq. eauto.
Qed.

Section Transport.
Context (q q' : Resources) (evs evs' : list Event).
Hypothesis Hc : handles_of <$> gBufferColor q' = handles_of <$> gBufferColor q.
Hypothesis Hm : handles_of <$> gBufferColorMSAA q' = handles_of <$> gBufferColorMSAA q.
Hypothesis Hd : handles_of (gBufferDepth q') = handles_of (gBufferDepth q).
Hypothesis Hu : uiImageViews q' = uiImageViews q.
Hypothesis Hsub : forall e, e ∈ evs -> e ∈ evs'.

Lemma color_built_transport device info size i :
  color_built device info size q evs i -> color_built device info size q' evs' i.
Proof.
  intros (fmt & x & v & H1 & H2 & H3 & H4 & H5 & H6 & H7 & H8 & H9).
  destruct (handles_of_lookup _ _ _ _ Hc H2) as (x' & Hx' & E1 & E2 & E3).
  exists fmt, x', v. rewrite Hu, E1, E2, E3. repeat split; auto.
Qed.

Lemma msaa_built_transport info size i :
  msaa_built info size q evs i -> msaa_built info size q' evs' i.
Proof.
  intros (fmt & x & m & H1 & H2 & H3 & H4 & H5 & H6).
  destruct (handles_of_lookup _ _ _ _ Hc H2) as (x' & Hx' & E1 & E2 & E3).
  destruct (handles_of_lookup _ _ _ _ Hm H3) as (m' & Hm' & F1 & F2 & F3).
  exists fmt, x', m'. rewrite E1, F1, F2. repeat split; auto.
Qed.

Lemma depth_handles_same :
  image (gBufferDepth q') = image (gBufferDepth q) /\
  imageView (descriptor (gBufferDepth q')) = imageView (descriptor (gBufferDepth q)).
Proof. pose proof Hd as Hd'. unfold handles_of in Hd'. by simplify_eq. Qed.

Lemma depth_built_transport info size :
  depth_built info size q evs -> depth_built info size q' evs'.
Proof.
  unfold depth_built. destruct depth_handles_same as [-> ->].
  intros (H1 & H2 & H3). auto.
Qed.

Lemma resource_handles_transport : resource_handles q' = resource_handles q.
Proof.
  unfold resource_handles. rewrite !bind_image_handles, Hc, Hm, Hu. do 2 f_equal.
  unfold image_handles. by destruct depth_handles_same as [-> ->].
Qed.

Lemma res_held_transport : res_held evs q -> res_held evs q'.
Proof. intros H e h He Hh Hnz. rewrite resource_handles_transport. eauto. Qed.

Lemma shaped_transport n isMsaa : shaped n isMsaa q -> shaped n isMsaa q'.
Proof.
  intros (H1 & H2 & H3). unfold shaped. rewrite Hu.
  assert (length (gBufferColor q') = length (gBufferColor q)) as ->.
  { by rewrite <- (length_fmap handles_of (gBufferColor q')), Hc, length_fmap. }
  assert (length (gBufferColorMSAA q') = length (gBufferColorMSAA q)) as ->.
  { by rewrite <- (length_fmap handles_of (gBufferColorMSAA q')), Hm, length_fmap. }
  done.
Qed.
End Transport.

(** * initResources as a whole *)

Lemma grows_events P s s' tr0 evs :
  grows P s s' -> trace (snd s) = tr0 -> trace (snd s') = tr0 ++ evs -> Forall P evs.
Proof.
  intros [_ (evs' & Ht & Hf)] H0 H1. rewrite H0, H1 in Ht.
  apply app_inv_head in Ht. by subst.
Qed.

Lemma same_images_refl o : same_images o o.
Proof. by repeat split. Qed.

Lemma same_images_resource_handles o o' :
  same_images o o' -> resource_handles (m_res o') = resource_handles (m_res o).
Proof. intros (H1 & H2 & H3 & H4 & _). unfold resource_handles. by rewrite H1, H2, H3, H4. Qed.

Lemma ui_built_held device info numColor o evs :
  ui_built device info numColor o evs -> ui_held evs o.
Proof.
  intros (_ & _ & _ & ->) e h He Hh _. unfold ui_events in He.
  repeat (apply elem_of_cons in He as [->|He]); try (by apply elem_of_nil in He);
    simpl in Hh; apply elem_of_app.
  - apply list_elem_of_singleton in Hh as ->. right. apply list_elem_of_here.
  - by left.
  - by apply elem_of_nil in Hh.
Qed.

Lemma ui_held_nil o : ui_held [] o.
Proof. intros e h He. by apply elem_of_nil in He. Qed.

Lemma all_held_final evsA cmd (cs : list Command) evsU o4 o5 :
  res_held evsA (m_res o4) -> same_images o4 o5 -> ui_held evsU o5 ->
  all_held ((evsA ++ (EvCmd cmd <$> cs)) ++ evsU) o5.
Proof.
  intros HA Hsame HU e h He Hh Hnz. unfold bundle_handles.
  rewrite (same_images_resource_handles _ _ Hsame).
  apply elem_of_app in He as [He|He]; [apply elem_of_app in He as [He|He]|].
  - apply elem_of_app. left. eauto.
  - destruct (created_command _ _ _ _ He Hh).
  - apply elem_of_app. right. eauto.
Qed.

Lemma uint32_of_size_le (n : nat) : N.to_nat (uint32_of_size n) <= n.
Proof. unfold uint32_of_size. pose proof (N.Div0.mod_le (N.of_nat n) (2 ^ 32)). lia. Qed.

Lemma uint32_of_size_small (n : nat) :
  (N.of_nat n < 2 ^ 32)%N -> N.to_nat (uint32_of_size n) = n.
Proof. intros H. unfold uint32_of_size. rewrite N.mod_small by done. lia. Qed.

(** The descriptor sets of an object with [n] of them, in a
    configuration with a pool and an allocator, are consistent. *)
Lemma consistent_sets info (sets : list N) alloc :
  allocator info = Some alloc -> descriptorPool info <> VK_NULL_HANDLE ->
  length sets = N.to_nat (uint32_of_size (length (colorFormats info))) ->
  sets <> [] ->
  descriptorPool info <> VK_NULL_HANDLE /\ allocator info <> None /\ colorFormats info <> [].
Proof.
  intros Ha Hp Hl Hne. split; [done|]. split; [congruence|].
  intros Hnil. rewrite Hnil in Hl. simpl in Hl. by destruct sets.
Qed.

Section Build.
Context (cmd : N) (o1 : GBuffer) (w : World) (alloc : ResourceAllocator).
Local Abbreviation info := (m_info o1).
Local Abbreviation isMsaa := (1 <? sampleCount info)%N.
Local Abbreviation numColor := (uint32_of_size (length (colorFormats info))).
Local Abbreviation n := (N.to_nat numColor).
Hypothesis Ha : allocator info = Some alloc.
Hypothesis Hc0 : gBufferColor (m_res o1) = replicate n Image_default.
Hypothesis Hu0 : uiImageViews (m_res o1) = replicate n VK_NULL_HANDLE.
Hypothesis Hm0 :
  gBufferColorMSAA (m_res o1) = if isMsaa then replicate n Image_default else [].
Hypothesis Hd0 : image (gBufferDepth (m_res o1)) = VK_NULL_HANDLE.
Hypothesis Hv0 : imageView (descriptor (gBufferDepth (m_res o1))) = VK_NULL_HANDLE.
Hypothesis Hs0 : uiDescriptorSets (m_res o1) = [].

(** From the object with its vectors resized: the four blocks build the
    bundle, or abandon it. *)
Lemma build_from_resized :
  wp (forM_ (seq 0 n) (initResources_color (getDevice alloc) isMsaa);;
      initResources_depth;;
      initResources_clear cmd VK_IMAGE_LAYOUT_SHADER_READ_ONLY_OPTIMAL isMsaa n;;
      initResources_ui (getDevice alloc) VK_IMAGE_LAYOUT_SHADER_READ_ONLY_OPTIMAL numColor)
     (fun _ s' => bundle_built cmd alloc o1 (trace w) s')
     (fun _ s' => abandoned o1 (trace w) s')
     (o1, w).
Proof.
  apply wp_bind.
  eapply wp_mono;
    [eapply wp_sat; [apply (color_loop_keeps_rest (getDevice alloc) isMsaa n)|];
     eapply wp_sat; [apply (color_loop_silent (getDevice alloc) isMsaa n)|];
     apply (initResources_color_loop (getDevice alloc) isMsaa n o1 w alloc Ha
              (uint32_of_size_le _) Hc0 Hu0)
    | |].
  { intros Hm. rewrite Hm0, Hm. done. }
  2:{ intros res [o2 w2] [[H _] (Hk1 & Hk2 & Hk3 & Hk4 & Hk5)].
      unfold abandoned, consistent. cbn [fst snd] in *.
      split; [done|]. split; [done|]. split; [|done]. split.
      - destruct (depth_handles_same _ _ Hk1) as [-> ->]. done.
      - rewrite Hk2, Hs0. done. }
  intros _ [o2 w2] [[Hinv Hg1] _]. cbn [fst snd] in Hg1.
  destruct Hinv as (Hi2 & Hz2 & Hdl2 & Hd2 & Hs2 & Hsh2 & Hno2 & _ & evs1 & Ht2 & Hb2 & Hh2).
  cbn [fst snd] in *.
  assert (allocator (m_info o2) = Some alloc) as Ha2 by (by rewrite Hi2).
  apply wp_bind.
  eapply wp_mono;
    [eapply wp_sat; [apply initResources_depth_silent|];
     apply (initResources_depth_wp o2 w2 alloc Ha2) | |].
  2:{ intros res [o3 w3] [(new & Ht3 & Ho3 & Hnull) _].
      unfold abandoned, consistent. cbn [fst snd] in *. subst o3.
      split; [done|]. split; [done|]. split.
      - split; [by rewrite Hd2|by rewrite Hs2, Hs0].
      - exists (evs1 ++ new). cbn [fst snd]. split; [by rewrite Ht3, Ht2, app_assoc|].
        intros e h He Hh Hnz. apply elem_of_app in He as [He|He].
        + unfold bundle_handles. apply elem_of_app. left. eauto.
        + destruct Hnz. eauto. }
  intros _ [o3 w3] [(new & Ht3 & Hsame3 & Hheld3 & Hdepth3) Hg2]. cbn [fst snd] in *.
  destruct Hsame3 as (Hc3 & Hm3 & Hu3 & Hs3 & Hi3 & Hz3 & Hdl3).
  assert (shaped n isMsaa (m_res o3)) as Hsh3.
  { destruct Hsh2 as (? & ? & ?). unfold shaped. by rewrite Hc3, Hm3, Hu3. }
  assert (forall e, e ∈ evs1 -> e ∈ evs1 ++ new) as Hsub1.
  { intros e He. apply elem_of_app. by left. }
  assert (forall e, e ∈ new -> e ∈ evs1 ++ new) as Hsub1'.
  { intros e He. apply elem_of_app. by right. }
  assert (forall i, i < n ->
            color_built (getDevice alloc) info (m_size o1) (m_res o3) (evs1 ++ new) i /\
            (isMsaa = true -> msaa_built info (m_size o1) (m_res o3) (evs1 ++ new) i)) as Hb3.
  { intros i Hi. destruct (Hb2 i Hi) as [Hb Hb']. split.
    - eapply (color_built_transport (m_res o2) (m_res o3) evs1); eauto; by rewrite ?Hc3, ?Hu3.
    - intros Hm. eapply (msaa_built_transport (m_res o2) (m_res o3) evs1); eauto;
        by rewrite ?Hc3, ?Hm3. }
  assert (res_held (evs1 ++ new) (m_res o3)) as Hh3.
  { intros e h He Hh Hnz. unfold resource_handles. rewrite Hc3, Hm3, Hu3.
    apply elem_of_app in He as [He|He].
    - specialize (Hh2 e h He Hh Hnz). unfold resource_handles in Hh2.
      rewrite !elem_of_app in Hh2. rewrite !elem_of_app.
      destruct Hh2 as [?|[?|[Hd|?]]]; auto.
      rewrite Hd2 in Hd. unfold image_handles in Hd. rewrite Hd0, Hv0 in Hd.
      repeat (apply elem_of_cons in Hd as [->|Hd]); [done..|by apply elem_of_nil in Hd].
    - rewrite !elem_of_app. right; right; left. eauto. }
  assert (Forall silent_event (evs1 ++ new)) as Hsil3.
  { apply Forall_app. split.
    - eapply (grows_events _ _ _ (trace w)); [exact Hg1|done|done].
    - eapply (grows_events _ _ _ (trace w2)); [exact Hg2|done|done]. }
  assert (if (depthFormat info =? 0)%N
          then image (gBufferDepth (m_res o3)) = 0%N /\
               imageView (descriptor (gBufferDepth (m_res o3))) = 0%N
          else depth_built info (m_size o1) (m_res o3) (evs1 ++ new)) as Hdep3.
  { rewrite Hi2, Hz2 in Hdepth3. destruct (depthFormat info =? 0)%N.
    - destruct Hdepth3 as [-> _]. by rewrite Hd2.
    - destruct Hdepth3 as (? & ? & ?). repeat split; auto. }
  assert (trace w3 = trace w ++ (evs1 ++ new)) as Ht3' by (by rewrite Ht3, Ht2, app_assoc).
  clear Hb2 Hh2 Hg1 Hg2 Hdepth3 Hheld3 Ht3 Ht2 Hsub1 Hsub1'.
  apply wp_bind.
  eapply wp_mono;
    [eapply wp_sat; [apply initResources_clear_handles|];
     apply (initResources_clear_wp cmd isMsaa n o3 w3 Hsh3) | | intros ? ? [[] _]].
  intros _ [o4 w4] [[Hw4 Himg4] Hsame4]. cbn [fst snd] in *.
  set (cmds := EvCmd cmd <$> three_phases (attachments isMsaa (m_res o3))) in *.
  assert (attachments isMsaa (m_res o4) = attachments isMsaa (m_res o3)) as Hatt4.
  { by eapply images_same_attachments. }
  destruct Hsame4 as (Hc4 & Hm4 & Hd4 & Hu4 & Hs4 & Hdl4 & Hi4 & Hz4). cbn [fst snd] in *.
  assert (shaped n isMsaa (m_res o4)) as Hsh4 by (by eapply shaped_transport).
  assert (trace w4 = trace w ++ (evs1 ++ new) ++ cmds) as Ht4.
  { rewrite Hw4. simpl. by rewrite Ht3', <- app_assoc. }
  assert (forall e, e ∈ evs1 ++ new -> e ∈ (evs1 ++ new) ++ cmds) as Hsub3.
  { intros e He. apply elem_of_app. by left. }
  assert (forall i, i < n ->
            color_built (getDevice alloc) info (m_size o1) (m_res o4)
              ((evs1 ++ new) ++ cmds) i /\
            (isMsaa = true ->
             msaa_built info (m_size o1) (m_res o4) ((evs1 ++ new) ++ cmds) i)) as Hb4.
  { intros i Hi. destruct (Hb3 i Hi) as [Hb Hb']. split.
    - by eapply (color_built_transport (m_res o3) (m_res o4) (evs1 ++ new)).
    - intros Hm. eapply (msaa_built_transport (m_res o3) (m_res o4) (evs1 ++ new)); eauto. }
  assert (res_held (evs1 ++ new) (m_res o4)) as Hh4 by (by eapply res_held_transport).
  assert (if (depthFormat info =? 0)%N
          then image (gBufferDepth (m_res o4)) = 0%N /\
               imageView (descriptor (gBufferDepth (m_res o4))) = 0%N
          else depth_built info (m_size o1) (m_res o4) ((evs1 ++ new) ++ cmds)) as Hdep4.
  { destruct (depthFormat info =? 0)%N.
    - destruct (depth_handles_same _ _ Hd4) as [-> ->]. exact Hdep3.
    - by eapply (depth_built_transport (m_res o3) (m_res o4) (evs1 ++ new)). }
  assert (recorded cmd ((evs1 ++ new) ++ cmds) = three_phases (attachments isMsaa (m_res o4)))
    as Hrec4.
  { rewrite recorded_app, (recorded_silent _ _ Hsil3), Hatt4. apply recorded_commands. }
  assert (forall cmd', cmd' <> cmd -> recorded cmd' ((evs1 ++ new) ++ cmds) = []) as Hoth4.
  { intros cmd' Hne. rewrite recorded_app, (recorded_silent _ _ Hsil3).
    by apply recorded_other. }
  assert (length (uiImageViews (m_res o4)) = n) as Hlen4 by (by destruct Hsh4 as (_ & ? & _)).
  assert (m_info o4 = info) as Hinfo4 by congruence.
  assert (image (gBufferDepth (m_res o4)) = 0%N ->
          imageView (descriptor (gBufferDepth (m_res o4))) = 0%N) as Hcd4.
  { destruct (depthFormat info =? 0)%N.
    - by destruct Hdep4.
    - destruct Hdep4 as (Hnz & _). done. }
  clear Hb3 Hh3 Hdep3 Hsub3 Hw4 Ht3'.
  eapply wp_mono;
    [eapply wp_sat; [apply initResources_ui_silent|];
     apply (initResources_ui_wp (getDevice alloc) numColor o4 w4 Hlen4) | |].
  2:{ intros res [o5 w5] [(new3 & Ht5 & Hsame5 & Hheld5 & Hpool5 & Hlen5) _].
      unfold abandoned, consistent. cbn [fst snd] in *.
      pose proof Hsame5 as (Hc5 & Hm5 & Hd5 & Hu5 & Hi5 & Hz5).
      split; [congruence|]. split; [congruence|]. split.
      - split; [by rewrite Hd5|]. rewrite Hi5, Hinfo4. rewrite Hinfo4 in Hpool5.
        by apply (consistent_sets _ _ alloc).
      - exists (((evs1 ++ new) ++ cmds) ++ new3). cbn [fst snd]. split.
        + by rewrite Ht5, Ht4, !app_assoc.
        + by eapply all_held_final. }
  intros _ [o5 w5] [Hui Hg3]. cbn [fst snd] in *.
  rewrite Hinfo4 in Hui.
  assert (exists new3, trace w5 = trace w4 ++ new3 /\ same_images o4 o5 /\
            ui_held new3 o5 /\
            if (descriptorPool info =? 0)%N
            then uiDescriptorSets (m_res o5) = [] /\ m_descLayout o5 = m_descLayout o1
            else ui_built (getDevice alloc) info numColor o5 new3) as
      (new3 & Ht5 & Hsame5 & Hheld5 & Hui5).
  { destruct (descriptorPool info =? 0)%N.
    - simplify_eq. exists []. rewrite app_nil_r.
      split; [done|]. split; [apply same_images_refl|]. split; [apply ui_held_nil|].
      split; congruence.
    - destruct Hui as (new3 & ? & ? & ?). exists new3. eauto using ui_built_held. }
  clear Hui.
  assert (Forall silent_event new3) as Hsil5.
  { eapply (grows_events _ _ _ (trace w4)); [exact Hg3|done|done]. }
  pose proof Hsame5 as (Hc5 & Hm5 & Hd5 & Hu5 & Hi5 & Hz5).
  unfold bundle_built. cbn [fst snd].
  split; [congruence|]. split; [congruence|].
  split; [unfold shaped; by rewrite Hc5, Hm5, Hu5|].
  split.
  { intros Hm. rewrite Hm5. apply (fmap_nil_inv handles_of).
    rewrite Hm4, Hm3, (Hno2 Hm), Hm0, Hm. done. }
  exists (((evs1 ++ new) ++ cmds) ++ new3).
  assert (forall e, e ∈ (evs1 ++ new) ++ cmds -> e ∈ ((evs1 ++ new) ++ cmds) ++ new3) as Hsub5.
  { intros e He. apply elem_of_app. by left. }
  split; [by rewrite Ht5, Ht4, !app_assoc|].
  split.
  { intros i Hi. destruct (Hb4 i Hi) as [Hb Hb']. split.
    - eapply (color_built_transport (m_res o4) (m_res o5) ((evs1 ++ new) ++ cmds));
        eauto; by rewrite ?Hc5, ?Hu5.
    - intros Hm. eapply (msaa_built_transport (m_res o4) (m_res o5) ((evs1 ++ new) ++ cmds));
        eauto; by rewrite ?Hc5, ?Hm5. }
  split.
  { destruct (depthFormat info =? 0)%N.
    - by rewrite Hd5.
    - eapply (depth_built_transport (m_res o4) (m_res o5) ((evs1 ++ new) ++ cmds));
        eauto; by rewrite ?Hd5. }
  split.
  { destruct (descriptorPool info =? 0)%N; [done|]. eauto. }
  split.
  { rewrite recorded_app, (recorded_silent _ _ Hsil5), app_nil_r, Hrec4.
    f_equal. unfold attachments, round_atts, depth_atts. by rewrite Hc5, Hm5, Hd5. }
  split.
  { intros cmd' Hne. rewrite recorded_app, (recorded_silent _ _ Hsil5), app_nil_r. eauto. }
  by eapply all_held_final.
Qed.
End Build.

Lemma build_from_resized_eq cmd o1 w alloc (isMsaa : bool) (numColor : N) :
  isMsaa = (1 <? sampleCount (m_info o1))%N ->
  numColor = uint32_of_size (length (colorFormats (m_info o1))) ->
  allocator (m_info o1) = Some alloc ->
  gBufferColor (m_res o1) = replicate (N.to_nat numColor) Image_default ->
  uiImageViews (m_res o1) = replicate (N.to_nat numColor) VK_NULL_HANDLE ->
  gBufferColorMSAA (m_res o1) =
    (if isMsaa then replicate (N.to_nat numColor) Image_default else []) ->
  image (gBufferDepth (m_res o1)) = VK_NULL_HANDLE ->
  imageView (descriptor (gBufferDepth (m_res o1))) = VK_NULL_HANDLE ->
  uiDescriptorSets (m_res o1) = [] ->
  wp (forM_ (seq 0 (N.to_nat numColor)) (initResources_color (getDevice alloc) isMsaa);;
      initResources_depth;;
      initResources_clear cmd VK_IMAGE_LAYOUT_SHADER_READ_ONLY_OPTIMAL isMsaa
        (N.to_nat numColor);;
      initResources_ui (getDevice alloc) VK_IMAGE_LAYOUT_SHADER_READ_ONLY_OPTIMAL numColor)
     (fun _ s' => bundle_built cmd alloc o1 (trace w) s')
     (fun _ s' => abandoned o1 (trace w) s')
     (o1, w).
Proof. intros -> ->. apply build_from_resized. Qed.

(** The whole body, from a torn-down object with an allocator. *)
Lemma initResources_body_wp cmd o w alloc :
  allocator (m_info o) = Some alloc ->
  torn (m_res o) ->
  wp (initResources_body cmd)
     (fun _ s' => bundle_built cmd alloc o (trace w) s')
     (fun _ s' => abandoned o (trace w) s')
     (o, w).
Proof.
  intros Ha (Hc & Hm & Hu & Hs & Hd & Hv). unfold initResources_body.
  apply wp_bind, wp_this. simpl. rewrite Ha. apply wp_bind, wp_ret. simpl.
  apply wp_bind, wp_modify_res. apply wp_bind, wp_modify_res. simpl.
  rewrite Hc, Hu, !resize_nil. apply wp_bind.
  destruct (1 <? sampleCount (m_info o))%N eqn:HisMsaa.
  - apply wp_modify_res. simpl. rewrite Hm, resize_nil.
    match goal with |- wp _ _ _ (?o1, _) =>
      eapply wp_mono; [apply (build_from_resized_eq cmd o1 w alloc)| |]; simpl; done
    end.
  - apply wp_ret. simpl.
    match goal with |- wp _ _ _ (?o1, _) =>
      eapply wp_mono; [apply (build_from_resized_eq cmd o1 w alloc)| |]; simpl; done
    end.
Qed.

(** ** The driver's results during construction *)

Lemma oracle_ok_no_call o w o' w' :
  oracle w' = oracle w -> calls w' = calls w -> oracle_ok (o, w) (o', w').
Proof. intros Ho Hc. split; [done|]. simpl. split; [lia|]. intros j Hj. lia. Qed.

Lemma sat_emit_oracle e : sat oracle_ok oracle_early (emit e).
Proof. intros [o w]. by apply oracle_ok_no_call. Qed.
Lemma sat_modify_oracle f : sat oracle_ok oracle_early (modify f).
Proof. intros [o w]. by apply oracle_ok_no_call. Qed.
Lemma sat_modify_res_oracle f : sat oracle_ok oracle_early (modify_res f).
Proof. intros [o w]. by apply oracle_ok_no_call. Qed.

Lemma assigns_modify {A} (f : A -> GBuffer -> GBuffer) : assigns (fun x => modify (f x)).
Proof. intros x [o w]. by eexists. Qed.
Lemma assigns_modify_res {A} (f : A -> Resources -> Resources) :
  assigns (fun x => modify_res (f x)).
Proof. intros x [o w]. by eexists. Qed.

Lemma one_call_ok o w o' w' :
  oracle w' = oracle w -> calls w' = S (calls w) -> oracle w (calls w) = VK_SUCCESS ->
  oracle_ok (o, w) (o', w').
Proof.
  intros Ho Hc Hr. split; [done|]. simpl. split; [lia|]. intros j Hj.
  assert (j = calls w) as -> by lia. done.
Qed.

Lemma one_call_early o w o' w' e tr :
  oracle w' = oracle w -> calls w' = S (calls w) -> oracle w (calls w) <> VK_SUCCESS ->
  trace w' = tr ++ [e] -> event_result e = Some (oracle w (calls w)) ->
  oracle_early (oracle w (calls w)) (o, w) (o', w').
Proof.
  intros Ho Hc Hr Ht He. split; [done|]. split; [done|]. simpl. split.
  - exists (calls w). split; [done|]. split; [done|]. split; [done|]. intros i Hi. lia.
  - exists e. split; [|done]. rewrite Ht. apply last_snoc.
Qed.

Lemma sat_createImage_oracle alloc store info viewInfo :
  assigns store ->
  sat oracle_ok oracle_early (NVVK_FAIL_RETURN (createImage alloc store info viewInfo)).
Proof.
  intros Hst [o w].
  unfold NVVK_FAIL_RETURN, createImage, mbind, M_bind, driver_result, fresh, emit. simpl.
  destruct (Z.eqb_spec (oracle w (calls w)) 0) as [Heq|Hne]; simpl.
  - match goal with |- context [store ?x ?s] => destruct (Hst x s) as [o' ->] end.
    unfold mret, M_ret. simpl. rewrite Heq. simpl. by apply one_call_ok.
  - unfold mret, M_ret. destruct (Z.eqb_spec (oracle w (calls w)) 0); [done|].
    unfold early. by eapply one_call_early.
Qed.

Lemma sat_createImageView_oracle device viewInfo store :
  assigns store ->
  sat oracle_ok oracle_early (NVVK_FAIL_RETURN (vkCreateImageView device viewInfo store)).
Proof.
  intros Hst [o w].
  unfold NVVK_FAIL_RETURN, vkCreateImageView, mbind, M_bind, driver_result, fresh, emit.
  simpl.
  destruct (Z.eqb_spec (oracle w (calls w)) 0) as [Heq|Hne]; simpl.
  - match goal with |- context [store ?x ?s] => destruct (Hst x s) as [o' ->] end.
    unfold mret, M_ret. simpl. rewrite Heq. simpl. by apply one_call_ok.
  - unfold mret, M_ret. destruct (Z.eqb_spec (oracle w (calls w)) 0); [done|].
    unfold early. by eapply one_call_early.
Qed.

Lemma sat_createDescriptorSetLayout_oracle device info store :
  assigns store ->
  sat oracle_ok oracle_early
      (NVVK_FAIL_RETURN (vkCreateDescriptorSetLayout device info store)).
Proof.
  intros Hst [o w].
  unfold NVVK_FAIL_RETURN, vkCreateDescriptorSetLayout, mbind, M_bind, driver_result, fresh,
    emit. simpl.
  destruct (Z.eqb_spec (oracle w (calls w)) 0) as [Heq|Hne]; simpl.
  - match goal with |- context [store ?x ?s] => destruct (Hst x s) as [o' ->] end.
    unfold mret, M_ret. simpl. rewrite Heq. simpl. by apply one_call_ok.
  - unfold mret, M_ret. destruct (Z.eqb_spec (oracle w (calls w)) 0); [done|].
    unfold early. by eapply one_call_early.
Qed.

Lemma sat_allocateDescriptorSets_oracle device info out store :
  assigns store ->
  sat oracle_ok oracle_early
      (NVVK_FAIL_RETURN (vkAllocateDescriptorSets device info out store)).
Proof.
  intros Hst [o w].
  unfold NVVK_FAIL_RETURN, vkAllocateDescriptorSets. unfold mbind at 1 2, M_bind at 1 2.
  destruct (bool_decide _); simpl; [|done].
  unfold mbind at 1, M_bind at 1, driver_result. simpl.
  destruct (Z.eqb_spec (oracle w (calls w)) 0) as [Heq|Hne]; simpl.
  - unfold mbind at 1, M_bind at 1.
    match goal with |- context [fresh_n ?n (o, ?w1)] =>
      destruct (fresh_n_run n o w1) as (hs & w' & -> & Hl & Hnz & Htr & Hor & Hca) end.
    unfold mbind, M_bind, emit. simpl.
    match goal with |- context [store ?x ?s] => destruct (Hst x s) as [o' ->] end.
    unfold mret, M_ret. simpl. rewrite Heq. simpl. by apply one_call_ok.
  - unfold mbind, M_bind, emit. simpl.
    match goal with |- context [store ?x ?s] => destruct (Hst x s) as [o' ->] end.
    unfold mret, M_ret. destruct (Z.eqb_spec (oracle w (calls w)) 0); [done|].
    unfold early. by eapply one_call_early.
Qed.

Create HintDb sat_oracle discriminated.
#[global] Hint Resolve sat_emit_oracle sat_modify_oracle sat_modify_res_oracle
  assigns_modify assigns_modify_res : sat_oracle.

Lemma initResources_body_oracle cmd : sat oracle_ok oracle_early (initResources_body cmd).
Proof.
  unfold initResources_body, initResources_color, initResources_depth, initResources_ui,
    set_color_at, set_msaa_at, set_uiView_at.
  sat_syntax ltac:(first
    [ solve [eauto with sat_oracle]
    | apply sat_createImage_oracle; solve [eauto with sat_oracle]
    | apply sat_createImageView_oracle; solve [eauto with sat_oracle]
    | apply sat_createDescriptorSetLayout_oracle; solve [eauto with sat_oracle]
    | apply sat_allocateDescriptorSets_oracle; solve [eauto with sat_oracle] ]).
Qed.

(** * update as a whole *)

Lemma requested_dec newSize newSampleCount o :
  (width newSize =? width (m_size o))%N && (height newSize =? height (m_size o))%N
    && (newSampleCount =? sampleCount (m_info o))%N = true <->
  requested newSize newSampleCount o.
Proof.
  unfold requested. rewrite !andb_true_iff, !N.eqb_eq. tauto.
Qed.

Lemma not_requested newSize newSampleCount o :
  ~ requested newSize newSampleCount o ->
  (width newSize =? width (m_size o))%N && (height newSize =? height (m_size o))%N
    && (newSampleCount =? sampleCount (m_info o))%N = false.
Proof.
  intros H. apply not_true_is_false. intros Ht. by apply H, requested_dec.
Qed.

(** A built bundle is consistent. *)
Lemma bundle_built_consistent cmd alloc o0 tr0 s :
  allocator (m_info o0) = Some alloc ->
  bundle_built cmd alloc o0 tr0 s -> consistent (fst s).
Proof.
  intros Ha (Hi & _ & _ & _ & evs & _ & _ & Hd & Hu & _). split.
  - destruct (depthFormat (m_info o0) =? 0)%N.
    + by destruct Hd.
    + destruct Hd as (Hnz & _). done.
  - rewrite Hi. destruct (N.eqb_spec (descriptorPool (m_info o0)) 0) as [Hp|Hp].
    + destruct Hu as [-> _]. done.
    + destruct Hu as (pre & ui & _ & (_ & Hl & _)). intros Hne.
      eapply (consistent_sets _ (uiDescriptorSets (m_res (fst s))) alloc); eauto.
Qed.

Section Rebuild.
Context (cmd : N) (newSize : VkExtent2D) (newSampleCount : N).
Context (o : GBuffer) (w : World) (alloc : ResourceAllocator).
Hypothesis Hreq : ~ requested newSize newSampleCount o.
Hypothesis Ha : allocator (m_info o) = Some alloc.
Hypothesis Hcons : consistent o.

Local Abbreviation o1 := (prepared newSize newSampleCount o).
Local Abbreviation w1 :=
  (logs (teardown_events alloc o) (log (EvDeviceWaitIdle (getDevice alloc)) w)).

Lemma update_rebuild_eq :
  update cmd newSize newSampleCount (o, w) = initResources cmd (o1, w1).
Proof.
  rewrite (update_rebuild_run _ _ _ _ _ alloc) by auto using not_requested.
  by rewrite (deinitResources_run _ _ alloc).
Qed.

Lemma prepared_torn : torn (m_res o1).
Proof. apply torn_down_torn; [done|congruence]. Qed.

Lemma prepared_allocator : allocator (m_info o1) = Some alloc.
Proof. done. Qed.

(** The rebuild path always returns: VK_SUCCESS with a built bundle, or
    the result of the first call that failed, which is the last call
    made, with an abandoned bundle. *)
Lemma update_rebuild_outcome :
  exists res o' w',
    update cmd newSize newSampleCount (o, w) = Ret res (o', w') /\
    grows construct_event (o1, w1) (o', w') /\
    ((res = VK_SUCCESS /\ bundle_built cmd alloc o1 (trace w1) (o', w') /\
      oracle_ok (o1, w1) (o', w')) \/
     (abandoned o1 (trace w1) (o', w') /\ oracle_early res (o1, w1) (o', w'))).
Proof.
  rewrite update_rebuild_eq, initResources_run.
  pose proof (initResources_body_wp cmd o1 w1 alloc prepared_allocator prepared_torn) as Hwp.
  pose proof (initResources_body_oracle cmd (o1, w1)) as Hor.
  pose proof (initResources_body_constructs cmd (o1, w1)) as Hgr.
  unfold wp in Hwp.
  destruct (initResources_body cmd (o1, w1)) as [[] [o' w']|res [o' w']|]; [| |done].
  - exists 0%Z, o', w'. split; [done|]. split; [done|]. left. done.
  - exists res, o', w'. split; [done|]. split; [done|]. right. done.
Qed.
End Rebuild.

(** ** Reachable states are consistent *)

Lemma init_consistent createInfo o w o' w' :
  consistent o -> init createInfo (o, w) = Ret tt (o', w') -> consistent o'.
Proof.
  intros [Hd Hs]. unfold init, mbind, M_bind, this. simpl.
  destruct (decide (colorFormats (m_info o) = [])) as [Hnil|Hne].
  - rewrite bool_decide_eq_true_2 by done. simpl. intros [= <- _]. split; [done|].
    simpl. intros Hsets. destruct (Hs Hsets) as (_ & _ & Hf). done.
  - rewrite bool_decide_eq_false_2 by done. done.
Qed.

Lemma deinit_run o w :
  exists w', deinit (o, w) = Ret tt (GBuffer_default, w') /\
             grows teardown_event (o, w) (GBuffer_default, w').
Proof.
  unfold deinit. unfold mbind at 1, M_bind at 1.
  destruct (allocator (m_info o)) as [alloc|] eqn:Ha.
  - rewrite (deinitResources_run _ _ alloc) by done. simpl. eexists. split; [done|].
    split; [done|]. simpl. eexists. split; [done|]. apply teardown_events_kind.
  - rewrite deinitResources_null by done. simpl. eexists. split; [done|].
    apply grows_same_world.
Qed.

Lemma GBuffer_default_consistent : consistent GBuffer_default.
Proof. by split. Qed.

Lemma update_consistent cmd newSize newSampleCount o w res o' w' :
  consistent o -> update cmd newSize newSampleCount (o, w) = Ret res (o', w') ->
  consistent o'.
Proof.
  intros Hc Hrun.
  destruct (decide (requested newSize newSampleCount o)) as [(H1 & H2 & H3)|Hreq].
  - rewrite update_requested_run in Hrun by done. by simplify_eq.
  - destruct (allocator (m_info o)) as [alloc|] eqn:Ha.
    + destruct (update_rebuild_outcome cmd newSize newSampleCount o w alloc Hreq Ha Hc)
        as (res' & o'' & w'' & Hrun' & _ & Hcase).
      rewrite Hrun' in Hrun. simplify_eq.
      destruct Hcase as [(_ & Hb & _)|[(_ & _ & Hcons & _) _]]; [|done].
      apply (bundle_built_consistent _ alloc _ _ (o', w')) in Hb; [done|exact Ha].
    + rewrite update_null_allocator in Hrun by auto using not_requested. done.
Qed.

Lemma reachable_consistent o : reachable o -> consistent o.
Proof.
  induction 1 as [|o w cfg o' w' _ IH Hrun|o w cmd sz sc res o' w' _ IH Hrun
                  |o w o' w' _ IH Hrun].
  - apply GBuffer_default_consistent.
  - by eapply init_consistent.
  - by eapply update_consistent.
  - destruct (deinit_run o w) as (w'' & Hd & _). rewrite Hd in Hrun. simplify_eq.
    apply GBuffer_default_consistent.
Qed.

(** * The properties of the rebuild path *)

(** What a rebuild that returned VK_SUCCESS did, for a reachable state. *)
Lemma update_rebuilt cmd newSize newSampleCount o w o' w' :
  reachable o ->
  ~ requested newSize newSampleCount o ->
  update cmd newSize newSampleCount (o, w) = Ret VK_SUCCESS (o', w') ->
  exists alloc,
    allocator (m_info o) = Some alloc /\
    bundle_built cmd alloc (prepared newSize newSampleCount o)
      (trace w ++ EvDeviceWaitIdle (getDevice alloc) :: teardown_events alloc o) (o', w').
Proof.
  intros Hreach Hreq Hrun. pose proof (reachable_consistent _ Hreach) as Hcons.
  destruct (allocator (m_info o)) as [alloc|] eqn:Ha;
    [|by rewrite update_null_allocator in Hrun by auto using not_requested].
  exists alloc. split; [done|].
  destruct (update_rebuild_outcome cmd newSize newSampleCount o w alloc Hreq Ha Hcons)
    as (res & o'' & w'' & Hrun' & _ & Hcase).
  rewrite Hrun' in Hrun. simplify_eq.
  destruct Hcase as [(_ & Hb & _)|[_ (_ & Hne & _)]]; [|done].
  simpl in Hb. by rewrite <- app_assoc in Hb.
Qed.

Lemma teardown_silent alloc o :
  Forall silent_event (EvDeviceWaitIdle (getDevice alloc) :: teardown_events alloc o).
Proof.
  constructor; [done|]. eapply Forall_impl; [apply teardown_events_kind|].
  by intros [].
Qed.

(** C3, as amended: after a successful update that rebuilds (the request
    differs from the stored size or sample count) of a reachable manager
    with fewer than 2^32 colour formats, there is one colour image and
    view per configured format, created with that format at the new
    size; one multisampled image per format, with the same format, when
    the sample count exceeds one, and none otherwise; the depth image and
    view when the depth format is not undefined, and null depth handles
    otherwise. *)
Theorem update_builds_attachments cmd newSize newSampleCount o w o' w' :
  reachable o ->
  (N.of_nat (length (colorFormats (m_info o))) < 2 ^ 32)%N ->
  ~ requested newSize newSampleCount o ->
  update cmd newSize newSampleCount (o, w) = Ret VK_SUCCESS (o', w') ->
  exists alloc evs,
    allocator (m_info o) = Some alloc /\
    trace w' = trace w ++ evs /\
    colorFormats (m_info o') = colorFormats (m_info o) /\
    depthFormat (m_info o') = depthFormat (m_info o) /\
    sampleCount (m_info o') = newSampleCount /\
    length (gBufferColor (m_res o')) = length (colorFormats (m_info o)) /\
    (forall i, i < length (colorFormats (m_info o)) ->
       color_built (getDevice alloc) (m_info o') newSize (m_res o') evs i) /\
    (if (VK_SAMPLE_COUNT_1_BIT <? newSampleCount)%N
     then length (gBufferColorMSAA (m_res o')) = length (colorFormats (m_info o)) /\
          forall i, i < length (colorFormats (m_info o)) ->
            msaa_built (m_info o') newSize (m_res o') evs i
     else gBufferColorMSAA (m_res o') = []) /\
    (if (depthFormat (m_info o) =? VK_FORMAT_UNDEFINED)%N
     then getDepthImage o' = VK_NULL_HANDLE /\ getDepthImageView o' = VK_NULL_HANDLE
     else depth_built (m_info o') newSize (m_res o') evs).
Proof.
  intros Hreach Hsmall Hreq Hrun.
  destruct (update_rebuilt _ _ _ _ _ _ _ Hreach Hreq Hrun) as (alloc & Ha & Hb).
  destruct Hb as (Hi & Hz & (Hl1 & Hl2 & Hl3) & Hno & evs & Ht & Hcol & Hdep & _).
  simpl in *. rewrite (uint32_of_size_small _ Hsmall) in *.
  assert (forall e, e ∈ evs ->
            e ∈ (EvDeviceWaitIdle (getDevice alloc) :: teardown_events alloc o) ++ evs) as Hsub.
  { intros e He. apply elem_of_app. by right. }
  exists alloc, ((EvDeviceWaitIdle (getDevice alloc) :: teardown_events alloc o) ++ evs).
  split; [done|]. split; [by rewrite Ht, <- app_assoc|].
  rewrite Hi. simpl. split; [done|]. split; [done|]. split; [done|]. split; [done|].
  split; [|split].
  - intros i Hlt. destruct (Hcol i Hlt) as [Hc _].
    by eapply (color_built_transport (m_res o') (m_res o') evs).
  - destruct (1 <? newSampleCount)%N; [|by apply Hno]. split; [by apply Hl3|].
    intros i Hlt. destruct (Hcol i Hlt) as [_ Hm].
    by eapply (msaa_built_transport (m_res o') (m_res o') evs); auto.
  - destruct (depthFormat (m_info o) =? 0)%N; [done|].
    by eapply (depth_built_transport (m_res o') (m_res o') evs).
Qed.

(** C7, as amended: after a successful update that rebuilds, of a
    reachable manager with fewer than 2^32 colour formats: the UI view at
    each index is a view over the colour image at that index with alpha
    swizzled to one; with a descriptor pool the update ends with the
    creation of one layout of one combined-image-sampler binding for the
    fragment stage, the allocation of one descriptor set per colour
    format, all with that layout, and the write of each set with the UI
    view at its index, the configured sampler and the shader-read-only
    layout; without a pool there are no descriptor sets. *)
Theorem update_builds_ui cmd newSize newSampleCount o w o' w' :
  reachable o ->
  (N.of_nat (length (colorFormats (m_info o))) < 2 ^ 32)%N ->
  ~ requested newSize newSampleCount o ->
  update cmd newSize newSampleCount (o, w) = Ret VK_SUCCESS (o', w') ->
  exists alloc evs,
    allocator (m_info o) = Some alloc /\
    trace w' = trace w ++ evs /\
    (forall i, i < length (colorFormats (m_info o)) ->
       exists col uiv viewInfo,
         gBufferColor (m_res o') !! i = Some col /\
         uiImageViews (m_res o') !! i = Some uiv /\
         uiv <> VK_NULL_HANDLE /\
         EvCreateImageView (getDevice alloc) viewInfo VK_SUCCESS uiv ∈ evs /\
         ivci_image viewInfo = image col /\
         comp_a (components viewInfo) = VK_COMPONENT_SWIZZLE_ONE) /\
    (if (descriptorPool (m_info o) =? VK_NULL_HANDLE)%N
     then uiDescriptorSets (m_res o') = []
     else length (uiDescriptorSets (m_res o')) = length (colorFormats (m_info o)) /\
          Forall (fun h => h <> VK_NULL_HANDLE) (uiDescriptorSets (m_res o')) /\
          m_descLayout o' <> VK_NULL_HANDLE /\
          exists pre,
            evs = pre ++
              [EvCreateDescriptorSetLayout (getDevice alloc) ui_layout_info VK_SUCCESS
                 (m_descLayout o');
               EvAllocateDescriptorSets (getDevice alloc)
                 {| dsai_sType := VK_STRUCTURE_TYPE_DESCRIPTOR_SET_ALLOCATE_INFO;
                    dsai_descriptorPool := descriptorPool (m_info o);
                    descriptorSetCount := N.of_nat (length (colorFormats (m_info o)));
                    pSetLayouts :=
                      replicate (length (colorFormats (m_info o))) (m_descLayout o') |}
                 VK_SUCCESS (uiDescriptorSets (m_res o'));
               EvUpdateDescriptorSets (getDevice alloc)
                 (N.of_nat (length (colorFormats (m_info o))))
                 (ui_writes (m_info o) (uiDescriptorSets (m_res o'))
                    (uiImageViews (m_res o')))]).
Proof.
  intros Hreach Hsmall Hreq Hrun.
  destruct (update_rebuilt _ _ _ _ _ _ _ Hreach Hreq Hrun) as (alloc & Ha & Hb).
  destruct Hb as (Hi & Hz & (Hl1 & Hl2 & Hl3) & Hno & evs & Ht & Hcol & _ & Hui & _).
  simpl in *.
  assert (uint32_of_size (length (colorFormats (m_info o))) =
          N.of_nat (length (colorFormats (m_info o)))) as Hnum.
  { unfold uint32_of_size. by rewrite N.mod_small. }
  rewrite Hnum, Nat2N.id in *.
  exists alloc, ((EvDeviceWaitIdle (getDevice alloc) :: teardown_events alloc o) ++ evs).
  split; [done|]. split; [by rewrite Ht, <- app_assoc|]. split.
  - intros i Hlt.
    destruct (Hcol i Hlt) as [(fmt & col & uiv & _ & Hc & Hu & _ & _ & Hnz & _ & _ & Hev) _].
    exists col, uiv, (ui_viewInfo (color_viewInfo fmt) (image col)).
    repeat split; try done. apply elem_of_app. by right.
  - destruct (descriptorPool (m_info o) =? 0)%N; [by destruct Hui|].
    destruct Hui as (pre & ui & -> & Hdl & Hlen & Hnz & ->).
    rewrite Nat2N.id in Hlen. split; [done|]. split; [done|]. split; [done|].
    exists ((EvDeviceWaitIdle (getDevice alloc) :: teardown_events alloc o) ++ pre).
    rewrite <- app_assoc. f_equal. unfold ui_events, ui_allocInfos. simpl.
    rewrite Nat2N.id. rewrite Hlen.
    assert (uint32_of_size (length (colorFormats (m_info o))) =
            N.of_nat (length (colorFormats (m_info o)))) as -> by done.
    reflexivity.
Qed.

(** * Failure, order, and the round trip *)

Lemma last_app_result (tr mid evs : list Event) m e res :
  last (tr ++ (m :: mid) ++ evs) = Some e -> event_result e = Some res ->
  Forall (fun e => event_result e = None) (m :: mid) ->
  last evs = Some e.
Proof.
  intros Hlast Hres Htr. destruct evs as [|e' evs _] using rev_ind.
  - rewrite app_nil_r in Hlast.
    assert (e ∈ m :: mid) as Hin.
    { destruct mid as [|m' mid _] using rev_ind.
      - rewrite last_snoc in Hlast. simplify_eq. apply list_elem_of_here.
      - rewrite app_comm_cons, app_assoc, last_snoc in Hlast. simplify_eq.
        rewrite app_comm_cons. apply elem_of_app. right. apply list_elem_of_here. }
    rewrite Forall_forall in Htr. apply Htr in Hin. congruence.
  - rewrite !app_assoc, last_snoc in Hlast. by rewrite last_snoc.
Qed.

Lemma teardown_no_result alloc o :
  Forall (fun e => event_result e = None)
    (EvDeviceWaitIdle (getDevice alloc) :: teardown_events alloc o).
Proof.
  constructor; [done|]. eapply Forall_impl; [apply teardown_events_kind|].
  by intros [].
Qed.

(** The teardown of a consistent manager destroys every image and view
    of the bundle and frees every descriptor set. *)
Lemma teardown_destroys_bundle alloc o h :
  consistent o ->
  h ∈ resource_handles (m_res o) ++ uiDescriptorSets (m_res o) ->
  h <> VK_NULL_HANDLE ->
  exists e, e ∈ teardown_events alloc o /\ h ∈ destroyed e.
Proof.
  intros [Hdepth Hsets] Hin Hnz. unfold teardown_events, resource_handles in *.
  rewrite !elem_of_app in Hin.
  destruct Hin as [[Hin|[Hin|[Hin|Hin]]]|Hin].
  - apply list_elem_of_bind in Hin as (img & Hh & Himg).
    exists (EvDestroyImage img). split; [|done].
    rewrite !elem_of_app. right. left. by apply list_elem_of_fmap_2.
  - apply list_elem_of_bind in Hin as (img & Hh & Himg).
    exists (EvDestroyImage img). split; [|done].
    rewrite !elem_of_app. right. right. left. by apply list_elem_of_fmap_2.
  - destruct (N.eqb_spec (image (gBufferDepth (m_res o))) 0) as [Hz|Hz].
    + specialize (Hdepth Hz). unfold image_handles in Hin.
      rewrite Hz, Hdepth in Hin.
      apply elem_of_cons in Hin as [->|Hin]; [done|].
      by apply list_elem_of_singleton in Hin.
    + exists (EvDestroyImage (gBufferDepth (m_res o))). split; [|done].
      rewrite !elem_of_app. right. right. right. left. simpl. apply list_elem_of_here.
  - exists (EvDestroyImageView (getDevice alloc) h). split; [|simpl; apply list_elem_of_here].
    rewrite !elem_of_app. right. right. right. right. by apply list_elem_of_fmap_2.
  - assert (uiDescriptorSets (m_res o) <> []) as Hne
      by (intros Hnil; rewrite Hnil in Hin; by apply elem_of_nil in Hin).
    destruct (Hsets Hne) as (Hpool & _).
    assert (frees_ui o = true) as ->.
    { unfold frees_ui. apply andb_true_iff. split.
      - apply negb_true_iff. by apply N.eqb_neq.
      - apply negb_true_iff. by apply bool_decide_eq_false. }
    eexists. split; [apply elem_of_app; left; apply list_elem_of_here|done].
Qed.


(** An update of a consistent manager whose allocator is set returns and
    keeps the allocator. *)
Lemma update_total cmd newSize newSampleCount o w alloc :
  consistent o -> allocator (m_info o) = Some alloc ->
  exists res o' w',
    update cmd newSize newSampleCount (o, w) = Ret res (o', w') /\
    consistent o' /\ allocator (m_info o') = Some alloc.
Proof.
  intros Hcons Ha.
  destruct (decide (requested newSize newSampleCount o)) as [(Hw & Hh & Hs)|Hreq].
  - exists VK_SUCCESS, o, w. by rewrite update_requested_run.
  - destruct (update_rebuild_outcome cmd newSize newSampleCount o w alloc Hreq Ha Hcons)
      as (res & o' & w' & Hrun & _ & Hcase).
    exists res, o', w'. split; [done|]. split; [by eapply update_consistent|].
    destruct Hcase as [(_ & (Hi & _) & _)|[(Hi & _) _]]; simpl in Hi; by rewrite Hi.
Qed.

(** C9: for a configuration with an allocator and any two sizes, init,
    update, update, deinit returns and leaves the manager as a newly
    constructed one (empty configuration, empty bundle, zero size, null
    layout), whatever the two updates returned; a further deinit does
    nothing at all, as does every deinit of a manager without an
    allocator, apart from resetting the members. *)
Theorem init_update_update_deinit createInfo alloc cmd sizeA sizeB w :
  allocator createInfo = Some alloc ->
  exists w',
    (init createInfo;; update_size cmd sizeA;; update_size cmd sizeB;; deinit)
      (GBuffer_default, w) = Ret tt (GBuffer_default, w') /\
    deinit (GBuffer_default, w') = Ret tt (GBuffer_default, w') /\
    forall o w0, allocator (m_info o) = None ->
      deinit (o, w0) = Ret tt (GBuffer_default, w0).
Proof.
  intros Ha.
  assert (consistent (set_m_info createInfo GBuffer_default)) as Hc0.
  { eapply (init_consistent createInfo GBuffer_default w _ w);
      [apply GBuffer_default_consistent|done]. }
  destruct (update_total cmd sizeA (sampleCount createInfo) _ w alloc Hc0 Ha)
    as (r1 & o1 & w1 & Hr1 & Hc1 & Ha1).
  destruct (update_total cmd sizeB (sampleCount (m_info o1)) o1 w1 alloc Hc1 Ha1)
    as (r2 & o2 & w2 & Hr2 & Hc2 & Ha2).
  destruct (deinit_run o2 w2) as (w' & Hd & _).
  exists w'. split; [|split; [done|]].
  - unfold mbind, M_bind, update_size, this. simpl.
    unfold mbind, M_bind, this. simpl.
    rewrite Hr1. simpl. rewrite Hr2. done.
  - intros o w0 Hnone. unfold deinit, mbind, M_bind.
    by rewrite deinitResources_null.
Qed.

(** * Updates that succeed without a rebuild *)

(** C3 as stated does not hold of every successful update.  A manager
    that is reset, initialised with two colour formats and a depth
    format, and updated to the size it has, reports success and has no
    colour image at all.  And after an update whose first image creation
    failed, the same update again reports success while every image
    handle, depth included, is null. *)
Lemma update_success_without_attachments :
  (deinit;; init (example_info 0 VK_SAMPLE_COUNT_1_BIT);;
   update_size example_cmd VkExtent2D_default) (GBuffer_default, example_world) =
    Ret VK_SUCCESS (example_initialised 0 VK_SAMPLE_COUNT_1_BIT, example_world) /\
  length (colorFormats (m_info (example_initialised 0 VK_SAMPLE_COUNT_1_BIT))) = 2 /\
  length (gBufferColor (m_res (example_initialised 0 VK_SAMPLE_COUNT_1_BIT))) = 0 /\
  getColorImage (example_initialised 0 VK_SAMPLE_COUNT_1_BIT) 0 = None /\
  update example_cmd example_size VK_SAMPLE_COUNT_1_BIT
    (example_initialised 0 VK_SAMPLE_COUNT_1_BIT, world0 (example_failing 0)) =
    Ret VK_ERROR_OUT_OF_DEVICE_MEMORY
      (example_updated 0 VK_SAMPLE_COUNT_1_BIT (example_failing 0)) /\
  update example_cmd example_size VK_SAMPLE_COUNT_1_BIT
    (example_updated 0 VK_SAMPLE_COUNT_1_BIT (example_failing 0)) =
    Ret VK_SUCCESS (example_updated 0 VK_SAMPLE_COUNT_1_BIT (example_failing 0)) /\
  getColorImage (fst (example_updated 0 VK_SAMPLE_COUNT_1_BIT (example_failing 0))) 0 =
    Some VK_NULL_HANDLE /\
  getColorImage (fst (example_updated 0 VK_SAMPLE_COUNT_1_BIT (example_failing 0))) 1 =
    Some VK_NULL_HANDLE /\
  depthFormat (m_info (fst (example_updated 0 VK_SAMPLE_COUNT_1_BIT (example_failing 0)))) <>
    VK_FORMAT_UNDEFINED /\
  getDepthImage (fst (example_updated 0 VK_SAMPLE_COUNT_1_BIT (example_failing 0))) =
    VK_NULL_HANDLE.
Proof.
  repeat match goal with |- _ /\ _ => split end;
    vm_compute; first [reflexivity | discriminate].
Qed.

(** C7 as stated does not hold of every successful update.  With a
    descriptor pool configured, the update to the size the manager has
    reports success and there is no descriptor set and no UI view.  And
    after an update whose descriptor-set allocation failed, the same
    update again reports success while both descriptor sets are null and
    none was ever written. *)
Lemma update_success_without_descriptor_sets :
  (deinit;; init (example_info example_pool VK_SAMPLE_COUNT_1_BIT);;
   update_size example_cmd VkExtent2D_default) (GBuffer_default, example_world) =
    Ret VK_SUCCESS (example_initialised example_pool VK_SAMPLE_COUNT_1_BIT, example_world) /\
  descriptorPool (m_info (example_initialised example_pool VK_SAMPLE_COUNT_1_BIT)) <>
    VK_NULL_HANDLE /\
  length (colorFormats (m_info (example_initialised example_pool VK_SAMPLE_COUNT_1_BIT))) = 2 /\
  uiDescriptorSets (m_res (example_initialised example_pool VK_SAMPLE_COUNT_1_BIT)) = [] /\
  uiImageViews (m_res (example_initialised example_pool VK_SAMPLE_COUNT_1_BIT)) = [] /\
  update example_cmd example_size VK_SAMPLE_COUNT_1_BIT
    (example_initialised example_pool VK_SAMPLE_COUNT_1_BIT,
     world0 (fails_at 6 VK_ERROR_OUT_OF_POOL_MEMORY)) =
    Ret VK_ERROR_OUT_OF_POOL_MEMORY
      (example_updated example_pool VK_SAMPLE_COUNT_1_BIT
         (fails_at 6 VK_ERROR_OUT_OF_POOL_MEMORY)) /\
  update example_cmd example_size VK_SAMPLE_COUNT_1_BIT
    (example_updated example_pool VK_SAMPLE_COUNT_1_BIT
       (fails_at 6 VK_ERROR_OUT_OF_POOL_MEMORY)) =
    Ret VK_SUCCESS
      (example_updated example_pool VK_SAMPLE_COUNT_1_BIT
         (fails_at 6 VK_ERROR_OUT_OF_POOL_MEMORY)) /\
  uiDescriptorSets
    (m_res (fst (example_updated example_pool VK_SAMPLE_COUNT_1_BIT
                   (fails_at 6 VK_ERROR_OUT_OF_POOL_MEMORY)))) =
    [VK_NULL_HANDLE; VK_NULL_HANDLE] /\
  Forall no_descriptor_write
    (trace (snd (example_updated example_pool VK_SAMPLE_COUNT_1_BIT
                   (fails_at 6 VK_ERROR_OUT_OF_POOL_MEMORY)))).
Proof.
  repeat match goal with |- _ /\ _ => split end;
    vm_compute; first [reflexivity | discriminate | repeat constructor].
Qed.

(** * The theorems at concrete runs *)

Lemma example_reachable pool sc : reachable (example_initialised pool sc).
Proof.
  exact (reach_init GBuffer_default example_world (example_info pool sc) _ example_world
           reach_fresh eq_refl).
Defined.


Lemma update_same_is_noop_witness :
  update example_cmd example_size VK_SAMPLE_COUNT_4_BIT
    (fst (example_updated example_pool VK_SAMPLE_COUNT_4_BIT all_succeed),
     snd (example_updated example_pool VK_SAMPLE_COUNT_4_BIT all_succeed)) =
  Ret VK_SUCCESS
    (fst (example_updated example_pool VK_SAMPLE_COUNT_4_BIT all_succeed),
     snd (example_updated example_pool VK_SAMPLE_COUNT_4_BIT all_succeed)).
Proof.
  apply update_same_is_noop; vm_compute; reflexivity.
Defined.

Lemma update_builds_attachments_witness :
  exists alloc evs,
    allocator (example_info 0 VK_SAMPLE_COUNT_4_BIT) = Some alloc /\
    trace (snd (example_updated 0 VK_SAMPLE_COUNT_4_BIT all_succeed)) =
      trace example_world ++ evs /\
    colorFormats (m_info (fst (example_updated 0 VK_SAMPLE_COUNT_4_BIT all_succeed))) =
      colorFormats (example_info 0 VK_SAMPLE_COUNT_4_BIT) /\
    depthFormat (m_info (fst (example_updated 0 VK_SAMPLE_COUNT_4_BIT all_succeed))) =
      VK_FORMAT_D32_SFLOAT /\
    sampleCount (m_info (fst (example_updated 0 VK_SAMPLE_COUNT_4_BIT all_succeed))) =
      VK_SAMPLE_COUNT_4_BIT /\
    length (gBufferColor (m_res (fst (example_updated 0 VK_SAMPLE_COUNT_4_BIT all_succeed)))) = 2 /\
    (forall i, i < 2 ->
       color_built (getDevice alloc)
         (m_info (fst (example_updated 0 VK_SAMPLE_COUNT_4_BIT all_succeed))) example_size
         (m_res (fst (example_updated 0 VK_SAMPLE_COUNT_4_BIT all_succeed))) evs i) /\
    (length (gBufferColorMSAA (m_res (fst (example_updated 0 VK_SAMPLE_COUNT_4_BIT all_succeed)))) = 2 /\
     forall i, i < 2 ->
       msaa_built (m_info (fst (example_updated 0 VK_SAMPLE_COUNT_4_BIT all_succeed))) example_size
         (m_res (fst (example_updated 0 VK_SAMPLE_COUNT_4_BIT all_succeed))) evs i) /\
    depth_built (m_info (fst (example_updated 0 VK_SAMPLE_COUNT_4_BIT all_succeed))) example_size
      (m_res (fst (example_updated 0 VK_SAMPLE_COUNT_4_BIT all_succeed))) evs.
Proof.
  apply (update_builds_attachments example_cmd example_size VK_SAMPLE_COUNT_4_BIT
           (example_initialised 0 VK_SAMPLE_COUNT_4_BIT) example_world).
  - apply example_reachable.
  - vm_compute. reflexivity.
  - vm_compute. intros [H _]. discriminate H.
  - vm_compute. reflexivity.
Defined.

Lemma update_failed_then_noop_witness :
  (exists o1 w1,
     m_size o1 = example_size /\ sampleCount (m_info o1) = VK_SAMPLE_COUNT_4_BIT /\
     initResources example_cmd (o1, w1) =
       Ret VK_ERROR_OUT_OF_DEVICE_MEMORY
         (fst (example_updated 0 VK_SAMPLE_COUNT_4_BIT (example_failing 4)),
          snd (example_updated 0 VK_SAMPLE_COUNT_4_BIT (example_failing 4)))) /\
  m_size (fst (example_updated 0 VK_SAMPLE_COUNT_4_BIT (example_failing 4))) = example_size /\
  sampleCount (m_info (fst (example_updated 0 VK_SAMPLE_COUNT_4_BIT (example_failing 4)))) =
    VK_SAMPLE_COUNT_4_BIT /\
  forall cmd2,
    update cmd2 example_size VK_SAMPLE_COUNT_4_BIT
      (fst (example_updated 0 VK_SAMPLE_COUNT_4_BIT (example_failing 4)),
       snd (example_updated 0 VK_SAMPLE_COUNT_4_BIT (example_failing 4))) =
    Ret VK_SUCCESS
      (fst (example_updated 0 VK_SAMPLE_COUNT_4_BIT (example_failing 4)),
       snd (example_updated 0 VK_SAMPLE_COUNT_4_BIT (example_failing 4))).
Proof.
  apply (update_failed_then_noop example_cmd example_size VK_SAMPLE_COUNT_4_BIT
           (example_initialised 0 VK_SAMPLE_COUNT_4_BIT) (world0 (example_failing 4))).
  - vm_compute. reflexivity.
  - vm_compute. discriminate.
Defined.


Lemma update_builds_ui_witness :
  exists alloc evs,
    allocator (example_info example_pool VK_SAMPLE_COUNT_1_BIT) = Some alloc /\
    trace (snd (example_updated example_pool VK_SAMPLE_COUNT_1_BIT all_succeed)) =
      trace example_world ++ evs /\
    (forall i, i < 2 ->
       exists col uiv viewInfo,
         gBufferColor (m_res (fst (example_updated example_pool VK_SAMPLE_COUNT_1_BIT all_succeed)))
           !! i = Some col /\
         uiImageViews (m_res (fst (example_updated example_pool VK_SAMPLE_COUNT_1_BIT all_succeed)))
           !! i = Some uiv /\
         uiv <> VK_NULL_HANDLE /\
         EvCreateImageView (getDevice alloc) viewInfo VK_SUCCESS uiv ∈ evs /\
         ivci_image viewInfo = image col /\
         comp_a (components viewInfo) = VK_COMPONENT_SWIZZLE_ONE) /\
    length (uiDescriptorSets
              (m_res (fst (example_updated example_pool VK_SAMPLE_COUNT_1_BIT all_succeed)))) = 2 /\
    Forall (fun h => h <> VK_NULL_HANDLE)
      (uiDescriptorSets
         (m_res (fst (example_updated example_pool VK_SAMPLE_COUNT_1_BIT all_succeed)))) /\
    m_descLayout (fst (example_updated example_pool VK_SAMPLE_COUNT_1_BIT all_succeed)) <>
      VK_NULL_HANDLE /\
    exists pre,
      evs = pre ++
        [EvCreateDescriptorSetLayout (getDevice alloc) ui_layout_info VK_SUCCESS
           (m_descLayout (fst (example_updated example_pool VK_SAMPLE_COUNT_1_BIT all_succeed)));
         EvAllocateDescriptorSets (getDevice alloc)
           {| dsai_sType := VK_STRUCTURE_TYPE_DESCRIPTOR_SET_ALLOCATE_INFO;
              dsai_descriptorPool := example_pool;
              descriptorSetCount := 2;
              pSetLayouts :=
                replicate 2
                  (m_descLayout
                     (fst (example_updated example_pool VK_SAMPLE_COUNT_1_BIT all_succeed))) |}
           VK_SUCCESS
           (uiDescriptorSets
              (m_res (fst (example_updated example_pool VK_SAMPLE_COUNT_1_BIT all_succeed))));
         EvUpdateDescriptorSets (getDevice alloc) 2
           (ui_writes (example_info example_pool VK_SAMPLE_COUNT_1_BIT)
              (uiDescriptorSets
                 (m_res (fst (example_updated example_pool VK_SAMPLE_COUNT_1_BIT all_succeed))))
              (uiImageViews
                 (m_res (fst (example_updated example_pool VK_SAMPLE_COUNT_1_BIT all_succeed)))))].
Proof.
  apply (update_builds_ui example_cmd example_size VK_SAMPLE_COUNT_1_BIT
           (example_initialised example_pool VK_SAMPLE_COUNT_1_BIT) example_world).
  - apply example_reachable.
  - vm_compute. reflexivity.
  - vm_compute. intros [H _]. discriminate H.
  - vm_compute. reflexivity.
Defined.

Lemma move_transfers_everything_witness :
  (example_store !! 1%positive = Some GBuffer_default ->
   move_assign 1 2 example_store =
     Some (<[1%positive := fst (example_updated example_pool VK_SAMPLE_COUNT_4_BIT all_succeed)]>
             (<[2%positive := GBuffer_default]> example_store))) /\
  (example_store !! 1%positive = None ->
   move_construct 1 2 example_store =
     Some (<[1%positive := fst (example_updated example_pool VK_SAMPLE_COUNT_4_BIT all_succeed)]>
             (<[2%positive := GBuffer_default]> example_store))) /\
  move_assign 2 2 example_store = Some example_store /\
  (<[1%positive := fst (example_updated example_pool VK_SAMPLE_COUNT_4_BIT all_succeed)]>
     (<[2%positive := GBuffer_default]> example_store)) !! 1%positive =
    Some (fst (example_updated example_pool VK_SAMPLE_COUNT_4_BIT all_succeed)) /\
  (<[1%positive := fst (example_updated example_pool VK_SAMPLE_COUNT_4_BIT all_succeed)]>
     (<[2%positive := GBuffer_default]> example_store)) !! 2%positive = Some GBuffer_default /\
  (forall p, p ≠ 1%positive -> p ≠ 2%positive ->
     (<[1%positive := fst (example_updated example_pool VK_SAMPLE_COUNT_4_BIT all_succeed)]>
        (<[2%positive := GBuffer_default]> example_store)) !! p = example_store !! p).
Proof.
  apply (move_transfers_everything example_store 1 2
           (fst (example_updated example_pool VK_SAMPLE_COUNT_4_BIT all_succeed))).
  - vm_compute. reflexivity.
  - discriminate.
Defined.

Lemma init_update_update_deinit_witness :
  exists w',
    (init (example_info example_pool VK_SAMPLE_COUNT_4_BIT);;
     update_size example_cmd example_size;;
     update_size example_cmd example_larger;;
     deinit) (GBuffer_default, example_world) = Ret tt (GBuffer_default, w') /\
    deinit (GBuffer_default, w') = Ret tt (GBuffer_default, w') /\
    forall o w0, allocator (m_info o) = None ->
      deinit (o, w0) = Ret tt (GBuffer_default, w0).
Proof.
  apply (init_update_update_deinit (example_info example_pool VK_SAMPLE_COUNT_4_BIT)
           example_alloc example_cmd example_size example_larger example_world).
  reflexivity.
Defined.

Lemma getAspectRatio_spec_witness :
  getAspectRatio (fst (example_updated example_pool VK_SAMPLE_COUNT_4_BIT all_succeed)) =
    f32_div (float_of_uint32 600) (float_of_uint32 480) /\
  getAspectRatio GBuffer_default = f32_one.
Proof.
  split.
  - apply (proj2 (getAspectRatio_spec
                    (fst (example_updated example_pool VK_SAMPLE_COUNT_4_BIT all_succeed)))).
    vm_compute. reflexivity.
  - apply (proj1 (getAspectRatio_spec GBuffer_default)). reflexivity.
Defined.

(** * Further properties of the entry points *)

(** ** update and the stored request *)

Lemma extent_eq (a b : VkExtent2D) : width a = width b -> height a = height b -> a = b.
Proof. destruct a, b. simpl. by intros -> ->. Qed.

Lemma set_sampleCount_same i : set_sampleCount (sampleCount i) i = i.
Proof. by destruct i. Qed.

(** What every update that returns leaves stored. *)
Lemma update_frame cmd newSize newSampleCount o w res o' w' :
  update cmd newSize newSampleCount (o, w) = Ret res (o', w') ->
  m_size o' = newSize /\ m_info o' = set_sampleCount newSampleCount (m_info o).
Proof.
  intros Hrun.
  destruct (decide (requested newSize newSampleCount o)) as [Hreq|Hreq].
  - rewrite update_requested_run in Hrun by done. simplify_eq.
    destruct Hreq as (Hw & Hh & ->). split.
    + symmetry. by apply extent_eq.
    + by rewrite set_sampleCount_same.
  - destruct (allocator (m_info o)) as [alloc|] eqn:Ha;
      [|by rewrite update_null_allocator in Hrun by auto using not_requested].
    rewrite (update_rebuild_run _ _ _ _ _ alloc) in Hrun by auto using not_requested.
    rewrite (deinitResources_run _ _ alloc) in Hrun by done.
    destruct (initResources_frame _ _ _ _ Hrun) as [Hinfo Hsize]. simpl in Hinfo, Hsize.
    by rewrite Hinfo, Hsize.
Qed.

(** X1: whatever update returns, and on whichever path, the manager
    afterwards reports the requested size and sample count, and the rest
    of its configuration (allocator, colour formats, depth format,
    sampler, descriptor pool) is the one it had. *)
Theorem update_stores_request cmd newSize newSampleCount o w res o' w' :
  update cmd newSize newSampleCount (o, w) = Ret res (o', w') ->
  getSize o' = newSize /\
  getSampleCount o' = newSampleCount /\
  getDepthFormat o' = getDepthFormat o /\
  (forall i, getColorFormat o' i = getColorFormat o i) /\
  allocator (m_info o') = allocator (m_info o) /\
  imageSampler (m_info o') = imageSampler (m_info o) /\
  descriptorPool (m_info o') = descriptorPool (m_info o).
Proof.
  intros Hrun. destruct (update_frame _ _ _ _ _ _ _ _ Hrun) as [Hsize Hinfo].
  unfold getSize, getSampleCount, getDepthFormat, getColorFormat.
  rewrite Hsize, Hinfo. simpl. repeat split.
Qed.

(** X2: the overload of update without a sample count never changes the
    configuration; it stores the size; and with the stored width and
    height it returns VK_SUCCESS and leaves the manager and the world
    as they are. *)
Theorem update_size_keeps_configuration cmd newSize o w :
  (forall res o' w',
     update_size cmd newSize (o, w) = Ret res (o', w') ->
     m_info o' = m_info o /\ getSize o' = newSize) /\
  (width newSize = width (m_size o) -> height newSize = height (m_size o) ->
   update_size cmd newSize (o, w) = Ret VK_SUCCESS (o, w)).
Proof.
  split.
  - intros res o' w' Hrun. unfold update_size, mbind, M_bind, this in Hrun. simpl in Hrun.
    destruct (update_frame _ _ _ _ _ _ _ _ Hrun) as [Hsize Hinfo].
    by rewrite Hinfo, set_sampleCount_same.
  - intros Hw Hh. unfold update_size, mbind, M_bind, this. simpl.
    by apply update_requested_run.
Qed.

(** X3: from a reachable state update never leaves early through an
    error path of its own and is undefined in exactly one case: the
    request differs from what is stored and the allocator is null. *)
Theorem update_undefined_iff cmd newSize newSampleCount o w :
  reachable o ->
  (update cmd newSize newSampleCount (o, w) = Undef <->
   ~ requested newSize newSampleCount o /\ allocator (m_info o) = None) /\
  (forall res s', update cmd newSize newSampleCount (o, w) <> Early res s').
Proof.
  intros Hreach. pose proof (reachable_consistent _ Hreach) as Hcons.
  destruct (decide (requested newSize newSampleCount o)) as [Hreq|Hreq].
  { rewrite update_requested_run by done. split; [|done]. split; [done|tauto]. }
  destruct (allocator (m_info o)) as [alloc|] eqn:Ha.
  - destruct (update_rebuild_outcome cmd newSize newSampleCount o w alloc Hreq Ha Hcons)
      as (res & o' & w' & -> & _). split; [|done]. split; [done|]. by intros [_ ?].
  - rewrite update_null_allocator by auto using not_requested. split; [|done]. done.
Qed.

(** ** deinit and the teardown *)

Lemma frees_ui_torn_down o : frees_ui (torn_down o) = false.
Proof.
  unfold frees_ui at 1. simpl. destruct (frees_ui o) eqn:Hf.
  - rewrite bool_decide_eq_true_2 by done. apply andb_false_r.
  - exact Hf.
Qed.

Lemma teardown_events_torn_down alloc o : teardown_events alloc (torn_down o) = [].
Proof.
  unfold teardown_events. rewrite frees_ui_torn_down. simpl.
  by destruct (negb (image (gBufferDepth (m_res o)) =? 0)%N) eqn:Hd; simpl; rewrite ?Hd.
Qed.

Lemma torn_down_torn_down o : torn_down (torn_down o) = torn_down o.
Proof.
  unfold torn_down at 1. rewrite frees_ui_torn_down. simpl.
  assert ((if negb (image (if negb (image (gBufferDepth (m_res o)) =? 0)%N
                           then Image_default else gBufferDepth (m_res o)) =? 0)%N
           then Image_default
           else if negb (image (gBufferDepth (m_res o)) =? 0)%N
                then Image_default else gBufferDepth (m_res o)) =
          (if negb (image (gBufferDepth (m_res o)) =? 0)%N
           then Image_default else gBufferDepth (m_res o))) as ->.
  { by destruct (negb (image (gBufferDepth (m_res o)) =? 0)%N) eqn:Hd; simpl; rewrite ?Hd. }
  reflexivity.
Qed.

(** The run of deinit. *)
Lemma deinit_result o w :
  deinit (o, w) =
    Ret tt (GBuffer_default,
            match allocator (m_info o) with
            | Some alloc => logs (teardown_events alloc o) w
            | None => w
            end).
Proof.
  unfold deinit. unfold mbind at 1, M_bind at 1.
  destruct (allocator (m_info o)) as [alloc|] eqn:Ha.
  - by rewrite (deinitResources_run _ _ alloc).
  - by rewrite deinitResources_null.
Qed.

(** X4: deinit always returns and leaves the manager as a newly
    constructed one.  With an allocator, what it does is exactly: free
    the descriptor sets and destroy their layout (only with a pool and at
    least one set), destroy every colour image, every multisampled image,
    the depth image if it is not null, and every UI view, in this order;
    it does not wait for the device and records no command.  Without an
    allocator it calls nothing. *)
Theorem deinit_exact o w :
  deinit (o, w) =
    Ret tt (GBuffer_default,
            match allocator (m_info o) with
            | Some alloc => logs (teardown_events alloc o) w
            | None => w
            end) /\
  forall alloc, Forall teardown_event (teardown_events alloc o).
Proof.
  split; [|intros; apply teardown_events_kind].
  unfold deinit. unfold mbind at 1, M_bind at 1.
  destruct (allocator (m_info o)) as [alloc|] eqn:Ha.
  - by rewrite (deinitResources_run _ _ alloc).
  - by rewrite deinitResources_null.
Qed.

(** X5: a teardown leaves nothing to tear down: run twice in a row, the
    second run makes no call and changes nothing. *)
Theorem deinitResources_idempotent s :
  (deinitResources;; deinitResources) s = deinitResources s.
Proof.
  destruct s as [o w]. unfold mbind, M_bind.
  destruct (allocator (m_info o)) as [alloc|] eqn:Ha.
  - rewrite (deinitResources_run _ _ alloc) by done.
    rewrite (deinitResources_run _ _ alloc) by done.
    by rewrite teardown_events_torn_down, torn_down_torn_down, logs_nil.
  - rewrite deinitResources_null by done. by rewrite deinitResources_null.
Qed.

(** ** init, the destructor and the usage example *)

Lemma init_run createInfo o w :
  init createInfo (o, w) =
  if bool_decide (colorFormats (m_info o) = []) then Ret tt (set_m_info createInfo o, w)
  else Undef.
Proof. unfold init, mbind, M_bind, this. simpl. by destruct (bool_decide _). Qed.

Lemma update_size_run cmd newSize o w :
  update_size cmd newSize (o, w) = update cmd newSize (sampleCount (m_info o)) (o, w).
Proof. done. Qed.

(** An update never leaves through [Early]: it returns or is undefined. *)
Lemma update_not_early cmd newSize newSampleCount s res s' :
  update cmd newSize newSampleCount s <> Early res s'.
Proof.
  destruct s as [o w].
  destruct (decide (requested newSize newSampleCount o)) as [Hreq|Hreq].
  { by rewrite update_requested_run. }
  destruct (allocator (m_info o)) as [alloc|] eqn:Ha.
  - rewrite (update_rebuild_run _ _ _ _ _ alloc) by auto using not_requested.
    rewrite (deinitResources_run _ _ alloc) by done.
    rewrite initResources_run. by destruct (initResources_body _ _) as [[] ?| |].
  - by rewrite update_null_allocator by auto using not_requested.
Qed.

(** X6: init is guarded by the colour formats alone.  After deinit a
    manager can always be initialised again and is then exactly a new
    manager with that configuration; without the deinit, a second init
    trips the assertion when the manager holds colour formats, whatever
    updates happened in between, and goes through when it holds none,
    overwriting the configuration, allocator included. *)
Theorem init_needs_deinit createInfo1 createInfo2 cmd newSize o w :
  (exists w', (deinit;; init createInfo2) (o, w) =
                Ret tt (set_m_info createInfo2 GBuffer_default, w')) /\
  (colorFormats createInfo1 <> [] ->
   (init createInfo1;; update_size cmd newSize;; init createInfo2) (GBuffer_default, w) =
     Undef) /\
  (colorFormats createInfo1 = [] ->
   (init createInfo1;; init createInfo2) (GBuffer_default, w) =
     Ret tt (set_m_info createInfo2 GBuffer_default, w)).
Proof.
  split; [|split].
  - pose proof (deinit_result o w) as Hd. eexists.
    unfold mbind at 1, M_bind at 1. rewrite Hd. by rewrite init_run.
  - intros Hne. unfold mbind, M_bind. rewrite init_run. simpl.
    rewrite update_size_run.
    destruct (update _ _ _ _) as [res [o' w']|res s'|] eqn:Hrun; [| |done].
    + destruct (update_frame _ _ _ _ _ _ _ _ Hrun) as [_ Hinfo].
      rewrite init_run, Hinfo. simpl. by rewrite bool_decide_eq_false_2.
    + by apply update_not_early in Hrun.
  - intros Hnil. unfold mbind, M_bind. rewrite init_run. simpl.
    rewrite init_run. simpl. by rewrite bool_decide_eq_true_2.
Qed.

Lemma destroy_GBuffer_run o w :
  destroy_GBuffer (o, w) =
  if bool_decide (allocator (m_info o) = None) then Ret tt (o, w) else Undef.
Proof. unfold destroy_GBuffer, mbind, M_bind, this. simpl. by destruct (bool_decide _). Qed.

(** X7: the destructor's assertion holds after deinit, from every state;
    it fails for a manager that was initialised with an allocator and
    not deinitialised, whatever update did in between. *)
Theorem destructor_needs_deinit createInfo alloc cmd newSize o w :
  (exists w', (deinit;; destroy_GBuffer) (o, w) = Ret tt (GBuffer_default, w')) /\
  (allocator createInfo = Some alloc ->
   (init createInfo;; update_size cmd newSize;; destroy_GBuffer) (GBuffer_default, w) =
     Undef).
Proof.
  split.
  - pose proof (deinit_result o w) as Hd. eexists.
    unfold mbind at 1, M_bind at 1. rewrite Hd. by rewrite destroy_GBuffer_run.
  - intros Ha. unfold mbind, M_bind. rewrite init_run. simpl. rewrite update_size_run.
    destruct (update _ _ _ _) as [res [o' w']|res s'|] eqn:Hrun; [| |done].
    + destruct (update_frame _ _ _ _ _ _ _ _ Hrun) as [_ Hinfo].
      rewrite destroy_GBuffer_run, Hinfo. simpl. rewrite Ha. done.
    + by apply update_not_early in Hrun.
Qed.

(** ** Moves *)

Lemma swap_members_swap x y : swap_members x y = (y, x).
Proof. by destruct x, y. Qed.

(** X8: move assignment between distinct objects is a swap, allowed
    exactly when the destination has no allocator: the destination gets
    everything the source had, the source gets everything the
    destination had (which need not be empty), and moving back restores
    the store.  With an allocator in the destination the assertion
    fails. *)
Theorem move_assign_swaps (st : gmap positive GBuffer) (self other : positive)
    (dst src : GBuffer) :
  st !! self = Some dst ->
  st !! other = Some src ->
  self ≠ other ->
  (allocator (m_info dst) = None ->
   move_assign self other st = Some (<[self := src]> (<[other := dst]> st)) /\
   (move_assign self other st ≫= move_assign other self) = Some st) /\
  (allocator (m_info dst) <> None -> move_assign self other st = None).
Proof.
  intros Hself Hother Hne.
  assert (forall a, allocator (m_info dst) = a ->
            move_assign self other st =
            if bool_decide (a = None) then Some (<[self := src]> (<[other := dst]> st))
            else None) as Hrun.
  { intros a <-. unfold move_assign. rewrite bool_decide_eq_true_2 by done.
    rewrite Hself, Hother, swap_members_swap. done. }
  split.
  - intros Ha. rewrite (Hrun None Ha). simpl. split; [done|].
    unfold move_assign. rewrite bool_decide_eq_true_2 by done.
    rewrite lookup_insert_ne, lookup_insert_eq by done.
    rewrite lookup_insert_eq. rewrite Ha, swap_members_swap.
    rewrite bool_decide_eq_true_2 by done. f_equal.
    apply map_eq. intros i.
    destruct (decide (i = other)) as [->|Hio].
    { by rewrite lookup_insert_eq. }
    rewrite lookup_insert_ne by done.
    destruct (decide (i = self)) as [->|His].
    { by rewrite lookup_insert_eq. }
    by rewrite !lookup_insert_ne.
  - intros Ha. rewrite (Hrun _ eq_refl). by rewrite bool_decide_eq_false_2.
Qed.

(** ** The shape of the bundle after construction, finished or not *)

Global Instance steady_ok : RelOK steady (fun _ => steady).
Proof.
  split; unfold steady.
  - intros s. repeat split.
  - intros s1 s2 s3 ? ?. destruct_and!. repeat split; congruence.
  - intros _ s1 s2 s3 ? ?. destruct_and!. repeat split; congruence.
Qed.

Lemma steady_trans s1 s2 s3 : steady s1 s2 -> steady s2 s3 -> steady s1 s3.
Proof. apply rel_trans. Qed.

Lemma sat_emit_steady e : sat steady (fun _ => steady) (emit e).
Proof. intros [o w]. simpl. unfold steady. simpl. repeat split. Qed.
Lemma sat_fresh_steady : sat steady (fun _ => steady) fresh.
Proof. intros [o w]. simpl. unfold steady. simpl. repeat split. Qed.
Lemma sat_driver_steady : sat steady (fun _ => steady) driver_result.
Proof. intros [o w]. simpl. unfold steady. simpl. repeat split. Qed.
Lemma sat_modify_res_steady f :
  (forall q, length (gBufferColor (f q)) = length (gBufferColor q) /\
             length (gBufferColorMSAA (f q)) = length (gBufferColorMSAA q) /\
             length (uiImageViews (f q)) = length (uiImageViews q) /\
             uiDescriptorSets (f q) = uiDescriptorSets q) ->
  sat steady (fun _ => steady) (modify_res f).
Proof.
  intros Hf [o w]. simpl. unfold steady. simpl.
  destruct (Hf (m_res o)) as (-> & -> & -> & ->). repeat split.
Qed.

Create HintDb sat_steady discriminated.
#[global] Hint Resolve sat_emit_steady sat_fresh_steady sat_driver_steady : sat_steady.

Ltac sat_steady :=
  sat_syntax ltac:(first [ solve [eauto with sat_steady]
                         | apply sat_modify_res_steady; intros ?; simpl;
                           rewrite ?length_insert; repeat split; reflexivity ]).

Lemma color_loop_steady device isMsaa n :
  sat steady (fun _ => steady) (forM_ (seq 0 n) (initResources_color device isMsaa)).
Proof.
  unfold initResources_color, modify_color_at, set_color_at, set_msaa_at, set_uiView_at,
    color_at, msaa_at, uiView_at, createImage, vkCreateImageView, NVVK_FAIL_RETURN,
    setObjectName.
  sat_steady.
Qed.

Lemma initResources_depth_steady : sat steady (fun _ => steady) initResources_depth.
Proof.
  unfold initResources_depth, createImage, NVVK_FAIL_RETURN, setObjectName. sat_steady.
Qed.

Lemma initResources_clear_steady cmd layout isMsaa n :
  sat steady (fun _ => steady) (initResources_clear cmd layout isMsaa n).
Proof.
  unfold initResources_clear, clear_barriers_round, clear_round, final_barriers_round,
    modify_color_at, modify_msaa_at, set_color_at, set_msaa_at,
    color_at, msaa_at, vkCmdPipelineBarrier2, vkCmdClearColorImage,
    vkCmdClearDepthStencilImage.
  sat_steady.
Qed.

Lemma bind_run {A B} (m : M A) (k : A -> M B) s :
  (m ≫= k) s =
  match m s with
  | Ret x s' => k x s'
  | Early res s' => Early res s'
  | Undef => Undef
  end.
Proof. reflexivity. Qed.

Lemma sat_run {A} R E (m : M A) s :
  sat R E m ->
  match m s with
  | Ret _ s' => R s s'
  | Early res s' => E res s s'
  | Undef => True
  end.
Proof. intros H. apply H. Qed.

(** The object with which the four blocks of initResources start. *)
Lemma initResources_body_run cmd o w alloc :
  allocator (m_info o) = Some alloc ->
  initResources_body cmd (o, w) =
  (forM_ (seq 0 (N.to_nat (uint32_of_size (length (colorFormats (m_info o))))))
     (initResources_color (getDevice alloc) (1 <? sampleCount (m_info o))%N);;
   initResources_depth;;
   initResources_clear cmd VK_IMAGE_LAYOUT_SHADER_READ_ONLY_OPTIMAL
     (1 <? sampleCount (m_info o))%N
     (N.to_nat (uint32_of_size (length (colorFormats (m_info o)))));;
   initResources_ui (getDevice alloc) VK_IMAGE_LAYOUT_SHADER_READ_ONLY_OPTIMAL
     (uint32_of_size (length (colorFormats (m_info o)))))
  (set_m_res
     {| gBufferColor :=
          resize (N.to_nat (uint32_of_size (length (colorFormats (m_info o)))))
            Image_default (gBufferColor (m_res o));
        gBufferColorMSAA :=
          (if (1 <? sampleCount (m_info o))%N
           then resize (N.to_nat (uint32_of_size (length (colorFormats (m_info o)))))
                  Image_default (gBufferColorMSAA (m_res o))
           else gBufferColorMSAA (m_res o));
        gBufferDepth := gBufferDepth (m_res o);
        uiImageViews :=
          resize (N.to_nat (uint32_of_size (length (colorFormats (m_info o)))))
            VK_NULL_HANDLE (uiImageViews (m_res o));
        uiDescriptorSets := uiDescriptorSets (m_res o) |} o, w).
Proof.
  intros Ha. unfold initResources_body. rewrite bind_run. simpl. rewrite Ha. simpl.
  by destruct (1 <? sampleCount (m_info o))%N.
Qed.

Lemma initResources_body_shape cmd o w :
  match initResources_body cmd (o, w) with
  | Ret _ s' | Early _ s' => constructed_shape o s'
  | Undef => True
  end.
Proof.
  destruct (allocator (m_info o)) as [alloc|] eqn:Ha.
  2:{ unfold initResources_body. rewrite bind_run. simpl. by rewrite Ha. }
  rewrite (initResources_body_run _ _ _ alloc Ha).
  set (n := N.to_nat (uint32_of_size (length (colorFormats (m_info o))))).
  set (isMsaa := (1 <? sampleCount (m_info o))%N).
  match goal with |- context [(_ (set_m_res ?q o, w))] => set (q1 := q) end.
  assert (forall s, steady (set_m_res q1 o, w) s -> constructed_shape o s) as Hdone.
  { intros [o' w'] (Hc & Hm & Hu & Hs & Hl & Hi & _). unfold constructed_shape.
    cbn [fst snd] in *. fold n isMsaa. rewrite Hc, Hm, Hu, Hs, Hl, Hi. simpl.
    rewrite !length_resize. split; [done|]. split; [done|]. split; [done|]. split.
    - destruct isMsaa; [by rewrite length_resize|done].
    - by left. }
  rewrite bind_run.
  pose proof (sat_run _ _ _ (set_m_res q1 o, w)
                (color_loop_steady (getDevice alloc) isMsaa n)) as H1.
  destruct (forM_ _ _ _) as [[] s2|res s2|]; [|by apply Hdone|done].
  rewrite bind_run.
  pose proof (sat_run _ _ _ s2 initResources_depth_steady) as H2.
  destruct (initResources_depth s2) as [[] s3|res s3|];
    [|by apply Hdone; eapply steady_trans|done].
  rewrite bind_run.
  pose proof (sat_run _ _ _ s3
                (initResources_clear_steady cmd VK_IMAGE_LAYOUT_SHADER_READ_ONLY_OPTIMAL
                   isMsaa n)) as H3.
  destruct (initResources_clear _ _ _ _ s3) as [[] [o4 w4]|res s4|];
    [|by apply Hdone; do 2 (eapply steady_trans; [eassumption|])|done].
  assert (steady (set_m_res q1 o, w) (o4, w4)) as H4
    by (by do 2 (eapply steady_trans; [eassumption|])).
  pose proof (Hdone _ H4) as (Hi4 & Hc4 & Hu4 & Hm4 & _).
  destruct H4 as (_ & _ & _ & Hs4 & Hl4 & _). cbn [fst snd] in *.
  pose proof (initResources_ui_wp (getDevice alloc)
                (uint32_of_size (length (colorFormats (m_info o)))) o4 w4 Hu4) as Hui.
  unfold wp in Hui.
  destruct (initResources_ui _ _ _ _) as [[] [o' w']|res [o' w']|]; [| |done].
  - unfold constructed_shape. cbn [fst snd]. fold n isMsaa. rewrite Hi4 in Hui.
    destruct (N.eqb_spec (descriptorPool (m_info o)) 0) as [Hp|Hp].
    + simplify_eq. repeat split; try done. left. by rewrite Hs4, Hl4.
    + destruct Hui as (new & _ & (Hc' & Hm' & _ & Hu' & Hi' & _) & (_ & Hlen & _)).
      cbn [fst snd] in *.
      rewrite Hc', Hm', Hu', Hi'. repeat split; try done. by right.
  - unfold constructed_shape. cbn [fst snd]. fold n isMsaa.
    destruct Hui as (new & _ & (Hc' & Hm' & _ & Hu' & Hi' & _) & _ & Hp & Hlen).
    cbn [fst snd] in *.
    rewrite Hc', Hm', Hu', Hi'. rewrite Hi4 in Hp. repeat split; try done. by right.
Qed.

(** The rebuild path of update, without any assumption on the state. *)
Lemma update_rebuild_prepared cmd newSize newSampleCount o w alloc :
  ~ requested newSize newSampleCount o ->
  allocator (m_info o) = Some alloc ->
  update cmd newSize newSampleCount (o, w) =
  initResources cmd
    (prepared newSize newSampleCount o,
     logs (teardown_events alloc o) (log (EvDeviceWaitIdle (getDevice alloc)) w)).
Proof.
  intros Hreq Ha.
  rewrite (update_rebuild_run _ _ _ _ _ alloc) by auto using not_requested.
  by rewrite (deinitResources_run _ _ alloc).
Qed.

Lemma update_shape cmd newSize newSampleCount o w res o' w' :
  ~ requested newSize newSampleCount o ->
  update cmd newSize newSampleCount (o, w) = Ret res (o', w') ->
  constructed_shape (prepared newSize newSampleCount o) (o', w').
Proof.
  intros Hreq Hrun.
  destruct (allocator (m_info o)) as [alloc|] eqn:Ha;
    [|by rewrite update_null_allocator in Hrun by auto using not_requested].
  rewrite (update_rebuild_prepared _ _ _ _ _ alloc) in Hrun by done.
  rewrite initResources_run in Hrun.
  match type of Hrun with
  | context [initResources_body cmd (?o1, ?w1)] =>
      pose proof (initResources_body_shape cmd o1 w1) as Hshape
  end.
  destruct (initResources_body _ _) as [[] s'|res' s'|]; by simplify_eq.
Qed.

(** X9: after every update that rebuilt and returned, successfully or
    not, of a manager with N < 2^32 colour formats, the accessors of the
    colour attachments are in range exactly for the indices below N, and
    the accessor of the multisampled images exactly for those indices
    when the sample count exceeds one: a failed construction leaves null
    handles, not short vectors. *)
Theorem accessors_in_range cmd newSize newSampleCount o w res o' w' i :
  (N.of_nat (length (colorFormats (m_info o))) < 2 ^ 32)%N ->
  ~ requested newSize newSampleCount o ->
  update cmd newSize newSampleCount (o, w) = Ret res (o', w') ->
  (is_Some (getColorImage o' i) <-> i < length (colorFormats (m_info o))) /\
  (is_Some (getColorImageView o' i) <-> i < length (colorFormats (m_info o))) /\
  (is_Some (getDescriptorImageInfo o' i) <-> i < length (colorFormats (m_info o))) /\
  (is_Some (getRenderImageView o' i) <-> i < length (colorFormats (m_info o))) /\
  (is_Some (getColorFormat o' i) <-> i < length (colorFormats (m_info o))) /\
  (is_Some (getColorMSAAImage o' i) <->
   (VK_SAMPLE_COUNT_1_BIT < newSampleCount)%N /\ i < length (colorFormats (m_info o))).
Proof.
  intros Hsmall Hreq Hrun.
  destruct (update_shape _ _ _ _ _ _ _ _ Hreq Hrun) as (Hi & Hc & Hu & Hm & _).
  cbn [fst snd] in *. simpl in Hi, Hc, Hu, Hm.
  rewrite (uint32_of_size_small _ Hsmall) in Hc, Hu, Hm.
  unfold getColorImage, getColorImageView, getDescriptorImageInfo, getRenderImageView,
    getColorFormat, getColorMSAAImage.
  rewrite !fmap_is_Some, !lookup_lt_is_Some, Hc, Hi. simpl.
  split; [done|]. split; [done|]. split; [done|].
  destruct (N.ltb_spec 1 newSampleCount) as [Hsc|Hsc].
  - split; [|split; [done|]].
    + destruct (decide (gBufferColorMSAA (m_res o') = [])) as [Hnil|Hne].
      * rewrite bool_decide_eq_true_2 by done. simpl.
        by rewrite fmap_is_Some, lookup_lt_is_Some, Hc.
      * rewrite bool_decide_eq_false_2 by done. simpl.
        by rewrite fmap_is_Some, lookup_lt_is_Some, Hm.
    + rewrite Hm. tauto.
  - simpl. rewrite fmap_is_Some, lookup_lt_is_Some, Hc. split; [done|]. split; [done|].
    rewrite Hm. simpl. split; [lia|]. intros [? _]. lia.
Qed.

(** ** The layouts recorded with the images *)

Lemma wp_conj {A} (m : M A) Q1 Q2 E1 E2 s :
  wp m Q1 E1 s -> wp m Q2 E2 s ->
  wp m (fun x s' => Q1 x s' /\ Q2 x s') (fun res s' => E1 res s' /\ E2 res s') s.
Proof. unfold wp. by destruct (m s). Qed.

(** The third loop of the clear block records the final layout with
    every image it passes. *)
Lemma final_barriers_layouts isMsaa n o w :
  shaped n isMsaa (m_res o) ->
  wp (foldM (seq 0 n) (final_barriers_round VK_IMAGE_LAYOUT_SHADER_READ_ONLY_OPTIMAL isMsaa) [])
     (fun _ s' =>
        shaped n isMsaa (m_res (fst s')) /\
        gBufferDepth (m_res (fst s')) = gBufferDepth (m_res o) /\
        (forall i, i < n ->
           imageLayout (descriptor (gBufferColor (m_res (fst s')) !!! i)) =
             VK_IMAGE_LAYOUT_SHADER_READ_ONLY_OPTIMAL /\
           (isMsaa = true ->
            imageLayout (descriptor (gBufferColorMSAA (m_res (fst s')) !!! i)) =
              VK_IMAGE_LAYOUT_COLOR_ATTACHMENT_OPTIMAL)))
     (fun _ _ => False) (o, w).
Proof.
  intros Hshape.
  eapply wp_mono;
    [apply (wp_foldM_seq
              (fun c (_ : list VkImageMemoryBarrier2) s' =>
                 shaped n isMsaa (m_res (fst s')) /\
                 gBufferDepth (m_res (fst s')) = gBufferDepth (m_res o) /\
                 (forall i, i < c ->
                    imageLayout (descriptor (gBufferColor (m_res (fst s')) !!! i)) =
                      VK_IMAGE_LAYOUT_SHADER_READ_ONLY_OPTIMAL /\
                    (isMsaa = true ->
                     imageLayout (descriptor (gBufferColorMSAA (m_res (fst s')) !!! i)) =
                       VK_IMAGE_LAYOUT_COLOR_ATTACHMENT_OPTIMAL)))
              (fun _ _ => False) _ 0 n)
    | intros ? ? H; exact H | done].
  { split; [done|]. split; [done|]. intros i Hi. lia. }
  intros c bs [o1 w1] Hc ((Hlc & Hlu & Hlm) & Hd & Hlay). cbn [fst snd] in *.
  unfold final_barriers_round, modify_color_at, modify_msaa_at, color_at, msaa_at,
    set_color_at, set_msaa_at.
  apply wp_bind, wp_bind, wp_this. simpl.
  eapply wp_deref; [apply list_lookup_lookup_total_lt; lia|].
  apply wp_bind, wp_bind, wp_bind, wp_this. simpl.
  eapply wp_deref; [apply list_lookup_lookup_total_lt; lia|].
  apply wp_modify_res. simpl.
  destruct isMsaa eqn:Hm.
  - specialize (Hlm eq_refl).
    apply wp_bind, wp_bind, wp_this. simpl.
    eapply wp_deref; [apply list_lookup_lookup_total_lt; lia|].
    apply wp_bind, wp_bind, wp_bind, wp_this. simpl.
    eapply wp_deref; [apply list_lookup_lookup_total_lt; lia|].
    apply wp_modify_res. simpl. apply wp_ret. cbn [fst snd]. simpl.
    split; [|split; [done|]].
    + unfold shaped. simpl. by rewrite !length_insert.
    + intros i Hi. destruct (decide (i = c)) as [->|Hne].
      * rewrite !list_lookup_total_insert_eq by lia. done.
      * rewrite !list_lookup_total_insert_ne by done. apply Hlay. lia.
  - apply wp_ret. cbn [fst snd]. simpl. split; [|split; [done|]].
    + unfold shaped. simpl. by rewrite !length_insert.
    + intros i Hi. split; [|done]. destruct (decide (i = c)) as [->|Hne].
      * rewrite list_lookup_total_insert_eq by lia. done.
      * rewrite list_lookup_total_insert_ne by done. apply Hlay. lia.
Qed.

(** The clear block leaves the final layouts recorded with all images. *)
Lemma initResources_clear_layouts cmd isMsaa n o w :
  shaped n isMsaa (m_res o) ->
  wp (initResources_clear cmd VK_IMAGE_LAYOUT_SHADER_READ_ONLY_OPTIMAL isMsaa n)
     (fun _ s' => layouts_recorded isMsaa (m_res (fst s')))
     (fun _ _ => False) (o, w).
Proof.
  intros Hshape.
  assert (forall q, shaped n isMsaa q ->
            (forall i, i < n ->
               imageLayout (descriptor (gBufferColor q !!! i)) =
                 VK_IMAGE_LAYOUT_SHADER_READ_ONLY_OPTIMAL /\
               (isMsaa = true ->
                imageLayout (descriptor (gBufferColorMSAA q !!! i)) =
                  VK_IMAGE_LAYOUT_COLOR_ATTACHMENT_OPTIMAL)) ->
            (image (gBufferDepth q) <> VK_NULL_HANDLE ->
             imageLayout (descriptor (gBufferDepth q)) =
               VK_IMAGE_LAYOUT_DEPTH_STENCIL_ATTACHMENT_OPTIMAL) ->
            layouts_recorded isMsaa q) as Hdone.
  { intros q (Hlc & _ & Hlm) Hlay Hdep. split; [|split; [|done]].
    - intros i col Hcol. pose proof (lookup_lt_Some _ _ _ Hcol) as Hlt.
      rewrite <- (list_lookup_total_correct _ _ _ Hcol). apply Hlay. lia.
    - intros Hm i ms Hms. pose proof (lookup_lt_Some _ _ _ Hms) as Hlt.
      rewrite <- (list_lookup_total_correct _ _ _ Hms). apply Hlay; [|done].
      rewrite Hlm in Hlt by done. lia. }
  unfold initResources_clear, vkCmdPipelineBarrier2, vkCmdClearDepthStencilImage.
  apply wp_bind.
  eapply wp_mono; [by apply clear_barriers_loop| |done].
  intros bs s' [-> ->]. simpl.
  apply wp_bind, wp_this. apply wp_bind, wp_emit. apply wp_bind.
  eapply wp_mono; [by apply clear_loop| |done].
  intros ? s' ->. simpl.
  apply wp_bind, wp_this. apply wp_bind.
  destruct (negb (image (gBufferDepth (m_res o)) =? 0)%N) eqn:Hd.
  - apply wp_emit. apply wp_bind.
    eapply wp_mono; [by apply final_barriers_layouts| |done].
    intros bs [o1 w1] (Hsh & Hdep & Hlay). cbn [fst snd] in *.
    apply wp_bind, wp_this. apply wp_bind.
    rewrite Hdep, Hd.
    apply wp_bind, wp_modify_res. apply wp_ret. apply wp_emit. cbn [fst snd]. simpl.
    apply Hdone; [done|done|done].
  - apply wp_ret. apply wp_bind.
    eapply wp_mono; [by apply final_barriers_layouts| |done].
    intros bs [o1 w1] (Hsh & Hdep & Hlay). cbn [fst snd] in *.
    apply wp_bind, wp_this. apply wp_bind.
    rewrite Hdep, Hd.
    apply wp_ret. apply wp_emit. cbn [fst snd].
    apply Hdone; [done|done|]. rewrite Hdep. intros Hnz.
    apply negb_false_iff, N.eqb_eq in Hd. done.
Qed.

Lemma initResources_body_layouts cmd o w s' :
  initResources_body cmd (o, w) = Ret tt s' ->
  layouts_recorded (1 <? sampleCount (m_info o))%N (m_res (fst s')).
Proof.
  destruct (allocator (m_info o)) as [alloc|] eqn:Ha.
  2:{ unfold initResources_body. rewrite bind_run. simpl. by rewrite Ha. }
  rewrite (initResources_body_run _ _ _ alloc Ha).
  set (n := N.to_nat (uint32_of_size (length (colorFormats (m_info o))))).
  set (isMsaa := (1 <? sampleCount (m_info o))%N).
  match goal with |- context [(_ (set_m_res ?q o, w))] => set (q1 := q) end.
  assert (forall s, steady (set_m_res q1 o, w) s ->
            shaped n isMsaa (m_res (fst s)) /\ m_info (fst s) = m_info o) as Hdone.
  { intros [o2 w2] (Hc & Hm & Hu & _ & _ & Hi & _). unfold shaped.
    cbn [fst snd] in *. rewrite Hc, Hm, Hu, Hi. simpl. rewrite !length_resize.
    repeat split. intros ->. by rewrite length_resize. }
  rewrite bind_run.
  pose proof (sat_run _ _ _ (set_m_res q1 o, w)
                (color_loop_steady (getDevice alloc) isMsaa n)) as H1.
  destruct (forM_ _ _ _) as [[] s2|res s2|]; [|done..].
  rewrite bind_run.
  pose proof (sat_run _ _ _ s2 initResources_depth_steady) as H2.
  destruct (initResources_depth s2) as [[] [o3 w3]|res s3|]; [|done..].
  assert (steady (set_m_res q1 o, w) (o3, w3)) as H13 by (by eapply steady_trans).
  destruct (Hdone _ H13) as [Hsh3 _]. cbn [fst snd] in Hsh3.
  rewrite bind_run.
  pose proof (sat_run _ _ _ (o3, w3)
                (initResources_clear_steady cmd VK_IMAGE_LAYOUT_SHADER_READ_ONLY_OPTIMAL
                   isMsaa n)) as H3.
  pose proof (initResources_clear_layouts cmd isMsaa n o3 w3 Hsh3) as Hlay.
  unfold wp in Hlay.
  destruct (initResources_clear _ _ _ _ _) as [[] [o4 w4]|res s4|]; [|done..].
  assert (steady (set_m_res q1 o, w) (o4, w4)) as H14 by (by eapply steady_trans).
  destruct (Hdone _ H14) as [(_ & Hu4 & _) Hi4]. cbn [fst snd] in *.
  pose proof (initResources_ui_wp (getDevice alloc)
                (uint32_of_size (length (colorFormats (m_info o)))) o4 w4 Hu4) as Hui.
  unfold wp in Hui. intros Hrun. rewrite Hrun in Hui.
  destruct (descriptorPool (m_info o4) =? 0)%N.
  - by subst s'.
  - destruct Hui as (new & _ & (Hc' & Hm' & Hd' & _) & _).
    destruct Hlay as (Hl1 & Hl2 & Hl3). unfold layouts_recorded.
    by rewrite Hc', Hm', Hd'.
Qed.

Lemma update_layouts cmd newSize newSampleCount o w o' w' :
  ~ requested newSize newSampleCount o ->
  update cmd newSize newSampleCount (o, w) = Ret VK_SUCCESS (o', w') ->
  layouts_recorded (1 <? newSampleCount)%N (m_res o').
Proof.
  intros Hreq Hrun.
  destruct (allocator (m_info o)) as [alloc|] eqn:Ha;
    [|by rewrite update_null_allocator in Hrun by auto using not_requested].
  rewrite (update_rebuild_prepared _ _ _ _ _ alloc) in Hrun by done.
  rewrite initResources_run in Hrun.
  match type of Hrun with
  | context [initResources_body cmd (?o1, ?w1)] =>
      pose proof (initResources_body_layouts cmd o1 w1) as Hlay;
      pose proof (initResources_body_oracle cmd (o1, w1)) as Hor
  end.
  destruct (initResources_body _ _) as [[] s'|res' s'|]; [| |done].
  - simplify_eq. by apply (Hlay (o', w')).
  - simplify_eq. by destruct Hor as (_ & ? & _).
Qed.

Lemma descriptor_eta (d : VkDescriptorImageInfo) :
  d = {| sampler := sampler d; imageView := imageView d; imageLayout := imageLayout d |}.
Proof. by destruct d. Qed.

(** X10: after a successful update that rebuilt, the descriptor of each
    colour attachment, as [getDescriptorImageInfo] returns it, holds the
    configured sampler, the (non-null) view [getColorImageView] returns,
    and the shader-read layout. *)
Theorem descriptor_info_after_update cmd newSize newSampleCount o w o' w' i :
  reachable o ->
  (N.of_nat (length (colorFormats (m_info o))) < 2 ^ 32)%N ->
  ~ requested newSize newSampleCount o ->
  update cmd newSize newSampleCount (o, w) = Ret VK_SUCCESS (o', w') ->
  i < length (colorFormats (m_info o)) ->
  exists view,
    view <> VK_NULL_HANDLE /\
    getColorImageView o' i = Some view /\
    getDescriptorImageInfo o' i =
      Some {| sampler := imageSampler (m_info o);
              imageView := view;
              imageLayout := VK_IMAGE_LAYOUT_SHADER_READ_ONLY_OPTIMAL |}.
Proof.
  intros Hreach Hsmall Hreq Hrun Hi.
  destruct (update_layouts _ _ _ _ _ _ _ Hreq Hrun) as (Hlay & _).
  destruct (update_rebuilt _ _ _ _ _ _ _ Hreach Hreq Hrun) as (alloc & Ha & Hb).
  destruct Hb as (_ & _ & _ & _ & evs & _ & Hcol & _).
  simpl in Hcol. rewrite (uint32_of_size_small _ Hsmall) in Hcol.
  destruct (Hcol i Hi) as [(fmt & col & uiv & _ & Hc & _ & _ & Hv & _ & Hs & _) _].
  simpl in Hc, Hs.
  exists (imageView (descriptor col)). split; [done|].
  unfold getColorImageView, getDescriptorImageInfo. rewrite Hc. simpl. split; [done|].
  rewrite (descriptor_eta (descriptor col)) at 1. by rewrite Hs, (Hlay i col Hc).
Qed.

(** X11: after a successful update that rebuilt, the view to render
    into is never null; with a sample count above one it is the view
    created together with the multisampled image of that index, at that
    sample count, and otherwise the view of the colour image itself. *)
Theorem render_view_after_update cmd newSize newSampleCount o w o' w' i :
  reachable o ->
  (N.of_nat (length (colorFormats (m_info o))) < 2 ^ 32)%N ->
  ~ requested newSize newSampleCount o ->
  update cmd newSize newSampleCount (o, w) = Ret VK_SUCCESS (o', w') ->
  i < length (colorFormats (m_info o)) ->
  exists view,
    view <> VK_NULL_HANDLE /\
    getRenderImageView o' i = Some view /\
    if (VK_SAMPLE_COUNT_1_BIT <? newSampleCount)%N
    then exists img info viewInfo,
           getColorMSAAImage o' i = Some img /\
           samples info = newSampleCount /\
           EvCreateImage info viewInfo VK_SUCCESS img view ∈ trace w'
    else getColorImageView o' i = Some view.
Proof.
  intros Hreach Hsmall Hreq Hrun Hi.
  destruct (update_frame _ _ _ _ _ _ _ _ Hrun) as [_ Hinfo].
  destruct (update_rebuilt _ _ _ _ _ _ _ Hreach Hreq Hrun) as (alloc & Ha & Hb).
  destruct Hb as (_ & _ & _ & _ & evs & Ht & Hcol & _).
  simpl in Hcol, Ht. rewrite (uint32_of_size_small _ Hsmall) in Hcol.
  destruct (Hcol i Hi) as [(fmt & col & uiv & _ & Hc & _ & _ & Hv & _) Hmsaa].
  simpl in Hc. unfold getRenderImageView, getColorMSAAImage, getColorImageView.
  rewrite Hinfo. simpl.
  destruct (1 <? newSampleCount)%N.
  - destruct (Hmsaa eq_refl) as (fmt' & col' & ms & _ & _ & Hms & _ & Hmv & Hev).
    simpl in Hms. exists (imageView (descriptor ms)). split; [done|].
    rewrite bool_decide_eq_false_2 by (intros Hnil; by rewrite Hnil in Hms).
    simpl. rewrite Hms. simpl. split; [done|].
    eexists _, _, _. split; [done|]. split; [|rewrite Ht; apply elem_of_app; right; exact Hev].
    done.
  - exists (imageView (descriptor col)). simpl. rewrite Hc. done.
Qed.

(** ** What a teardown destroys of what an update created *)

(** The outcome of a rebuild, finished or abandoned: the calls it made
    after the teardown, all objects they created still held, in a
    consistent manager. *)
Lemma update_rebuild_held cmd newSize newSampleCount o w res o' w' :
  reachable o ->
  ~ requested newSize newSampleCount o ->
  update cmd newSize newSampleCount (o, w) = Ret res (o', w') ->
  exists alloc evs,
    allocator (m_info o) = Some alloc /\
    trace w' =
      trace w ++ EvDeviceWaitIdle (getDevice alloc) :: teardown_events alloc o ++ evs /\
    consistent o' /\
    all_held evs o'.
Proof.
  intros Hreach Hreq Hrun. pose proof (reachable_consistent _ Hreach) as Hcons.
  destruct (allocator (m_info o)) as [alloc|] eqn:Ha;
    [|by rewrite update_null_allocator in Hrun by auto using not_requested].
  exists alloc.
  pose proof (update_consistent _ _ _ _ _ _ _ _ Hcons Hrun) as Hcons'.
  destruct (update_rebuild_outcome cmd newSize newSampleCount o w alloc Hreq Ha Hcons)
    as (res' & o'' & w'' & Hrun' & _ & Hcase).
  rewrite Hrun' in Hrun. simplify_eq.
  destruct Hcase as [(_ & Hb & _)|[Hab _]].
  - destruct Hb as (_ & _ & _ & _ & evs & Ht & _ & _ & _ & _ & _ & Hheld).
    exists evs. simpl in Ht. rewrite <- !app_assoc in Ht. simpl in Ht. done.
  - destruct Hab as (_ & _ & _ & evs & Ht & Hheld).
    exists evs. simpl in Ht. rewrite <- !app_assoc in Ht. simpl in Ht. done.
Qed.

Lemma prepared_layout newSize newSampleCount o :
  layout_owned o -> m_descLayout (prepared newSize newSampleCount o) = VK_NULL_HANDLE.
Proof.
  intros Hown. unfold prepared. simpl. destruct (frees_ui o) eqn:Hf; [done|].
  destruct (N.eq_dec (m_descLayout o) 0%N) as [Hz|Hnz]; [done|].
  specialize (Hown Hnz). congruence.
Qed.

(** X12: no object created by an update is lost.  For a reachable
    manager with at least one colour format or without a descriptor
    pool, whose descriptor-set layout (if any) is owned, every non-null
    handle created by an update that rebuilt, whether the update
    succeeded or failed part-way, is destroyed or freed by the next
    teardown of that manager; and the layout is owned again. *)
Theorem update_leaks_nothing cmd newSize newSampleCount o w res o' w' :
  reachable o ->
  (N.of_nat (length (colorFormats (m_info o))) < 2 ^ 32)%N ->
  colorFormats (m_info o) <> [] \/ descriptorPool (m_info o) = VK_NULL_HANDLE ->
  layout_owned o ->
  ~ requested newSize newSampleCount o ->
  update cmd newSize newSampleCount (o, w) = Ret res (o', w') ->
  layout_owned o' /\
  exists alloc evs,
    allocator (m_info o') = Some alloc /\
    trace w' =
      trace w ++ EvDeviceWaitIdle (getDevice alloc) :: teardown_events alloc o ++ evs /\
    forall e h, e ∈ evs -> h ∈ created e -> h <> VK_NULL_HANDLE ->
      exists e', e' ∈ teardown_events alloc o' /\ h ∈ destroyed e'.
Proof.
  intros Hreach Hsmall Hcfg Hown Hreq Hrun.
  destruct (update_rebuild_held _ _ _ _ _ _ _ _ Hreach Hreq Hrun)
    as (alloc & evs & Ha & Ht & Hcons' & Hheld).
  destruct (update_frame _ _ _ _ _ _ _ _ Hrun) as [_ Hinfo].
  destruct (update_shape _ _ _ _ _ _ _ _ Hreq Hrun) as (_ & _ & _ & _ & Hui).
  cbn [fst snd] in Hui. rewrite (prepared_layout _ _ _ Hown) in Hui.
  simpl in Hui. rewrite (uint32_of_size_small _ Hsmall) in Hui.
  assert (m_descLayout o' = 0%N \/ frees_ui o' = true) as Hlay.
  { destruct Hui as [[Hl _]|[Hp Hlen]]; [by left|right].
    destruct Hcfg as [Hne|Hz]; [|done].
    unfold frees_ui. rewrite Hinfo. simpl. apply andb_true_iff. split.
    - apply negb_true_iff. by apply N.eqb_neq.
    - apply negb_true_iff, bool_decide_eq_false. intros Hnil.
        rewrite Hnil in Hlen. simpl in Hlen. by destruct (colorFormats (m_info o)). }
  split.
  { intros Hnz. by destruct Hlay. }
  exists alloc, evs. split; [by rewrite Hinfo|]. split; [done|].
  intros e h He Hh Hnz. specialize (Hheld e h He Hh Hnz).
  unfold bundle_handles in Hheld. rewrite app_assoc in Hheld.
  apply elem_of_app in Hheld as [Hheld|Hheld].
  - by apply teardown_destroys_bundle.
  - apply list_elem_of_singleton in Hheld. subst h.
    destruct Hlay as [Hz|Hf]; [done|].
    exists (EvDestroyDescriptorSetLayout (getDevice alloc) (m_descLayout o')).
    split; [|simpl; apply list_elem_of_here].
    unfold teardown_events. rewrite Hf. apply elem_of_app. left.
    apply list_elem_of_further, list_elem_of_here.
Qed.

(** X13: with no colour format and a descriptor pool, a successful
    update creates a descriptor-set layout but no descriptor set, and
    the teardown, which destroys the layout only together with at least
    one descriptor set, never destroys it: after deinit the manager is
    as new and the layout was not destroyed. *)
Theorem layout_lost_without_formats cmd newSize newSampleCount o w o' w' :
  reachable o ->
  colorFormats (m_info o) = [] ->
  descriptorPool (m_info o) <> VK_NULL_HANDLE ->
  ~ requested newSize newSampleCount o ->
  update cmd newSize newSampleCount (o, w) = Ret VK_SUCCESS (o', w') ->
  m_descLayout o' <> VK_NULL_HANDLE /\
  uiDescriptorSets (m_res o') = [] /\
  (exists device info,
     EvCreateDescriptorSetLayout device info VK_SUCCESS (m_descLayout o') ∈ trace w') /\
  exists w'' evs,
    deinit (o', w') = Ret tt (GBuffer_default, w'') /\
    trace w'' = trace w' ++ evs /\
    Forall keeps_layouts evs.
Proof.
  intros Hreach Hnil Hpool Hreq Hrun.
  destruct (update_frame _ _ _ _ _ _ _ _ Hrun) as [_ Hinfo].
  destruct (update_rebuilt _ _ _ _ _ _ _ Hreach Hreq Hrun) as (alloc & Ha & Hb).
  destruct Hb as (_ & _ & _ & _ & evs & Ht & _ & _ & Hui & _).
  simpl in Hui, Ht. rewrite Hnil in Hui. simpl in Hui.
  destruct (N.eqb_spec (descriptorPool (m_info o)) 0) as [|_]; [done|].
  destruct Hui as (pre & ui & -> & Hnz & Hlen & _ & ->).
  apply nil_length_inv in Hlen.
  split; [done|]. split; [done|]. split.
  { eexists _, _. rewrite Ht. apply elem_of_app. right. apply elem_of_app. right.
    apply list_elem_of_here. }
  pose proof (deinit_result o' w') as Hd. rewrite Hinfo in Hd. simpl in Hd.
  rewrite Ha in Hd. eexists _, _. split; [exact Hd|]. split; [done|].
  unfold teardown_events, frees_ui. rewrite Hlen.
  rewrite bool_decide_eq_true_2 by done. rewrite andb_false_r. simpl.
  repeat apply Forall_app_2.
  - apply Forall_fmap, Forall_true. by intros.
  - apply Forall_fmap, Forall_true. by intros.
  - destruct (negb _); repeat constructor.
  - apply Forall_fmap, Forall_true. by intros.
Qed.

(** ** The usage example *)

(** X14: whatever the driver answers, the statements of the usage
    example run without an access out of range (the views read may be
    null when a creation failed, and are not null when all succeeded);
    but the example never calls deinit, so that the destructor of its
    local manager trips the assertion "Missing deinit()". *)
Theorem usage_GBuffer_misses_deinit alloc w :
  (exists v0 v1 vd o' w',
     usage_GBuffer_body alloc (GBuffer_default, w) = Ret (v0, v1, vd) (o', w') /\
     ((forall j, calls w <= j -> oracle w j = VK_SUCCESS) ->
      v0 <> VK_NULL_HANDLE /\ v1 <> VK_NULL_HANDLE /\ vd <> VK_NULL_HANDLE) /\
     exists w'', (deinit;; destroy_GBuffer) (o', w') = Ret tt (GBuffer_default, w'')) /\
  usage_GBuffer alloc (GBuffer_default, w) = Undef.
Proof.
  set (o0 := set_m_info (usage_info alloc 0 0) GBuffer_default).
  set (size := {| width := 600; height := 480 |}).
  assert (reachable o0) as Hreach.
  { exact (reach_init GBuffer_default w (usage_info alloc 0 0) _ w reach_fresh eq_refl). }
  assert (~ requested size 1 o0) as Hreq by (intros [H _]; discriminate H).
  pose proof (reachable_consistent _ Hreach) as Hcons.
  destruct (update_rebuild_outcome 0 size 1 o0 w alloc Hreq eq_refl Hcons)
    as (res & o' & w' & Hrun & _ & Hcase).
  destruct (update_frame _ _ _ _ _ _ _ _ Hrun) as [_ Hinfo].
  destruct (update_shape _ _ _ _ _ _ _ _ Hreq Hrun) as (_ & Hlen & _).
  cbn [fst snd] in Hlen. simpl in Hlen.
  assert (usage_GBuffer_body alloc (GBuffer_default, w) =
          match gBufferColor (m_res o') with
          | c0 :: c1 :: _ =>
              Ret (imageView (descriptor c0), imageView (descriptor c1),
                   getDepthImageView o') (o', w')
          | _ => Undef
          end) as Hbody.
  { unfold usage_GBuffer_body. cbv zeta. rewrite bind_run, init_run. simpl.
    rewrite bind_run, update_size_run. simpl. fold o0 size. rewrite Hrun.
    unfold getColorImageView, mbind, M_bind, this. cbn [fst snd].
    destruct (gBufferColor (m_res o')) as [|c0 l] eqn:Hc; [reflexivity|].
    simpl. rewrite Hc. destruct l as [|c1 l]; reflexivity. }
  destruct (gBufferColor (m_res o')) as [|c0 [|c1 l]] eqn:Hcol; [done..|].
  split.
  - exists (imageView (descriptor c0)), (imageView (descriptor c1)), (getDepthImageView o'),
      o', w'.
    split; [done|]. split.
    + intros Hok.
      destruct Hcase as [(_ & Hb & _)|[_ (_ & Hne & (j & _ & Hle & Hj & _) & _)]].
      * destruct Hb as (_ & _ & _ & _ & evs & _ & Hbuilt & Hdepth & _).
        simpl in Hbuilt, Hdepth.
        destruct (Hbuilt 0 ltac:(vm_compute; lia)) as [(? & col0 & ? & _ & H0 & _ & _ & Hv0 & _) _].
        destruct (Hbuilt 1 ltac:(vm_compute; lia)) as [(? & col1 & ? & _ & H1 & _ & _ & Hv1 & _) _].
        simpl in H0, H1. rewrite Hcol in H0, H1. simpl in H0, H1. simplify_eq.
        destruct Hdepth as (_ & Hvd & _). done.
      * simpl in Hle, Hj. destruct Hne. rewrite <- Hj. by apply Hok.
    + pose proof (deinit_result o' w') as Hd. eexists.
      rewrite bind_run, Hd. by rewrite destroy_GBuffer_run.
  - unfold usage_GBuffer. rewrite bind_run, Hbody.
    rewrite destroy_GBuffer_run, Hinfo. done.
Qed.

(** ** Invariants of the reachable states *)

Lemma reachable_aligned o : reachable o -> aligned (m_res o).
Proof.
  induction 1 as [|o w cfg o' w' _ IH Hrun|o w cmd sz sc res o' w' _ IH Hrun
                  |o w o' w' _ IH Hrun].
  - split; [done|by left].
  - rewrite init_run in Hrun. destruct (bool_decide _); [|done]. by simplify_eq.
  - destruct (decide (requested sz sc o)) as [Hreq|Hreq].
    { rewrite update_requested_run in Hrun by done. by simplify_eq. }
    destruct (update_shape _ _ _ _ _ _ _ _ Hreq Hrun) as (_ & Hc & Hu & Hm & _).
    cbn [fst snd] in *. simpl in Hm. split; [by rewrite Hc, Hu|].
    destruct (1 <? sc)%N; [right; by rewrite Hc, Hm|left; by apply nil_length_inv].
  - pose proof (deinit_result o w) as Hd. rewrite Hd in Hrun. simplify_eq.
    split; [done|by left].
Qed.

(** X15: what holds of a manager in every state that init, update and
    deinit can reach from a new one, failed and repeated updates
    included: a null depth image has a null depth view; a descriptor set
    exists only with a descriptor pool and an allocator; the view to
    render into is in range exactly when the colour view is; and a
    multisampled image exists only at an index where a colour image
    does. *)
Theorem reachable_invariant o i :
  reachable o ->
  (getDepthImage o = VK_NULL_HANDLE -> getDepthImageView o = VK_NULL_HANDLE) /\
  (is_Some (getDescriptorSet o i) ->
   descriptorPool (m_info o) <> VK_NULL_HANDLE /\ allocator (m_info o) <> None) /\
  (is_Some (getRenderImageView o i) <-> is_Some (getColorImageView o i)) /\
  (is_Some (getColorMSAAImage o i) -> is_Some (getColorImage o i)).
Proof.
  intros Hreach. destruct (reachable_consistent _ Hreach) as [Hdepth Hsets].
  destruct (reachable_aligned _ Hreach) as [_ Hmsaa].
  unfold getDepthImage, getDepthImageView, getDescriptorSet, getRenderImageView,
    getColorImageView, getColorMSAAImage, getColorImage.
  split; [done|]. split; [|split].
  - intros [set Hset]. destruct (Hsets ltac:(by intros Hnil; rewrite Hnil in Hset))
      as (? & ? & _). done.
  - destruct ((1 <? sampleCount (m_info o))%N
              && negb (bool_decide (gBufferColorMSAA (m_res o) = []))) eqn:Hc; [|done].
    apply andb_true_iff in Hc as [_ Hne]. apply negb_true_iff, bool_decide_eq_false in Hne.
    destruct Hmsaa as [?|Hlen]; [done|].
    by rewrite !fmap_is_Some, !lookup_lt_is_Some, Hlen.
  - rewrite !fmap_is_Some, !lookup_lt_is_Some. destruct Hmsaa as [Hnil|Hlen].
    + rewrite Hnil. simpl. lia.
    + by rewrite Hlen.
Qed.

(** ** update fails only when the driver does *)

(** X16: update has no failure of its own: from a reachable state with
    an allocator, if the driver lets every creation call from now on
    succeed, update returns VK_SUCCESS. *)
Theorem update_succeeds_when_driver_does cmd newSize newSampleCount o w alloc :
  reachable o ->
  allocator (m_info o) = Some alloc ->
  (forall j, calls w <= j -> oracle w j = VK_SUCCESS) ->
  exists o' w', update cmd newSize newSampleCount (o, w) = Ret VK_SUCCESS (o', w').
Proof.
  intros Hreach Ha Hok. pose proof (reachable_consistent _ Hreach) as Hcons.
  destruct (decide (requested newSize newSampleCount o)) as [Hreq|Hreq].
  { exists o, w. by apply update_requested_run. }
  destruct (update_rebuild_outcome cmd newSize newSampleCount o w alloc Hreq Ha Hcons)
    as (res & o' & w' & Hrun & _ & Hcase).
  exists o', w'.
  destruct Hcase as [(-> & _)|[_ (_ & Hne & (j & _ & Hle & Hj & _) & _)]]; [done|].
  simpl in Hle, Hj. destruct Hne. rewrite <- Hj. by apply Hok.
Qed.

(** ** What a failed update has recorded *)

Lemma color_loop_image_events device isMsaa n :
  sat (grows image_phase_event) (fun _ => grows image_phase_event)
      (forM_ (seq 0 n) (initResources_color device isMsaa)).
Proof. unfold initResources_color. sat_grows ltac:(exact I). Qed.

Lemma initResources_depth_image_events :
  sat (grows image_phase_event) (fun _ => grows image_phase_event) initResources_depth.
Proof. unfold initResources_depth. sat_grows ltac:(exact I). Qed.

Lemma initResources_ui_events device layout numColor :
  sat (grows ui_phase_event) (fun _ => grows ui_phase_event)
      (initResources_ui device layout numColor).
Proof. unfold initResources_ui. sat_grows ltac:(exact I). Qed.

Lemma image_phase_silent evs : Forall image_phase_event evs -> Forall silent_event evs.
Proof. intros H. eapply Forall_impl; [exact H|]. by intros []. Qed.
Lemma ui_phase_silent evs : Forall ui_phase_event evs -> Forall silent_event evs.
Proof. intros H. eapply Forall_impl; [exact H|]. by intros []. Qed.

Lemma last_elem_of {A} (l : list A) x : last l = Some x -> x ∈ l.
Proof.
  destruct l as [|y l _] using rev_ind; [done|].
  rewrite last_snoc. intros [= ->]. apply elem_of_app. right. apply list_elem_of_here.
Qed.

Lemma grows_run P s s' :
  grows P s s' -> exists evs, trace (snd s') = trace (snd s) ++ evs /\ Forall P evs.
Proof. by intros [_ ?]. Qed.

(** The calls of an abandoned construction: those of the first two
    blocks only, or those, the whole clear sequence and calls of the last
    block. *)
Lemma initResources_body_failed cmd o w res s' :
  initResources_body cmd (o, w) = Early res s' ->
  exists evs,
    trace (snd s') = trace w ++ evs /\
    (Forall image_phase_event evs \/
     exists evs1 evs4,
       evs = evs1 ++
             (EvCmd cmd <$> three_phases
                (attachments (1 <? sampleCount (m_info o))%N (m_res (fst s')))) ++ evs4 /\
       Forall image_phase_event evs1 /\ Forall ui_phase_event evs4).
Proof.
  destruct (allocator (m_info o)) as [alloc|] eqn:Ha.
  2:{ unfold initResources_body. rewrite bind_run. simpl. by rewrite Ha. }
  rewrite (initResources_body_run _ _ _ alloc Ha).
  set (n := N.to_nat (uint32_of_size (length (colorFormats (m_info o))))).
  set (isMsaa := (1 <? sampleCount (m_info o))%N).
  match goal with |- context [(_ (set_m_res ?q o, w))] => set (q1 := q) end.
  assert (forall s, steady (set_m_res q1 o, w) s -> shaped n isMsaa (m_res (fst s))) as Hdone.
  { intros [o2 w2] (Hc & Hm & Hu & _). unfold shaped.
    cbn [fst snd] in *. rewrite Hc, Hm, Hu. simpl. rewrite !length_resize.
    repeat split. intros ->. by rewrite length_resize. }
  rewrite bind_run.
  pose proof (sat_run _ _ _ (set_m_res q1 o, w)
                (color_loop_steady (getDevice alloc) isMsaa n)) as H1.
  pose proof (sat_run _ _ _ (set_m_res q1 o, w)
                (color_loop_image_events (getDevice alloc) isMsaa n)) as G1.
  destruct (forM_ _ _ _) as [[] [o2 w2]|res2 s2|]; [| |done].
  2:{ intros [= -> ->]. destruct (grows_run _ _ _ G1) as (evs & Ht & Hk).
      exists evs. split; [done|by left]. }
  destruct (grows_run _ _ _ G1) as (evs1 & Ht1 & Hk1). cbn [fst snd] in Ht1.
  rewrite bind_run.
  pose proof (sat_run _ _ _ (o2, w2) initResources_depth_steady) as H2.
  pose proof (sat_run _ _ _ (o2, w2) initResources_depth_image_events) as G2.
  destruct (initResources_depth _) as [[] [o3 w3]|res3 s3|]; [| |done].
  2:{ intros [= -> ->]. destruct (grows_run _ _ _ G2) as (evs & Ht & Hk).
      exists (evs1 ++ evs). cbn [fst snd] in Ht. split; [by rewrite Ht, Ht1, app_assoc|].
      left. by apply Forall_app_2. }
  destruct (grows_run _ _ _ G2) as (evs2 & Ht2 & Hk2). cbn [fst snd] in Ht2.
  assert (steady (set_m_res q1 o, w) (o3, w3)) as H13 by (by eapply steady_trans).
  pose proof (Hdone _ H13) as Hsh3. cbn [fst snd] in Hsh3.
  rewrite bind_run.
  pose proof (sat_run _ _ _ (o3, w3)
                (initResources_clear_steady cmd VK_IMAGE_LAYOUT_SHADER_READ_ONLY_OPTIMAL
                   isMsaa n)) as H3.
  pose proof (initResources_clear_wp cmd isMsaa n o3 w3 Hsh3) as Hclear.
  unfold wp in Hclear.
  destruct (initResources_clear _ _ _ _ _) as [[] [o4 w4]|res4 s4|]; [|done..].
  destruct Hclear as [Hw4 Hsame4]. cbn [fst snd] in Hw4, Hsame4.
  assert (steady (set_m_res q1 o, w) (o4, w4)) as H14 by (by eapply steady_trans).
  destruct (Hdone _ H14) as (_ & Hu4 & _). cbn [fst snd] in Hu4.
  pose proof (initResources_ui_wp (getDevice alloc)
                (uint32_of_size (length (colorFormats (m_info o)))) o4 w4 Hu4) as Hui.
  pose proof (sat_run _ _ _ (o4, w4)
                (initResources_ui_events (getDevice alloc)
                   VK_IMAGE_LAYOUT_SHADER_READ_ONLY_OPTIMAL
                   (uint32_of_size (length (colorFormats (m_info o)))))) as G4.
  unfold wp in Hui. intros Hrun. rewrite Hrun in Hui, G4.
  destruct (grows_run _ _ _ G4) as (evs4 & Ht4 & Hk4). cbn [fst snd] in Ht4.
  destruct Hui as (_ & _ & (Hc' & Hm' & Hd' & _) & _).
  exists (evs1 ++ evs2 ++
          (EvCmd cmd <$> three_phases (attachments isMsaa (m_res o3))) ++ evs4).
  split.
  { rewrite Ht4, Hw4. simpl. rewrite Ht2, Ht1. by rewrite <- !app_assoc. }
  right. exists (evs1 ++ evs2), evs4. split; [|split; [by apply Forall_app_2|done]].
  rewrite <- !app_assoc. do 3 f_equal.
  rewrite <- (images_same_attachments isMsaa n (m_res o3) (m_res o4) Hsame4 Hsh3).
  unfold attachments, round_atts, depth_atts. by rewrite Hc', Hm', Hd'.
Qed.

(** X17: a failed update has recorded into its command buffer either
    nothing or the whole clear sequence, never a part of it: nothing
    when the call that failed created an image or an image view, the
    three phases over the images of the bundle when it created the
    descriptor-set layout or allocated the descriptor sets. *)
Theorem failed_update_commands cmd newSize newSampleCount o w res o' w' :
  ~ requested newSize newSampleCount o ->
  update cmd newSize newSampleCount (o, w) = Ret res (o', w') ->
  res <> VK_SUCCESS ->
  exists alloc evs e,
    allocator (m_info o) = Some alloc /\
    trace w' =
      trace w ++ EvDeviceWaitIdle (getDevice alloc) :: teardown_events alloc o ++ evs /\
    last evs = Some e /\
    event_result e = Some res /\
    recorded_at_failure cmd (VK_SAMPLE_COUNT_1_BIT <? newSampleCount)%N (m_res o') evs e.
Proof.
  intros Hreq Hrun Hne.
  destruct (allocator (m_info o)) as [alloc|] eqn:Ha;
    [|by rewrite update_null_allocator in Hrun by auto using not_requested].
  rewrite (update_rebuild_prepared _ _ _ _ _ alloc) in Hrun by done.
  rewrite initResources_run in Hrun.
  match type of Hrun with
  | context [initResources_body cmd (?o1, ?w1)] =>
      pose proof (initResources_body_failed cmd o1 w1) as Hfail;
      pose proof (initResources_body_oracle cmd (o1, w1)) as Hor
  end.
  destruct (initResources_body _ _) as [[] s'|res' s'|]; [by simplify_eq| |done].
  simplify_eq. destruct (Hfail _ _ eq_refl) as (evs & Ht & Hcase). clear Hfail.
  destruct Hor as (_ & _ & _ & e & Hlast & Hres). cbn [fst snd] in *. simpl in Ht.
  rewrite <- !app_assoc in Ht. simpl in Ht.
  assert (last evs = Some e) as Hlast'.
  { rewrite Ht in Hlast.
    eapply (last_app_result (trace w)); [exact Hlast|done|apply teardown_no_result]. }
  exists alloc, evs, e. split; [done|]. split; [done|]. split; [done|]. split; [done|].
  destruct Hcase as [Hk|(evs1 & evs4 & -> & Hk1 & Hk4)].
  - pose proof (last_elem_of _ _ Hlast') as Hin.
    rewrite Forall_forall in Hk. pose proof (Hk _ Hin) as He.
    destruct e; try done; simpl; apply recorded_silent, image_phase_silent;
      by apply Forall_forall.
  - assert (recorded cmd
              (evs1 ++ (EvCmd cmd <$> three_phases
                          (attachments (1 <? newSampleCount)%N (m_res o'))) ++ evs4) =
            three_phases (attachments (1 <? newSampleCount)%N (m_res o'))) as Hrec.
    { rewrite !recorded_app, recorded_commands.
      rewrite (recorded_silent _ _ (image_phase_silent _ Hk1)).
      rewrite (recorded_silent _ _ (ui_phase_silent _ Hk4)). by rewrite app_nil_r. }
    assert (e ∈ evs4) as Hin.
    { destruct evs4 as [|x evs4 _] using rev_ind.
      - rewrite app_nil_r in Hlast'. unfold three_phases in Hlast'.
        rewrite !fmap_app, !fmap_cons, !fmap_nil, !app_assoc, last_snoc in Hlast'.
        by simplify_eq.
      - rewrite !app_assoc, last_snoc in Hlast'. simplify_eq.
        apply elem_of_app. right. apply list_elem_of_here. }
    rewrite Forall_forall in Hk4. pose proof (Hk4 _ Hin) as He.
    destruct e; try done.
Qed.

(** ** The aspect ratio after an update *)

(** X19: after every update that returns, failed ones included, the
    aspect ratio is that of the requested size: 1.0 for a height of
    zero, otherwise the single-precision quotient of the requested
    width and height. *)
Theorem aspect_ratio_after_update cmd newSize newSampleCount o w res o' w' :
  update cmd newSize newSampleCount (o, w) = Ret res (o', w') ->
  getAspectRatio o' =
    if (height newSize =? 0)%N then f32_one
    else f32_div (float_of_uint32 (width newSize)) (float_of_uint32 (height newSize)).
Proof.
  intros Hrun. destruct (update_frame _ _ _ _ _ _ _ _ Hrun) as [Hsize _].
  unfold getAspectRatio. by rewrite Hsize.
Qed.

(** ** update, repeated *)

(** X20: update is idempotent on the manager: whatever an update
    returned, the same update again returns VK_SUCCESS and leaves the
    manager and the world exactly as the first one left them, so that an
    error is reported once only. *)
Theorem update_twice cmd cmd2 newSize newSampleCount o w res o' w' :
  update cmd newSize newSampleCount (o, w) = Ret res (o', w') ->
  update cmd2 newSize newSampleCount (o', w') = Ret VK_SUCCESS (o', w').
Proof.
  intros Hrun. destruct (update_frame _ _ _ _ _ _ _ _ Hrun) as [Hsize Hinfo].
  apply update_requested_run. unfold requested. by rewrite Hsize, Hinfo.
Qed.

(** ** The complete sequence of calls of a construction *)

(** One round that succeeds logs exactly [round_events] of what it
    assigns. *)
Lemma initResources_color_events device isMsaa c o w alloc fmt :
  allocator (m_info o) = Some alloc ->
  colorFormats (m_info o) !! c = Some fmt ->
  c < length (gBufferColor (m_res o)) ->
  c < length (uiImageViews (m_res o)) ->
  (isMsaa = true -> c < length (gBufferColorMSAA (m_res o))) ->
  wp (initResources_color device isMsaa c)
     (fun _ s' => exists col uiv ms,
        round_update isMsaa c col uiv ms o (fst s') /\
        trace (snd s') =
          trace w ++ round_events device (m_info o) (m_size o) isMsaa c fmt col uiv ms)
     (fun _ _ => True)
     (o, w).
Proof.
  intros Ha Hf Hlc Hlu Hm.
  unfold initResources_color, color_at, uiView_at, msaa_at, modify_color_at, set_color_at,
    set_uiView_at, set_msaa_at, setObjectName.
  wp_auto. apply wp_createImage; [|done].
  intros img view w1 Himg Hview Ht1.
  wp_auto. apply wp_createImageView; [|done].
  intros uiv w2 Huiv Ht2.
  wp_auto. rewrite list_insert_insert_eq.
  destruct isMsaa eqn:HisMsaa.
  - specialize (Hm eq_refl).
    wp_auto. apply wp_createImage; [|done].
    intros mimg mview w3 Hmimg Hmview Ht3.
    wp_auto.
    eexists _, uiv, _. split.
    + unfold round_update. simpl. done.
    + unfold round_events. solve_trace.
  - wp_auto.
    eexists _, uiv, Image_default. split.
    + unfold round_update. simpl. done.
    + unfold round_events. solve_trace.
Qed.

Lemma color_events_step device info size (isMsaa : bool) (q q' : Resources) c fmt
    (col : Image) (uiv : N) (ms : Image) :
  colorFormats info !! c = Some fmt ->
  gBufferColor q' = <[c := col]> (gBufferColor q) ->
  uiImageViews q' = <[c := uiv]> (uiImageViews q) ->
  gBufferColorMSAA q' =
    (if isMsaa then <[c := ms]> (gBufferColorMSAA q) else gBufferColorMSAA q) ->
  c < length (gBufferColor q) ->
  c < length (uiImageViews q) ->
  (isMsaa = true -> c < length (gBufferColorMSAA q)) ->
  color_events device info size isMsaa q' (S c) =
  color_events device info size isMsaa q c ++
  round_events device info size isMsaa c fmt col uiv ms.
Proof.
  intros Hf Hc Hu Hm Hlc Hlu Hlm. unfold color_events. rewrite flat_map_seq_S. f_equal.
  - apply flat_map_ext_seq. intros i Hi. rewrite Hc, Hu, Hm.
    rewrite !list_lookup_total_insert_ne by lia.
    destruct isMsaa; [by rewrite list_lookup_total_insert_ne by lia|done].
  - rewrite Hc, Hu, Hm, (list_lookup_total_correct _ _ _ Hf).
    rewrite !list_lookup_total_insert_eq by lia.
    destruct isMsaa; [by rewrite list_lookup_total_insert_eq by auto|done].
Qed.

(** The first loop, when it succeeds, logs the rounds in the order of
    the indices. *)
Lemma initResources_color_loop_events device isMsaa n o0 w0 alloc :
  allocator (m_info o0) = Some alloc ->
  n <= length (colorFormats (m_info o0)) ->
  n <= length (gBufferColor (m_res o0)) ->
  n <= length (uiImageViews (m_res o0)) ->
  (isMsaa = true -> n <= length (gBufferColorMSAA (m_res o0))) ->
  wp (forM_ (seq 0 n) (initResources_color device isMsaa))
     (fun _ s' =>
        trace (snd s') =
          trace w0 ++
          color_events device (m_info o0) (m_size o0) isMsaa (m_res (fst s')) n)
     (fun _ _ => True)
     (o0, w0).
Proof.
  intros Ha Hn Hlc Hlu Hlm.
  eapply wp_mono;
    [apply (wp_forM_seq
              (fun c s' =>
                 steady (o0, w0) s' /\
                 trace (snd s') =
                   trace w0 ++
                   color_events device (m_info o0) (m_size o0) isMsaa (m_res (fst s')) c)
              (fun _ _ => True) _ 0 n)
    | intros ? ? [_ H]; exact H | done].
  { split; [apply rel_refl|]. by rewrite app_nil_r. }
  intros c [o w] Hc [Hst Ht]. pose proof Hst as (Hc1 & Hm1 & Hu1 & _ & _ & Hi & Hz).
  cbn [fst snd] in *.
  destruct (lookup_lt_is_Some_2 (colorFormats (m_info o0)) c ltac:(lia)) as [fmt Hf].
  assert (isMsaa = true -> c < length (gBufferColorMSAA (m_res o))) as Hlm'.
  { intros Hm. rewrite Hm1. specialize (Hlm Hm). lia. }
  eapply wp_mono;
    [apply (initResources_color_events device isMsaa c o w alloc fmt);
       rewrite ?Hi, ?Hc1, ?Hu1; auto; lia
    | | done].
  intros _ [o' w'] (col & uiv & ms & Hupd & Ht'). cbn [fst snd] in *.
  destruct Hupd as (Hc' & Hu' & Hm' & Hd' & Hs' & Hi' & Hz' & Hl').
  split.
  - unfold steady. cbn [fst snd]. rewrite Hc', Hu', Hm', Hs', Hi', Hz', Hl'.
    rewrite !length_insert. destruct Hst as (? & ? & ? & ? & ? & ? & ?). cbn [fst snd] in *.
    repeat split; try done. destruct isMsaa; [by rewrite length_insert|done].
  - rewrite Ht', Ht, Hi, Hz, <- app_assoc. f_equal. symmetry.
    apply color_events_step; try done; rewrite ?Hc1, ?Hu1; lia.
Qed.

(** The depth block, when it succeeds, logs exactly [depth_events] of
    the depth image it leaves. *)
Lemma initResources_depth_events o w alloc :
  allocator (m_info o) = Some alloc ->
  wp initResources_depth
     (fun _ s' =>
        same_but_depth o (fst s') /\
        trace (snd s') =
          trace w ++ depth_events (m_info o) (m_size o) (gBufferDepth (m_res (fst s'))))
     (fun _ _ => True)
     (o, w).
Proof.
  intros Ha. unfold initResources_depth, setObjectName, depth_events.
  apply wp_bind, wp_this. simpl.
  destruct (depthFormat (m_info o) =? 0)%N eqn:Hd; simpl.
  - apply wp_ret. simpl. by rewrite app_nil_r.
  - rewrite Ha. wp_auto. apply wp_createImage; [|done].
    intros img view w1 Himg Hview Ht1. wp_auto.
    split; [done|]. solve_trace.
Qed.

Lemma round_events_handles device info size isMsaa c fmt col col' uiv ms ms' :
  handles_of col' = handles_of col ->
  handles_of ms' = handles_of ms ->
  round_events device info size isMsaa c fmt col' uiv ms' =
  round_events device info size isMsaa c fmt col uiv ms.
Proof.
  unfold handles_of, round_events. intros [= -> -> _] [= -> -> _]. done.
Qed.

Lemma color_events_handles device info size isMsaa q q' n :
  handles_of <$> gBufferColor q' = handles_of <$> gBufferColor q ->
  handles_of <$> gBufferColorMSAA q' = handles_of <$> gBufferColorMSAA q ->
  uiImageViews q' = uiImageViews q ->
  n <= length (gBufferColor q) ->
  (isMsaa = true -> n <= length (gBufferColorMSAA q)) ->
  color_events device info size isMsaa q' n = color_events device info size isMsaa q n.
Proof.
  intros Hc Hm Hu Hlc Hlm. unfold color_events. apply flat_map_ext_seq. intros c Hlt.
  rewrite Hu. destruct isMsaa eqn:HisMsaa.
  - apply round_events_handles.
    + apply (fmap_eq_lookup_total handles_of); [done|lia].
    + apply (fmap_eq_lookup_total handles_of); [done|]. specialize (Hlm eq_refl). lia.
  - unfold round_events.
    pose proof (fmap_eq_lookup_total handles_of _ _ c Hc ltac:(lia)) as Hh.
    unfold handles_of in Hh. injection Hh as -> -> _. done.
Qed.

Lemma initResources_body_events cmd o w alloc o' w' :
  allocator (m_info o) = Some alloc ->
  initResources_body cmd (o, w) = Ret tt (o', w') ->
  trace w' = trace w ++ construction_events cmd (getDevice alloc) o'.
Proof.
  intros Ha. rewrite (initResources_body_run _ _ _ alloc Ha).
  set (numColor := uint32_of_size (length (colorFormats (m_info o)))).
  set (n := N.to_nat numColor).
  set (isMsaa := (1 <? sampleCount (m_info o))%N).
  match goal with |- context [(_ (set_m_res ?q o, w))] => set (q1 := q) end.
  set (o1 := set_m_res q1 o).
  assert (steady (o1, w) (o1, w)) as H11 by apply rel_refl.
  assert (forall s, steady (o1, w) s ->
            shaped n isMsaa (m_res (fst s)) /\ m_info (fst s) = m_info o /\
            m_size (fst s) = m_size o) as Hdone.
  { intros [o2 w2] (Hc & Hm & Hu & _ & _ & Hi & Hz). unfold shaped.
    cbn [fst snd] in *. rewrite Hc, Hm, Hu, Hi, Hz. simpl. rewrite !length_resize.
    repeat split. intros ->. by rewrite length_resize. }
  destruct (Hdone _ H11) as ((Hlc1 & Hlu1 & Hlm1) & _). cbn [fst snd] in *.
  (* the first loop *)
  rewrite bind_run.
  pose proof (sat_run _ _ _ (o1, w) (color_loop_steady (getDevice alloc) isMsaa n)) as H1.
  pose proof (initResources_color_loop_events (getDevice alloc) isMsaa n o1 w alloc Ha
                (uint32_of_size_le _) ltac:(lia) ltac:(lia)
                ltac:(intros Hm; specialize (Hlm1 Hm); lia)) as E1.
  unfold wp in E1.
  destruct (forM_ _ _ _) as [[] [o2 w2]|res2 s2|]; [|done..].
  cbn [fst snd] in E1.
  destruct (Hdone _ H1) as ((Hlc2 & Hlu2 & Hlm2) & Hi2 & Hz2). cbn [fst snd] in *.
  (* the depth block *)
  rewrite bind_run.
  pose proof (sat_run _ _ _ (o2, w2) initResources_depth_steady) as H2.
  pose proof (initResources_depth_events o2 w2 alloc ltac:(by rewrite Hi2)) as E2.
  unfold wp in E2.
  destruct (initResources_depth _) as [[] [o3 w3]|res3 s3|]; [|done..].
  destruct E2 as [(Hc3 & Hm3 & Hu3 & _) E2]. cbn [fst snd] in *.
  assert (steady (o1, w) (o3, w3)) as H13 by (by eapply steady_trans).
  destruct (Hdone _ H13) as (Hsh3 & Hi3 & Hz3). cbn [fst snd] in *.
  (* the clear block *)
  rewrite bind_run.
  pose proof (sat_run _ _ _ (o3, w3)
                (initResources_clear_steady cmd VK_IMAGE_LAYOUT_SHADER_READ_ONLY_OPTIMAL
                   isMsaa n)) as H3.
  pose proof (sat_run _ _ _ (o3, w3)
                (initResources_clear_handles cmd VK_IMAGE_LAYOUT_SHADER_READ_ONLY_OPTIMAL
                   isMsaa n)) as S3.
  pose proof (initResources_clear_wp cmd isMsaa n o3 w3 Hsh3) as E3.
  unfold wp in E3.
  destruct (initResources_clear _ _ _ _ _) as [[] [o4 w4]|res4 s4|]; [|done..].
  destruct E3 as [Hw4 Hsame4]. cbn [fst snd] in Hw4, Hsame4.
  destruct S3 as (Sc & Sm & Sd & Su & _). cbn [fst snd] in *.
  assert (steady (o1, w) (o4, w4)) as H14 by (by eapply steady_trans).
  destruct (Hdone _ H14) as ((Hlc4 & Hlu4 & Hlm4) & Hi4 & Hz4). cbn [fst snd] in *.
  (* the descriptors *)
  pose proof (initResources_ui_wp (getDevice alloc) numColor o4 w4 Hlu4) as E4.
  unfold wp in E4. intros Hrun. rewrite Hrun in E4.
  assert (trace w4 =
          trace w ++
          color_events (getDevice alloc) (m_info o) (m_size o) isMsaa (m_res o4) n ++
          depth_events (m_info o) (m_size o) (gBufferDepth (m_res o4)) ++
          (EvCmd cmd <$> three_phases (attachments isMsaa (m_res o4)))) as Ht4.
  { rewrite Hw4. simpl. rewrite E2, E1, Hi2, Hz2. simpl. rewrite <- !app_assoc.
    f_equal. f_equal; [|f_equal].
    - rewrite (color_events_handles _ _ _ _ (m_res o3) (m_res o4));
        [|done|done|done|destruct Hsh3 as (-> & _); lia
         |intros Hm; destruct Hsh3 as (_ & _ & Hl); rewrite Hl by done; lia].
      unfold color_events. by rewrite Hc3, Hm3, Hu3.
    - unfold depth_events. unfold handles_of in Sd. injection Sd as -> -> _. done.
    - by rewrite (images_same_attachments isMsaa n (m_res o3) (m_res o4) Hsame4 Hsh3). }
  unfold construction_events. cbn [fst snd].
  destruct (N.eqb_spec (descriptorPool (m_info o4)) 0) as [Hp|Hp].
  - simplify_eq. rewrite Hi4 in Hp. rewrite Hi4, Hz4, Hlc4. fold isMsaa.
    rewrite Hp. simpl. rewrite app_nil_r. done.
  - destruct E4 as (new & Ht' & (Hc' & Hm' & Hd' & Hu' & Hi' & Hz') & (_ & _ & _ & ->)).
    cbn [fst snd] in *. rewrite Hi', Hz', Hi4, Hz4. fold isMsaa numColor.
    rewrite Hi4 in Hp. destruct (N.eqb_spec (descriptorPool (m_info o)) 0); [done|].
    rewrite Ht', Ht4, <- !app_assoc.
    unfold color_events, attachments, round_atts, depth_atts.
    rewrite Hc', Hm', Hd', Hu', Hlc4, Hi4. done.
Qed.

(** X18: the complete sequence of calls of a successful update that
    rebuilt, read off the manager it leaves: the device wait; the
    teardown of the old bundle; then for each colour format in the order
    of the indices the creation of the colour image and view, their two
    names "G-Color<i>", the creation of the UI view and its name
    "UI G-Color<i>", and with multisampling the creation of the
    multisampled image and view and their two names "G-Color-MSAA-<i>";
    then the depth image and view with their two names "G-Depth" when a
    depth format is configured; then the three phases of commands; then,
    with a descriptor pool, the creation of the layout, the allocation
    of the sets and the one update that writes them.  There is no other
    call. *)
Theorem update_exact_calls cmd newSize newSampleCount o w o' w' :
  ~ requested newSize newSampleCount o ->
  update cmd newSize newSampleCount (o, w) = Ret VK_SUCCESS (o', w') ->
  exists alloc,
    allocator (m_info o') = Some alloc /\
    trace w' =
      trace w ++ [EvDeviceWaitIdle (getDevice alloc)] ++ teardown_events alloc o ++
      construction_events cmd (getDevice alloc) o'.
Proof.
  intros Hreq Hrun.
  destruct (update_frame _ _ _ _ _ _ _ _ Hrun) as [_ Hinfo].
  destruct (allocator (m_info o)) as [alloc|] eqn:Ha;
    [|by rewrite update_null_allocator in Hrun by auto using not_requested].
  exists alloc. split; [by rewrite Hinfo|].
  rewrite (update_rebuild_prepared _ _ _ _ _ alloc) in Hrun by done.
  rewrite initResources_run in Hrun.
  match type of Hrun with
  | context [initResources_body cmd (?o1, ?w1)] =>
      pose proof (initResources_body_events cmd o1 w1 alloc o' w' Ha) as Hev;
      pose proof (initResources_body_oracle cmd (o1, w1)) as Hor
  end.
  destruct (initResources_body _ _) as [[] s'|res' s'|]; [| |done].
  - simplify_eq. rewrite (Hev eq_refl). simpl. by rewrite <- !app_assoc.
  - simplify_eq. by destruct Hor as (_ & ? & _).
Qed.

(** * The further properties at concrete runs *)

Lemma example_built_run :
  update example_cmd example_size VK_SAMPLE_COUNT_4_BIT
    (example_initialised example_pool VK_SAMPLE_COUNT_4_BIT, example_world) =
  Ret VK_SUCCESS (fst example_built, snd example_built).
Proof. vm_compute. reflexivity. Defined.

Lemma example_partial_run :
  update example_cmd example_size VK_SAMPLE_COUNT_4_BIT
    (example_initialised example_pool VK_SAMPLE_COUNT_4_BIT, world0 (example_failing 3)) =
  Ret VK_ERROR_OUT_OF_DEVICE_MEMORY (fst example_partial, snd example_partial).
Proof. vm_compute. reflexivity. Defined.

Lemma example_not_requested :
  ~ requested example_size VK_SAMPLE_COUNT_4_BIT
      (example_initialised example_pool VK_SAMPLE_COUNT_4_BIT).
Proof. intros [H _]. discriminate H. Defined.

Lemma example_built_reachable : reachable (fst example_built).
Proof.
  exact (reach_update _ _ _ _ _ _ _ _
           (example_reachable example_pool VK_SAMPLE_COUNT_4_BIT) example_built_run).
Defined.

Lemma update_stores_request_witness :
  getSize (fst example_partial) = example_size /\
  getSampleCount (fst example_partial) = VK_SAMPLE_COUNT_4_BIT /\
  getDepthFormat (fst example_partial) =
    getDepthFormat (example_initialised example_pool VK_SAMPLE_COUNT_4_BIT) /\
  (forall i, getColorFormat (fst example_partial) i =
             getColorFormat (example_initialised example_pool VK_SAMPLE_COUNT_4_BIT) i) /\
  allocator (m_info (fst example_partial)) = Some example_alloc /\
  imageSampler (m_info (fst example_partial)) = 1002%N /\
  descriptorPool (m_info (fst example_partial)) = example_pool.
Proof.
  exact (update_stores_request _ _ _ _ _ _ _ _ example_partial_run).
Defined.

Lemma update_size_keeps_configuration_witness :
  update_size example_cmd example_size (fst example_built, snd example_built) =
    Ret VK_SUCCESS (fst example_built, snd example_built) /\
  (forall res o' w',
     update_size example_cmd example_larger (fst example_built, snd example_built) =
       Ret res (o', w') ->
     m_info o' = m_info (fst example_built) /\ getSize o' = example_larger).
Proof.
  destruct (update_size_keeps_configuration example_cmd example_size
              (fst example_built) (snd example_built)) as [_ Hsame].
  destruct (update_size_keeps_configuration example_cmd example_larger
              (fst example_built) (snd example_built)) as [Hkeep _].
  split; [apply Hsame; reflexivity|exact Hkeep].
Defined.

Lemma update_undefined_iff_witness :
  (update example_cmd example_size VK_SAMPLE_COUNT_1_BIT (GBuffer_default, example_world) =
     Undef <->
   ~ requested example_size VK_SAMPLE_COUNT_1_BIT GBuffer_default /\
   allocator (m_info GBuffer_default) = None) /\
  (forall res s',
     update example_cmd example_size VK_SAMPLE_COUNT_1_BIT (GBuffer_default, example_world) <>
     Early res s').
Proof.
  apply (update_undefined_iff example_cmd example_size VK_SAMPLE_COUNT_1_BIT
           GBuffer_default example_world).
  apply reach_fresh.
Defined.

Lemma init_needs_deinit_witness :
  (exists w', (deinit;; init (example_info 0 VK_SAMPLE_COUNT_1_BIT))
                (fst example_built, snd example_built) =
              Ret tt (example_initialised 0 VK_SAMPLE_COUNT_1_BIT, w')) /\
  (init (example_info example_pool VK_SAMPLE_COUNT_4_BIT);;
   update_size example_cmd example_size;;
   init (example_info 0 VK_SAMPLE_COUNT_1_BIT)) (GBuffer_default, example_world) = Undef /\
  (init example_info_empty;; init (example_info 0 VK_SAMPLE_COUNT_1_BIT))
    (GBuffer_default, example_world) =
    Ret tt (example_initialised 0 VK_SAMPLE_COUNT_1_BIT, example_world).
Proof.
  destruct (init_needs_deinit (example_info example_pool VK_SAMPLE_COUNT_4_BIT)
              (example_info 0 VK_SAMPLE_COUNT_1_BIT) example_cmd example_size
              (fst example_built) (snd example_built)) as (H1 & _ & _).
  destruct (init_needs_deinit (example_info example_pool VK_SAMPLE_COUNT_4_BIT)
              (example_info 0 VK_SAMPLE_COUNT_1_BIT) example_cmd example_size
              GBuffer_default example_world) as (_ & H2 & _).
  destruct (init_needs_deinit example_info_empty
              (example_info 0 VK_SAMPLE_COUNT_1_BIT) example_cmd example_size
              GBuffer_default example_world) as (_ & _ & H3).
  split; [exact H1|]. split; [apply H2; discriminate|apply H3; reflexivity].
Defined.

Lemma destructor_needs_deinit_witness :
  (exists w', (deinit;; destroy_GBuffer) (fst example_built, snd example_built) =
              Ret tt (GBuffer_default, w')) /\
  (init (example_info example_pool VK_SAMPLE_COUNT_4_BIT);;
   update_size example_cmd example_size;;
   destroy_GBuffer) (GBuffer_default, example_world) = Undef.
Proof.
  destruct (destructor_needs_deinit (example_info example_pool VK_SAMPLE_COUNT_4_BIT)
              example_alloc example_cmd example_size
              (fst example_built) (snd example_built)) as (H1 & _).
  destruct (destructor_needs_deinit (example_info example_pool VK_SAMPLE_COUNT_4_BIT)
              example_alloc example_cmd example_size
              GBuffer_default example_world) as (_ & H2).
  split; [exact H1|apply H2; reflexivity].
Defined.

Lemma move_assign_swaps_witness :
  (move_assign 1 2 example_store =
     Some (<[1%positive := fst example_built]> (<[2%positive := GBuffer_default]> example_store)) /\
   (move_assign 1 2 example_store ≫= move_assign 2 1) = Some example_store) /\
  move_assign 2 1 example_store = None.
Proof.
  destruct (move_assign_swaps example_store 1 2 GBuffer_default (fst example_built))
    as [Hswap _]; [vm_compute; reflexivity|vm_compute; reflexivity|discriminate|].
  destruct (move_assign_swaps example_store 2 1 (fst example_built) GBuffer_default)
    as [_ Hfail]; [vm_compute; reflexivity|vm_compute; reflexivity|discriminate|].
  split; [apply Hswap; reflexivity|apply Hfail; vm_compute; discriminate].
Defined.

Lemma example_small :
  (N.of_nat (length (colorFormats
                       (m_info (example_initialised example_pool VK_SAMPLE_COUNT_4_BIT)))) <
   2 ^ 32)%N.
Proof. vm_compute. reflexivity. Defined.

Lemma accessors_in_range_witness :
  (is_Some (getColorImage (fst example_partial) 1) <-> 1 < 2) /\
  (is_Some (getColorImageView (fst example_partial) 1) <-> 1 < 2) /\
  (is_Some (getDescriptorImageInfo (fst example_partial) 1) <-> 1 < 2) /\
  (is_Some (getRenderImageView (fst example_partial) 1) <-> 1 < 2) /\
  (is_Some (getColorFormat (fst example_partial) 1) <-> 1 < 2) /\
  (is_Some (getColorMSAAImage (fst example_partial) 1) <->
   (VK_SAMPLE_COUNT_1_BIT < VK_SAMPLE_COUNT_4_BIT)%N /\ 1 < 2).
Proof.
  exact (accessors_in_range _ _ _ _ _ _ _ _ 1 example_small example_not_requested
           example_partial_run).
Defined.

Lemma descriptor_info_after_update_witness :
  exists view,
    view <> VK_NULL_HANDLE /\
    getColorImageView (fst example_built) 1 = Some view /\
    getDescriptorImageInfo (fst example_built) 1 =
      Some {| sampler := 1002%N; imageView := view;
              imageLayout := VK_IMAGE_LAYOUT_SHADER_READ_ONLY_OPTIMAL |}.
Proof.
  apply (descriptor_info_after_update example_cmd example_size VK_SAMPLE_COUNT_4_BIT
           (example_initialised example_pool VK_SAMPLE_COUNT_4_BIT) example_world
           (fst example_built) (snd example_built) 1).
  - apply example_reachable.
  - exact example_small.
  - exact example_not_requested.
  - exact example_built_run.
  - vm_compute. lia.
Defined.

Lemma render_view_after_update_witness :
  exists view,
    view <> VK_NULL_HANDLE /\
    getRenderImageView (fst example_built) 1 = Some view /\
    exists img info viewInfo,
      getColorMSAAImage (fst example_built) 1 = Some img /\
      samples info = VK_SAMPLE_COUNT_4_BIT /\
      EvCreateImage info viewInfo VK_SUCCESS img view ∈ trace (snd example_built).
Proof.
  apply (render_view_after_update example_cmd example_size VK_SAMPLE_COUNT_4_BIT
           (example_initialised example_pool VK_SAMPLE_COUNT_4_BIT) example_world
           (fst example_built) (snd example_built) 1).
  - apply example_reachable.
  - exact example_small.
  - exact example_not_requested.
  - exact example_built_run.
  - vm_compute. lia.
Defined.

Lemma update_leaks_nothing_witness :
  layout_owned (fst example_partial) /\
  exists alloc evs,
    allocator (m_info (fst example_partial)) = Some alloc /\
    trace (snd example_partial) =
      [] ++ EvDeviceWaitIdle (getDevice alloc) ::
        teardown_events alloc (example_initialised example_pool VK_SAMPLE_COUNT_4_BIT) ++
        evs /\
    forall e h, e ∈ evs -> h ∈ created e -> h <> VK_NULL_HANDLE ->
      exists e', e' ∈ teardown_events alloc (fst example_partial) /\ h ∈ destroyed e'.
Proof.
  apply (update_leaks_nothing example_cmd example_size VK_SAMPLE_COUNT_4_BIT
           (example_initialised example_pool VK_SAMPLE_COUNT_4_BIT)
           (world0 (example_failing 3)) VK_ERROR_OUT_OF_DEVICE_MEMORY).
  - apply example_reachable.
  - exact example_small.
  - left. discriminate.
  - intros H. exfalso. apply H. reflexivity.
  - exact example_not_requested.
  - exact example_partial_run.
Defined.

Lemma example_empty_reachable : reachable (set_m_info example_info_empty GBuffer_default).
Proof.
  exact (reach_init GBuffer_default example_world example_info_empty _ example_world
           reach_fresh eq_refl).
Defined.

Lemma layout_lost_without_formats_witness :
  m_descLayout (fst example_updated_empty) <> VK_NULL_HANDLE /\
  uiDescriptorSets (m_res (fst example_updated_empty)) = [] /\
  (exists device info,
     EvCreateDescriptorSetLayout device info VK_SUCCESS
       (m_descLayout (fst example_updated_empty)) ∈ trace (snd example_updated_empty)) /\
  exists w'' evs,
    deinit (fst example_updated_empty, snd example_updated_empty) =
      Ret tt (GBuffer_default, w'') /\
    trace w'' = trace (snd example_updated_empty) ++ evs /\
    Forall keeps_layouts evs.
Proof.
  apply (layout_lost_without_formats example_cmd example_size VK_SAMPLE_COUNT_1_BIT
           (set_m_info example_info_empty GBuffer_default) example_world).
  - apply example_empty_reachable.
  - reflexivity.
  - discriminate.
  - intros [H _]. discriminate H.
  - vm_compute. reflexivity.
Defined.

Lemma reachable_invariant_witness :
  (getDepthImage (fst example_partial) = VK_NULL_HANDLE ->
   getDepthImageView (fst example_partial) = VK_NULL_HANDLE) /\
  (is_Some (getDescriptorSet (fst example_partial) 0) ->
   descriptorPool (m_info (fst example_partial)) <> VK_NULL_HANDLE /\
   allocator (m_info (fst example_partial)) <> None) /\
  (is_Some (getRenderImageView (fst example_partial) 0) <->
   is_Some (getColorImageView (fst example_partial) 0)) /\
  (is_Some (getColorMSAAImage (fst example_partial) 0) ->
   is_Some (getColorImage (fst example_partial) 0)).
Proof.
  apply (reachable_invariant (fst example_partial) 0).
  exact (reach_update _ _ _ _ _ _ _ _
           (example_reachable example_pool VK_SAMPLE_COUNT_4_BIT) example_partial_run).
Defined.

Lemma update_succeeds_when_driver_does_witness :
  exists o' w',
    update example_cmd example_larger VK_SAMPLE_COUNT_1_BIT
      (fst example_built, snd example_built) = Ret VK_SUCCESS (o', w').
Proof.
  apply (update_succeeds_when_driver_does example_cmd example_larger VK_SAMPLE_COUNT_1_BIT
           (fst example_built) (snd example_built) example_alloc).
  - exact example_built_reachable.
  - vm_compute. reflexivity.
  - intros j _. reflexivity.
Defined.

Lemma failed_update_commands_witness :
  exists alloc evs e,
    allocator (m_info (example_initialised example_pool VK_SAMPLE_COUNT_4_BIT)) = Some alloc /\
    trace (snd example_partial) =
      [] ++ EvDeviceWaitIdle (getDevice alloc) ::
        teardown_events alloc (example_initialised example_pool VK_SAMPLE_COUNT_4_BIT) ++
        evs /\
    last evs = Some e /\
    event_result e = Some VK_ERROR_OUT_OF_DEVICE_MEMORY /\
    recorded_at_failure example_cmd (VK_SAMPLE_COUNT_1_BIT <? VK_SAMPLE_COUNT_4_BIT)%N
      (m_res (fst example_partial)) evs e.
Proof.
  apply (failed_update_commands example_cmd example_size VK_SAMPLE_COUNT_4_BIT
           (example_initialised example_pool VK_SAMPLE_COUNT_4_BIT)
           (world0 (example_failing 3))).
  - exact example_not_requested.
  - exact example_partial_run.
  - discriminate.
Defined.

Lemma update_exact_calls_witness :
  exists alloc,
    allocator (m_info (fst example_built)) = Some alloc /\
    trace (snd example_built) =
      [] ++ [EvDeviceWaitIdle (getDevice alloc)] ++
      teardown_events alloc (example_initialised example_pool VK_SAMPLE_COUNT_4_BIT) ++
      construction_events example_cmd (getDevice alloc) (fst example_built).
Proof.
  apply (update_exact_calls example_cmd example_size VK_SAMPLE_COUNT_4_BIT
           (example_initialised example_pool VK_SAMPLE_COUNT_4_BIT) example_world).
  - exact example_not_requested.
  - exact example_built_run.
Defined.

Lemma aspect_ratio_after_update_witness :
  getAspectRatio (fst example_partial) =
    f32_div (float_of_uint32 600) (float_of_uint32 480).
Proof.
  exact (aspect_ratio_after_update _ _ _ _ _ _ _ _ example_partial_run).
Defined.

Lemma update_twice_witness :
  update example_cmd example_size VK_SAMPLE_COUNT_4_BIT
    (fst example_built, snd example_built) =
  Ret VK_SUCCESS (fst example_built, snd example_built).
Proof.
  exact (update_twice _ example_cmd _ _ _ _ _ _ _ example_built_run).
Defined.

(** * The results of the creation calls *)

Lemma results_app evs1 evs2 : results (evs1 ++ evs2) = results evs1 ++ results evs2.
Proof. apply omap_app. Qed.

Lemma answers_app w n1 n2 :
  answers w (n1 + n2) =
  answers w n1 ++ (oracle w <$> seq (calls w + n1) n2).
Proof. unfold answers. by rewrite seq_app, fmap_app. Qed.

Lemma answered_refl s : answered s s.
Proof.
  split; [done|]. exists []. rewrite app_nil_r. simpl. split; [done|].
  split; [lia|]. split; [done|constructor].
Qed.

Lemma answered_trans s1 s2 s3 : answered s1 s2 -> answered s2 s3 -> answered s1 s3.
Proof.
  intros (Ho1 & evs1 & Ht1 & Hc1 & Hr1 & Hs1) (Ho2 & evs2 & Ht2 & Hc2 & Hr2 & Hs2).
  split; [congruence|]. exists (evs1 ++ evs2).
  rewrite results_app, length_app, answers_app.
  split; [by rewrite Ht2, Ht1, <- app_assoc|]. split; [lia|].
  split; [|by apply Forall_app].
  f_equal; [done|]. etrans; [exact Hr2|]. unfold answers. by rewrite Ho1, Hc1.
Qed.

Lemma answered_refused res s1 s2 s3 : answered s1 s2 -> refused res s2 s3 -> refused res s1 s3.
Proof.
  intros (Ho1 & evs1 & Ht1 & Hc1 & Hr1 & Hs1) (Ho2 & Hne & evs2 & e & Ht2 & He & Hc2 & Hr2 & Hs2).
  split; [congruence|]. split; [done|]. exists (evs1 ++ evs2), e.
  rewrite <- !app_assoc. rewrite (results_app evs1), length_app, answers_app.
  split; [by rewrite Ht2, Ht1, <- !app_assoc|]. split; [done|]. split; [lia|].
  split.
  - f_equal; [done|]. etrans; [exact Hr2|]. unfold answers. by rewrite Ho1, Hc1.
  - rewrite results_app. by apply Forall_app.
Qed.

Global Instance answered_ok : RelOK answered refused.
Proof.
  split; [apply answered_refl|apply answered_trans|apply answered_refused].
Qed.

Lemma answered_no_call o w o' w' evs :
  oracle w' = oracle w -> calls w' = calls w -> trace w' = trace w ++ evs ->
  results evs = [] ->
  answered (o, w) (o', w').
Proof.
  intros Ho Hc Ht Hr. split; [done|]. exists evs. cbn [fst snd]. rewrite Hr. simpl.
  split; [done|]. split; [lia|]. split; [done|constructor].
Qed.

Lemma sat_emit_answered e : event_result e = None -> sat answered refused (emit e).
Proof.
  intros He [o w]. apply (answered_no_call _ _ _ _ [e]); try done.
  unfold results. simpl. by rewrite He.
Qed.
Lemma sat_fresh_answered : sat answered refused fresh.
Proof. intros [o w]. apply (answered_no_call _ _ _ _ []); try done. simpl. by rewrite app_nil_r. Qed.
Lemma sat_modify_answered f : sat answered refused (modify f).
Proof. intros [o w]. apply (answered_no_call _ _ _ _ []); try done. simpl. by rewrite app_nil_r. Qed.
Lemma sat_modify_res_answered f : sat answered refused (modify_res f).
Proof. intros [o w]. apply (answered_no_call _ _ _ _ []); try done. simpl. by rewrite app_nil_r. Qed.

(** One creation call: the driver is asked once and the call is logged
    with the answer. *)
Lemma one_call_answered o w o' w' e :
  oracle w' = oracle w -> calls w' = S (calls w) -> oracle w (calls w) = VK_SUCCESS ->
  trace w' = trace w ++ [e] -> event_result e = Some (oracle w (calls w)) ->
  answered (o, w) (o', w').
Proof.
  intros Ho Hc Hr Ht He. split; [done|]. exists [e]. cbn [fst snd].
  unfold results, answers. simpl. rewrite He. simpl.
  split; [done|]. split; [lia|]. split; [done|]. by constructor.
Qed.

Lemma one_call_refused o w o' w' e :
  oracle w' = oracle w -> calls w' = S (calls w) -> oracle w (calls w) <> VK_SUCCESS ->
  trace w' = trace w ++ [e] -> event_result e = Some (oracle w (calls w)) ->
  refused (oracle w (calls w)) (o, w) (o', w').
Proof.
  intros Ho Hc Hr Ht He. split; [done|]. split; [done|]. exists [], e. cbn [fst snd].
  unfold results, answers. simpl. rewrite He. simpl.
  split; [done|]. split; [done|]. split; [lia|]. split; [done|constructor].
Qed.

Lemma sat_createImage_answered alloc store info viewInfo :
  assigns store ->
  sat answered refused (NVVK_FAIL_RETURN (createImage alloc store info viewInfo)).
Proof.
  intros Hst [o w].
  unfold NVVK_FAIL_RETURN, createImage, mbind, M_bind, driver_result, fresh, emit. simpl.
  destruct (Z.eqb_spec (oracle w (calls w)) 0) as [Heq|Hne]; simpl.
  - match goal with |- context [store ?x ?s] => destruct (Hst x s) as [o' ->] end.
    unfold mret, M_ret. simpl. rewrite Heq. simpl.
    eapply one_call_answered; simpl; [done|done|done|done|]. simpl. by rewrite Heq.
  - unfold mret, M_ret. destruct (Z.eqb_spec (oracle w (calls w)) 0); [done|].
    unfold early. by eapply one_call_refused.
Qed.

Lemma sat_createImageView_answered device viewInfo store :
  assigns store ->
  sat answered refused (NVVK_FAIL_RETURN (vkCreateImageView device viewInfo store)).
Proof.
  intros Hst [o w].
  unfold NVVK_FAIL_RETURN, vkCreateImageView, mbind, M_bind, driver_result, fresh, emit.
  simpl.
  destruct (Z.eqb_spec (oracle w (calls w)) 0) as [Heq|Hne]; simpl.
  - match goal with |- context [store ?x ?s] => destruct (Hst x s) as [o' ->] end.
    unfold mret, M_ret. simpl. rewrite Heq. simpl.
    eapply one_call_answered; simpl; [done|done|done|done|]. simpl. by rewrite Heq.
  - unfold mret, M_ret. destruct (Z.eqb_spec (oracle w (calls w)) 0); [done|].
    unfold early. by eapply one_call_refused.
Qed.

Lemma sat_createDescriptorSetLayout_answered device info store :
  assigns store ->
  sat answered refused
      (NVVK_FAIL_RETURN (vkCreateDescriptorSetLayout device info store)).
Proof.
  intros Hst [o w].
  unfold NVVK_FAIL_RETURN, vkCreateDescriptorSetLayout, mbind, M_bind, driver_result, fresh,
    emit. simpl.
  destruct (Z.eqb_spec (oracle w (calls w)) 0) as [Heq|Hne]; simpl.
  - match goal with |- context [store ?x ?s] => destruct (Hst x s) as [o' ->] end.
    unfold mret, M_ret. simpl. rewrite Heq. simpl.
    eapply one_call_answered; simpl; [done|done|done|done|]. simpl. by rewrite Heq.
  - unfold mret, M_ret. destruct (Z.eqb_spec (oracle w (calls w)) 0); [done|].
    unfold early. by eapply one_call_refused.
Qed.

Lemma sat_allocateDescriptorSets_answered device info out store :
  assigns store ->
  sat answered refused
      (NVVK_FAIL_RETURN (vkAllocateDescriptorSets device info out store)).
Proof.
  intros Hst [o w].
  unfold NVVK_FAIL_RETURN, vkAllocateDescriptorSets. unfold mbind at 1 2, M_bind at 1 2.
  destruct (bool_decide _); simpl; [|done].
  unfold mbind at 1, M_bind at 1, driver_result. simpl.
  destruct (Z.eqb_spec (oracle w (calls w)) 0) as [Heq|Hne]; simpl.
  - unfold mbind at 1, M_bind at 1.
    match goal with |- context [fresh_n ?n (o, ?w1)] =>
      destruct (fresh_n_run n o w1) as (hs & w' & -> & Hl & Hnz & Htr & Hor & Hca) end.
    unfold mbind, M_bind, emit. simpl.
    match goal with |- context [store ?x ?s] => destruct (Hst x s) as [o' ->] end.
    unfold mret, M_ret. simpl. rewrite Heq. simpl.
    eapply one_call_answered; simpl; [done|done|done|by rewrite Htr|]. simpl. by rewrite Heq.
  - unfold mbind, M_bind, emit. simpl.
    match goal with |- context [store ?x ?s] => destruct (Hst x s) as [o' ->] end.
    unfold mret, M_ret. destruct (Z.eqb_spec (oracle w (calls w)) 0); [done|].
    unfold early. by eapply one_call_refused.
Qed.

Create HintDb sat_answered discriminated.
#[global] Hint Resolve sat_fresh_answered sat_modify_answered sat_modify_res_answered
  assigns_modify assigns_modify_res : sat_answered.

Lemma initResources_body_answered cmd : sat answered refused (initResources_body cmd).
Proof.
  unfold initResources_body, initResources_color, initResources_depth, initResources_ui,
    set_color_at, set_msaa_at, set_uiView_at.
  sat_syntax ltac:(first
    [ solve [eauto with sat_answered]
    | apply sat_emit_answered; reflexivity
    | apply sat_createImage_answered; solve [eauto with sat_answered]
    | apply sat_createImageView_answered; solve [eauto with sat_answered]
    | apply sat_createDescriptorSetLayout_answered; solve [eauto with sat_answered]
    | apply sat_allocateDescriptorSets_answered; solve [eauto with sat_answered] ]).
Qed.

(** The creation calls of a rebuild: their logged results are the
    driver's answers, in order; all succeeded and so does update, or the
    last event logged is the one refused call, whose result update
    returns. *)
Lemma update_rebuild_answers cmd newSize newSampleCount o w alloc res o' w' :
  ~ requested newSize newSampleCount o ->
  allocator (m_info o) = Some alloc ->
  update cmd newSize newSampleCount (o, w) = Ret res (o', w') ->
  exists evs,
    trace w' =
      trace w ++ EvDeviceWaitIdle (getDevice alloc) :: teardown_events alloc o ++ evs /\
    oracle w' = oracle w /\
    calls w' = calls w + length (results evs) /\
    results evs = answers w (length (results evs)) /\
    ((res = VK_SUCCESS /\ Forall (fun r => r = VK_SUCCESS) (results evs)) \/
     (res <> VK_SUCCESS /\
      exists evs0 e,
        evs = evs0 ++ [e] /\ event_result e = Some res /\
        Forall (fun r => r = VK_SUCCESS) (results evs0))).
Proof.
  intros Hreq Ha Hrun.
  rewrite (update_rebuild_prepared _ _ _ _ _ alloc) in Hrun by done.
  rewrite initResources_run in Hrun.
  match type of Hrun with context [initResources_body cmd ?s] =>
    pose proof (sat_run _ _ _ s (initResources_body_answered cmd)) as Hans end.
  destruct (initResources_body _ _) as [[] s'|res' s'|]; simplify_eq.
  - destruct Hans as (Ho & evs & Ht & Hc & Hr & Hs). cbn [fst snd] in *.
    exists evs. simpl in Ht. rewrite <- !app_assoc in Ht. simpl in Ht.
    split; [done|]. split; [done|]. split; [done|]. split; [done|]. by left.
  - destruct Hans as (Ho & Hne & evs0 & e & Ht & He & Hc & Hr & Hs). cbn [fst snd] in *.
    exists (evs0 ++ [e]). simpl in Ht. rewrite <- !app_assoc in Ht. simpl in Ht.
    split; [done|]. split; [done|]. split; [done|]. split; [done|].
    right. split; [done|]. by exists evs0, e.
Qed.

(** In a list of results that are the driver's answers, all but the last
    of which are successes, a refused answer is the last one. *)
Lemma refused_answer_last w rs r j :
  rs ++ [r] = answers w (length (rs ++ [r])) ->
  Forall (fun r => r = VK_SUCCESS) rs ->
  calls w <= j < calls w + length (rs ++ [r]) ->
  oracle w j <> VK_SUCCESS ->
  oracle w j = r /\ calls w + length (rs ++ [r]) = S j.
Proof.
  intros Hans Hrs Hj Hne. rewrite length_app in *. simpl in *.
  assert ((rs ++ [r]) !! (j - calls w) = Some (oracle w j)) as Hl.
  { rewrite Hans. unfold answers. rewrite list_lookup_fmap, lookup_seq_lt by lia.
    simpl. f_equal. f_equal. lia. }
  destruct (decide (j - calls w < length rs)) as [Hlt|Hge].
  - rewrite lookup_app_l in Hl by done.
    rewrite Forall_lookup in Hrs. by specialize (Hrs _ _ Hl).
  - rewrite lookup_app_r in Hl by lia.
    assert (j - calls w - length rs = 0) as Hz by lia. rewrite Hz in Hl. simpl in Hl.
    split; [congruence|lia].
Qed.

Lemma results_refused evs1 e evs2 r :
  event_result e = Some r ->
  results (evs1 ++ e :: evs2) = results evs1 ++ r :: results evs2.
Proof. intros He. rewrite results_app. unfold results. simpl. by rewrite He. Qed.

(** In a log that ends with the one refused call, a refused call is that
    last one. *)
Lemma refused_event_last evs0 e0 evs1 e evs2 r :
  evs0 ++ [e0] = evs1 ++ e :: evs2 ->
  Forall (fun r => r = VK_SUCCESS) (results evs0) ->
  event_result e = Some r -> r <> VK_SUCCESS ->
  e = e0 /\ evs2 = [] /\ evs1 = evs0.
Proof.
  intros Heq Hs He Hne. destruct evs2 as [|x evs2 _] using rev_ind.
  - apply app_inj_tail in Heq as [-> ->]. done.
  - change (evs1 ++ e :: evs2 ++ [x]) with (evs1 ++ (e :: evs2) ++ [x]) in Heq.
    rewrite app_assoc in Heq. apply app_inj_tail in Heq as [-> ->].
    rewrite (results_refused _ _ _ _ He) in Hs.
    apply Forall_app in Hs as [_ Hs]. by inversion Hs.
Qed.

(** C4: an update that rebuilds, of a manager reached through the public
    operations and holding an allocator, always returns, and its
    construction log [evs] (the calls after the wait and the teardown)
    obeys the following.  The results logged with the creation calls
    (images, views, the descriptor set layout, the descriptor set
    allocation) are the driver's answers, one per call and in order.  If
    the driver refuses a call, that is, if any creation call is logged
    with a result other than VK_SUCCESS, update returns that call's
    result, all creation calls before it succeeded (it is the first
    failure), and nothing is logged after it: none of the remaining
    construction steps is performed.  The same holds read off the driver:
    a refused answer among those consumed is the last one consumed and is
    the value returned.  update returns VK_SUCCESS exactly when every
    creation call succeeded.  There is no rollback: the construction log
    holds creation, naming, descriptor update and command events only (no
    destroy or free call), and every non-null handle created by a call
    of the log, also of a log cut short by a failure, is held by the
    bundle afterwards. *)
Theorem update_returns_first_failure cmd newSize newSampleCount o w alloc :
  reachable o ->
  allocator (m_info o) = Some alloc ->
  ~ requested newSize newSampleCount o ->
  exists res o' w' evs,
    update cmd newSize newSampleCount (o, w) = Ret res (o', w') /\
    trace w' =
      trace w ++ EvDeviceWaitIdle (getDevice alloc) :: teardown_events alloc o ++ evs /\
    calls w' = calls w + length (results evs) /\
    results evs = answers w (length (results evs)) /\
    (forall evs1 e evs2 r,
       evs = evs1 ++ e :: evs2 -> event_result e = Some r -> r <> VK_SUCCESS ->
       res = r /\ evs2 = [] /\ Forall (fun r => r = VK_SUCCESS) (results evs1)) /\
    (forall j,
       calls w <= j < calls w' -> oracle w j <> VK_SUCCESS ->
       res = oracle w j /\ calls w' = S j) /\
    (res = VK_SUCCESS <-> Forall (fun r => r = VK_SUCCESS) (results evs)) /\
    Forall construct_event evs /\
    all_held evs o'.
Proof.
  intros Hreach Ha Hreq. pose proof (reachable_consistent _ Hreach) as Hcons.
  destruct (update_rebuild_outcome cmd newSize newSampleCount o w alloc Hreq Ha Hcons)
    as (res & o' & w' & Hrun & Hgrow & _).
  destruct (update_rebuild_held _ _ _ _ _ _ _ _ Hreach Hreq Hrun)
    as (alloc' & evs' & Ha' & Ht' & _ & Hheld).
  destruct (update_rebuild_answers _ _ _ _ _ _ _ _ _ Hreq Ha Hrun)
    as (evs & Ht & Ho & Hc & Hr & Hcase).
  assert (alloc' = alloc) as -> by congruence.
  assert (evs' = evs) as ->.
  { rewrite Ht in Ht'. apply app_inv_head in Ht'. injection Ht' as Ht'.
    by apply app_inv_head in Ht'. }
  apply grows_run in Hgrow as (evs' & Htg & Hall). cbn [fst snd] in Htg.
  assert (evs' = evs) as ->.
  { rewrite Ht in Htg. simpl in Htg. rewrite <- !app_assoc in Htg. simpl in Htg.
    apply app_inv_head in Htg. injection Htg as Htg. by apply app_inv_head in Htg. }
  exists res, o', w', evs. do 4 (split; [done|]).
  destruct Hcase as [[-> Hs]|(Hne & evs0 & e0 & -> & He0 & Hs)].
  - split; [|split; [|split; [done|done]]].
    + intros evs1 e evs2 r -> He Hr'. rewrite (results_refused _ _ _ _ He) in Hs.
      apply Forall_app in Hs as [_ Hs]. by inversion Hs.
    + intros j Hj Hnj. exfalso. apply Hnj.
      assert (answers w (length (results evs)) !! (j - calls w) = Some (oracle w j)) as Hl.
      { unfold answers. rewrite list_lookup_fmap, lookup_seq_lt by lia.
        simpl. f_equal. f_equal. lia. }
      rewrite <- Hr in Hl. rewrite Forall_lookup in Hs. exact (Hs _ _ Hl).
  - assert (results (evs0 ++ [e0]) = results evs0 ++ [res]) as Hres.
    { rewrite (results_refused _ _ _ _ He0). done. }
    split; [|split; [|split; [|done]]].
    + intros evs1 e evs2 r Heq He Hr'.
      destruct (refused_event_last _ _ _ _ _ _ Heq Hs He Hr') as (-> & -> & ->).
      split; [congruence|done].
    + intros j Hj Hnj. rewrite Hres in Hr, Hc.
      destruct (refused_answer_last w (results evs0) res j Hr Hs) as [H1 H2]; [lia|done|].
      split; [done|lia].
    + split; [done|]. intros Hall'. rewrite Hres in Hall'.
      apply Forall_app in Hall' as [_ Hall']. by inversion Hall'.
Qed.

(** * The images of the three phases *)

Lemma created_images_app evs1 evs2 :
  created_images (evs1 ++ evs2) = created_images evs1 ++ created_images evs2.
Proof. apply omap_app. Qed.

Lemma created_images_round device info size isMsaa q c fmt :
  created_images
    (round_events device info size isMsaa c fmt
       (gBufferColor q !!! c) (uiImageViews q !!! c) (gBufferColorMSAA q !!! c)) =
  attachment_image <$> round_atts isMsaa q c.
Proof. unfold round_events, round_atts. by destruct isMsaa. Qed.

Lemma created_images_color device info size isMsaa q n :
  created_images (color_events device info size isMsaa q n) =
  attachment_image <$> flat_map (round_atts isMsaa q) (seq 0 n).
Proof.
  unfold color_events. induction (seq 0 n) as [|c l IH]; [done|].
  cbn [flat_map]. rewrite created_images_app, fmap_app, IH. f_equal.
  apply created_images_round.
Qed.

Lemma created_images_depth info size d :
  created_images (depth_events info size d) =
  if (depthFormat info =? VK_FORMAT_UNDEFINED)%N then [] else [image d].
Proof. unfold depth_events. by destruct (_ =? _)%N. Qed.

Lemma Forall_flat_map {A B} (P : B -> Prop) (f : A -> list B) l :
  (forall x, x ∈ l -> Forall P (f x)) -> Forall P (flat_map f l).
Proof.
  induction l as [|x l IH]; intros H; [constructor|]. cbn [flat_map].
  apply Forall_app. split.
  - apply H, list_elem_of_here.
  - apply IH. intros y Hy. by apply H, list_elem_of_further.
Qed.

Lemma length_flat_map {A B} (f : A -> list B) l k :
  (forall x, length (f x) = k) -> length (flat_map f l) = length l * k.
Proof.
  intros H. induction l as [|x l IH]; [done|]. cbn [flat_map].
  rewrite length_app, H, IH. simpl. lia.
Qed.

(** C1: a successful update that rebuilds, of a reachable manager with
    N < 2^32 colour formats, logs after the device wait and the teardown
    exactly this: the image creation calls [made] of this update (per
    colour format, in the order of the indices, the colour image with
    that format at the new size, its UI view, and with a sample count
    above one its multisampled shadow; then the depth image when a depth
    format is configured); then the three phases of commands, all into
    the supplied command buffer; then calls of the descriptor block only.
    The images of the three phases are the images that the creation
    calls of [made] returned, in the order of creation, none of them
    null: for each of the N formats the colour image held at that index
    followed by the multisampled image held at that index when the
    sample count exceeds one, then the depth image when the depth format
    is not undefined.  The three phases are: one barrier call with one
    barrier per image, from the undefined layout to the
    transfer-destination layout; one clear per image in
    transfer-destination layout, colour and multisampled images to
    (0,0,0,0), the depth image to depth 1.0 and stencil 0; one barrier
    call with one barrier per image, colour images to shader-read-only,
    multisampled images to colour-attachment, the depth image to
    depth-stencil-attachment layout.  Nothing else is recorded into the
    supplied command buffer by the update, and nothing into another one. *)
Theorem update_records_three_phases cmd newSize newSampleCount o w o' w' :
  reachable o ->
  (N.of_nat (length (colorFormats (m_info o))) < 2 ^ 32)%N ->
  ~ requested newSize newSampleCount o ->
  update cmd newSize newSampleCount (o, w) = Ret VK_SUCCESS (o', w') ->
  let isMsaa := (VK_SAMPLE_COUNT_1_BIT <? newSampleCount)%N in
  let n := length (colorFormats (m_info o)) in
  let info := set_sampleCount newSampleCount (m_info o) in
  let atts := attachments isMsaa (m_res o') in
  exists alloc made post,
    allocator (m_info o) = Some alloc /\
    made = color_events (getDevice alloc) info newSize isMsaa (m_res o') n ++
           depth_events info newSize (gBufferDepth (m_res o')) /\
    trace w' =
      trace w ++ EvDeviceWaitIdle (getDevice alloc) :: teardown_events alloc o ++
      made ++ (EvCmd cmd <$> three_phases atts) ++ post /\
    Forall ui_phase_event post /\
    recorded cmd (trace w') = recorded cmd (trace w) ++ three_phases atts /\
    (forall cmd', cmd' <> cmd -> recorded cmd' (trace w') = recorded cmd' (trace w)) /\
    attachment_image <$> atts = created_images made /\
    Forall (fun x => attachment_image x <> VK_NULL_HANDLE) atts /\
    length (gBufferColor (m_res o')) = n /\
    (isMsaa = true -> length (gBufferColorMSAA (m_res o')) = n) /\
    atts =
      flat_map (round_atts isMsaa (m_res o')) (seq 0 n) ++
      (if (depthFormat (m_info o) =? VK_FORMAT_UNDEFINED)%N then []
       else [DepthAtt (image (gBufferDepth (m_res o')))]) /\
    length atts =
      n * (if isMsaa then 2 else 1) +
      (if (depthFormat (m_info o) =? VK_FORMAT_UNDEFINED)%N then 0 else 1).
Proof.
  intros Hreach Hsmall Hreq Hrun isMsaa n info atts.
  destruct (update_frame _ _ _ _ _ _ _ _ Hrun) as [Hsize Hinfo].
  destruct (update_rebuilt _ _ _ _ _ _ _ Hreach Hreq Hrun) as (alloc & Ha & Hb).
  destruct Hb as (_ & _ & (Hl1 & _ & Hl3) & _ & evs & Ht & Hcol & Hdep & _ & Hrec & Hoth & _).
  cbn [fst snd] in *. simpl in Hl1, Hl3, Hcol, Hdep.
  rewrite (uint32_of_size_small _ Hsmall) in Hl1, Hl3, Hcol.
  fold n isMsaa in Hl1, Hl3, Hcol.
  (* the calls of the construction *)
  assert (evs = construction_events cmd (getDevice alloc) o') as Hevs.
  { pose proof Hrun as Hrun'.
    rewrite (update_rebuild_prepared _ _ _ _ _ alloc) in Hrun' by done.
    rewrite initResources_run in Hrun'.
    match type of Hrun' with
    | context [initResources_body cmd (?o1, ?w1)] =>
        pose proof (initResources_body_events cmd o1 w1 alloc o' w' Ha) as Hev;
        pose proof (initResources_body_oracle cmd (o1, w1)) as Hor
    end.
    destruct (initResources_body _ _) as [[] s'|res' s'|]; [| |done].
    - simplify_eq. specialize (Hev eq_refl). simpl in Hev. rewrite <- !app_assoc in Hev.
      simpl in Hev. rewrite Ht, <- app_assoc in Hev. simpl in Hev.
      apply app_inv_head in Hev. injection Hev as Hev. by apply app_inv_head in Hev.
    - simplify_eq. by destruct Hor as (_ & ? & _). }
  (* the depth image is there exactly when a depth format is configured *)
  assert (depth_atts (m_res o') =
          if (depthFormat (m_info o) =? VK_FORMAT_UNDEFINED)%N then []
          else [DepthAtt (image (gBufferDepth (m_res o')))]) as Hdatts.
  { unfold depth_atts. destruct (depthFormat (m_info o) =? 0)%N.
    - destruct Hdep as [-> _]. done.
    - destruct Hdep as (Hnz & _). by destruct (N.eqb_spec (image (gBufferDepth (m_res o'))) 0). }
  assert (atts =
          flat_map (round_atts isMsaa (m_res o')) (seq 0 n) ++
          (if (depthFormat (m_info o) =? VK_FORMAT_UNDEFINED)%N then []
           else [DepthAtt (image (gBufferDepth (m_res o')))])) as Hatts.
  { unfold atts, attachments. by rewrite Hl1, Hdatts. }
  exists alloc, (color_events (getDevice alloc) info newSize isMsaa (m_res o') n ++
                 depth_events info newSize (gBufferDepth (m_res o'))),
    (if (descriptorPool info =? VK_NULL_HANDLE)%N then []
     else ui_events (getDevice alloc) info (uint32_of_size (length (colorFormats info)))
            (m_descLayout o') (uiDescriptorSets (m_res o')) (uiImageViews (m_res o'))).
  split; [done|]. split; [done|]. split.
  { rewrite Ht, Hevs. unfold construction_events. rewrite Hinfo, Hsize, Hl1.
    fold info. cbn [sampleCount info set_sampleCount]. fold isMsaa. fold atts.
    rewrite <- !app_assoc. done. }
  split.
  { destruct (descriptorPool info =? VK_NULL_HANDLE)%N; [constructor|].
    unfold ui_events. by repeat constructor. }
  split.
  { rewrite Ht, !recorded_app, (recorded_silent _ _ (teardown_silent alloc o)).
    by rewrite app_nil_r, Hrec. }
  split.
  { intros cmd' Hne.
    rewrite Ht, !recorded_app, (recorded_silent _ _ (teardown_silent alloc o)).
    by rewrite (Hoth cmd' Hne), !app_nil_r. }
  split.
  { rewrite created_images_app, created_images_color, created_images_depth, Hatts, fmap_app.
    f_equal. cbn [depthFormat info set_sampleCount].
    by destruct (depthFormat (m_info o) =? VK_FORMAT_UNDEFINED)%N. }
  split.
  { rewrite Hatts. apply Forall_app. split.
    - apply Forall_flat_map. intros c Hc. apply elem_of_seq in Hc as [_ Hc]. simpl in Hc.
      destruct (Hcol c Hc) as [(fmt & col & uiv & _ & Hlc & _ & Hnz & _) Hm].
      unfold round_atts. rewrite (list_lookup_total_correct _ _ _ Hlc).
      constructor; [done|]. destruct isMsaa eqn:HisMsaa; [|constructor].
      destruct (Hm eq_refl) as (fmt' & col' & ms & _ & _ & Hlm & Hmz & _).
      rewrite (list_lookup_total_correct _ _ _ Hlm). by repeat constructor.
    - destruct (depthFormat (m_info o) =? 0)%N; [constructor|].
      destruct Hdep as (Hnz & _). by repeat constructor. }
  split; [done|]. split; [done|]. split; [done|].
  rewrite Hatts, length_app, (length_flat_map _ _ (if isMsaa then 2 else 1)), length_seq.
  - by destruct (depthFormat (m_info o) =? 0)%N.
  - intros c. unfold round_atts. by destruct isMsaa.
Qed.

Lemma update_returns_first_failure_witness :
  exists res o' w' evs,
    update example_cmd example_size VK_SAMPLE_COUNT_4_BIT
      (example_initialised example_pool VK_SAMPLE_COUNT_4_BIT, world0 (example_failing 3)) =
      Ret res (o', w') /\
    trace w' =
      trace (world0 (example_failing 3)) ++
      EvDeviceWaitIdle (getDevice example_alloc)
      :: teardown_events example_alloc
           (example_initialised example_pool VK_SAMPLE_COUNT_4_BIT) ++ evs /\
    calls w' = calls (world0 (example_failing 3)) + length (results evs) /\
    results evs = answers (world0 (example_failing 3)) (length (results evs)) /\
    (forall evs1 e evs2 r,
       evs = evs1 ++ e :: evs2 -> event_result e = Some r -> r <> VK_SUCCESS ->
       res = r /\ evs2 = [] /\ Forall (fun r => r = VK_SUCCESS) (results evs1)) /\
    (forall j,
       calls (world0 (example_failing 3)) <= j < calls w' ->
       oracle (world0 (example_failing 3)) j <> VK_SUCCESS ->
       res = oracle (world0 (example_failing 3)) j /\ calls w' = S j) /\
    (res = VK_SUCCESS <-> Forall (fun r => r = VK_SUCCESS) (results evs)) /\
    Forall construct_event evs /\
    all_held evs o'.
Proof.
  apply (update_returns_first_failure example_cmd example_size VK_SAMPLE_COUNT_4_BIT
           (example_initialised example_pool VK_SAMPLE_COUNT_4_BIT)
           (world0 (example_failing 3)) example_alloc).
  - apply example_reachable.
  - reflexivity.
  - apply example_not_requested.
Defined.

Lemma update_records_three_phases_witness :
  exists alloc made post,
    allocator (m_info (example_initialised example_pool VK_SAMPLE_COUNT_4_BIT)) = Some alloc /\
    made =
      color_events (getDevice alloc)
        (set_sampleCount VK_SAMPLE_COUNT_4_BIT
           (m_info (example_initialised example_pool VK_SAMPLE_COUNT_4_BIT)))
        example_size true (m_res (fst example_built)) 2 ++
      depth_events
        (set_sampleCount VK_SAMPLE_COUNT_4_BIT
           (m_info (example_initialised example_pool VK_SAMPLE_COUNT_4_BIT)))
        example_size (gBufferDepth (m_res (fst example_built))) /\
    trace (snd example_built) =
      trace example_world ++
      EvDeviceWaitIdle (getDevice alloc)
      :: teardown_events alloc (example_initialised example_pool VK_SAMPLE_COUNT_4_BIT) ++
      made ++
      (EvCmd example_cmd <$> three_phases (attachments true (m_res (fst example_built)))) ++
      post /\
    Forall ui_phase_event post /\
    recorded example_cmd (trace (snd example_built)) =
      recorded example_cmd (trace example_world) ++
      three_phases (attachments true (m_res (fst example_built))) /\
    (forall cmd', cmd' <> example_cmd ->
       recorded cmd' (trace (snd example_built)) = recorded cmd' (trace example_world)) /\
    attachment_image <$> attachments true (m_res (fst example_built)) =
      created_images made /\
    Forall (fun x => attachment_image x <> VK_NULL_HANDLE)
      (attachments true (m_res (fst example_built))) /\
    length (gBufferColor (m_res (fst example_built))) = 2 /\
    (true = true -> length (gBufferColorMSAA (m_res (fst example_built))) = 2) /\
    attachments true (m_res (fst example_built)) =
      flat_map (round_atts true (m_res (fst example_built))) (seq 0 2) ++
      [DepthAtt (image (gBufferDepth (m_res (fst example_built))))] /\
    length (attachments true (m_res (fst example_built))) = 2 * 2 + 1.
Proof.
  exact (update_records_three_phases example_cmd example_size VK_SAMPLE_COUNT_4_BIT
           (example_initialised example_pool VK_SAMPLE_COUNT_4_BIT) example_world
           (fst example_built) (snd example_built)
           (example_reachable example_pool VK_SAMPLE_COUNT_4_BIT)
           example_small example_not_requested example_built_run).
Defined.
